(** * InkFlow studio management: storage, routes and the sale form

    A shallow embedding of [server/storage.ts] (class [DatabaseStorage]),
    the schema it works on ([shared/schema.ts]), the handlers of
    [server/routes.ts] that the properties below speak about, the sale
    form's [mutationFn] ([SaleModal]) and the inventory page's
    [getStockStatus].

    Conventions of the model.
    - A table is a finite map from its primary key [id] to the remaining
      columns of the row.
    - A [decimal(10,2)] value is an integer number of cents, held by the
      column when it has at most ten digits; an [integer] value is held
      when it has 32 bits.  The datastore refuses a statement that
      carries any other value.  The form converts decimal values with
      [Number] and subtracts them; on values a [decimal(10,2)] column
      holds, the difference, once stored back in such a column, is the
      exact decimal difference, and the comparisons [remaining <= 0] and
      [remaining < total] agree with the exact ones.
    - A [timestamp] is a number of milliseconds of local wall-clock time,
      one the datastore can hold; the zone of the machine that evaluates
      [new Date(...)] is taken to have a fixed offset.
    - A JSON body either carries a field, with a value of the type
      [insertSaleSchema] gives it, or omits it.  The one field that
      cannot carry such a value is [saleDate]: the schema asks for a
      [Date], and JSON has only the text of one. *)

From stdpp Require Import gmap strings list numbers sorting.

Open Scope Z_scope.

(** ** The [Date] operations the storage layer calls *)

Module JSDate.

Definition msPerDay : Z := 86400000.

Definition Day (t : Z) : Z := t `div` msPerDay.
Definition TimeWithinDay (t : Z) : Z := t `mod` msPerDay.

(** Day number of the civil date [y]-[m]-[d], month [m] in 1..12, any
    [d]; day 0 is 1970-01-01. *)
Definition daysFromCivil (y m d : Z) : Z :=
  let y' := if decide (m ≤ 2) then y - 1 else y in
  let era := y' `div` 400 in
  let yoe := y' - era * 400 in
  let mp := if decide (2 < m) then m - 3 else m + 9 in
  let doy := (153 * mp + 2) `div` 5 + d - 1 in
  let doe := yoe * 365 + yoe `div` 4 - yoe `div` 100 + doy in
  era * 146097 + doe - 719468.

(** Civil date (year, month 1..12, day of month) of a day number. *)
Definition civilFromDays (z : Z) : Z * Z * Z :=
  let z' := z + 719468 in
  let era := z' `div` 146097 in
  let doe := z' - era * 146097 in
  let yoe := (doe - doe `div` 1460 + doe `div` 36524 - doe `div` 146096) `div` 365 in
  let doy := doe - (365 * yoe + yoe `div` 4 - yoe `div` 100) in
  let mp := (5 * doy + 2) `div` 153 in
  let d := doy - (153 * mp + 2) `div` 5 + 1 in
  let m := if decide (mp < 10) then mp + 3 else mp - 9 in
  let y := yoe + era * 400 in
  (if decide (m ≤ 2) then y + 1 else y, m, d).

Definition getFullYear (t : Z) : Z := (civilFromDays (Day t)).1.1.
(** Months count from 0, as in JavaScript. *)
Definition getMonth (t : Z) : Z := (civilFromDays (Day t)).1.2 - 1.
Definition getDate (t : Z) : Z := (civilFromDays (Day t)).2.

(** [MakeDay]: the month may lie outside 0..11 and the day outside the
    month; both carry over. *)
Definition MakeDay (year month date : Z) : Z :=
  daysFromCivil (year + month `div` 12) (month `mod` 12 + 1) 1 + date - 1.

(** [new Date(year, month, date)]: midnight of that day. *)
Definition newDate (year month date : Z) : Z :=
  MakeDay year month date * msPerDay.

(** [t.setHours(h, m, s, ms)] *)
Definition setHours (t h m s ms : Z) : Z :=
  Day t * msPerDay + (h * 3600000 + m * 60000 + s * 1000 + ms).

(** [t.setDate(d)] *)
Definition setDate (t d : Z) : Z :=
  MakeDay (getFullYear t) (getMonth t) d * msPerDay + TimeWithinDay t.

(** [new Date(y, m, d, hh, mm, ss, ms)], month from 0. *)
Definition at_ (y m d hh mm ss ms : Z) : Z :=
  setHours (newDate y m d) hh mm ss ms.

End JSDate.

Import JSDate.

(** ** The schema ([shared/schema.ts])

    Each module is one [pgTable]; the record holds the columns other than
    the primary key.  A column without [notNull()] is an [option]. *)

Definition Id := string.
Definition Timestamp := Z.
(** A [decimal(10,2)] value, in cents. *)
Definition Decimal := Z.

(** A number that may be NaN: what [Number(...)] gives in the sale form,
    and what the datastore's [numeric] type holds when it is handed the
    text "NaN", which a [decimal(10,2)] column takes. *)
Inductive Numeric :=
  | Amount (cents : Decimal)
  | NaN.

#[global] Instance Numeric_eq_dec : EqDecision Numeric.
Proof. solve_decision. Defined.

Module Artist.
Record t := mk {
  userId : option Id;
  name : string;
  email : option string;
  phone : option string;
  specialties : list string;
  schedule : option string;
  hourlyRate : option Decimal;
  isActive : option bool;
  createdAt : option Timestamp;
  updatedAt : option Timestamp }.
End Artist.

Module Client.
Record t := mk {
  firstName : string;
  lastName : string;
  email : option string;
  phone : option string;
  dateOfBirth : option Timestamp;
  address : option string;
  emergencyContact : option string;
  medicalNotes : option string;
  createdAt : option Timestamp;
  updatedAt : option Timestamp }.
End Client.

Inductive AppointmentStatus :=
  | scheduled | confirmed | in_progress | completed | cancelled | no_show.

Module Appointment.
Record t := mk {
  clientId : Id;
  artistId : Id;
  scheduledDate : Timestamp;
  duration : Z;
  bodyPart : string;
  description : option string;
  referenceImages : list string;
  status : option AppointmentStatus;
  estimatedPrice : option Decimal;
  notes : option string;
  createdAt : option Timestamp;
  updatedAt : option Timestamp }.
End Appointment.

Inductive InventoryCategory := ink | needles | supplies | equipment | aftercare.

Module Inventory.
Record t := mk {
  name : string;
  brand : option string;
  category : InventoryCategory;
  currentStock : Z;
  minLevel : Z;
  unitPrice : Decimal;
  supplier : option string;
  description : option string;
  createdAt : option Timestamp;
  updatedAt : option Timestamp }.
End Inventory.

Module Sale.
Record t := mk {
  appointmentId : option Id;
  clientId : Id;
  artistId : Id;
  totalAmount : Decimal;
  deposit : option Decimal;
  remainingBalance : option Numeric;
  paymentStatus : string;
  paymentMethod : option string;
  saleDate : option Timestamp;
  notes : option string;
  createdAt : option Timestamp;
  updatedAt : option Timestamp }.
End Sale.

(** A JSON body for the sales endpoints, and, with the same fields, the
    [Partial<InsertSale>] that [updateSale] takes.  In a JSON body
    [saleDate] is the text of the instant, in a [Partial<InsertSale>] it
    is a [Date]. *)
Module SaleBody.
Record t := mk {
  appointmentId : option Id;
  clientId : option Id;
  artistId : option Id;
  totalAmount : option Decimal;
  deposit : option Decimal;
  remainingBalance : option Numeric;
  paymentStatus : option string;
  paymentMethod : option string;
  saleDate : option Timestamp;
  notes : option string }.
End SaleBody.

(** [InsertSale = z.infer<typeof insertSaleSchema>] *)
Module InsertSale.
Record t := mk {
  appointmentId : option Id;
  clientId : Id;
  artistId : Id;
  totalAmount : Decimal;
  deposit : option Decimal;
  remainingBalance : option Numeric;
  paymentStatus : option string;
  paymentMethod : option string;
  saleDate : option Timestamp;
  notes : option string }.
End InsertSale.

(** The insert and update shapes of the other tables:
    [z.infer<typeof insertXSchema>] and its [Partial]. *)
Module InsertAppointment.
Record t := mk {
  clientId : Id;
  artistId : Id;
  scheduledDate : Timestamp;
  duration : Z;
  bodyPart : string;
  description : option string;
  referenceImages : option (list string);
  status : option AppointmentStatus;
  estimatedPrice : option Decimal;
  notes : option string }.
End InsertAppointment.

Module AppointmentUpdate.
Record t := mk {
  clientId : option Id;
  artistId : option Id;
  scheduledDate : option Timestamp;
  duration : option Z;
  bodyPart : option string;
  description : option string;
  referenceImages : option (list string);
  status : option AppointmentStatus;
  estimatedPrice : option Decimal;
  notes : option string }.
End AppointmentUpdate.

Module InsertClient.
Record t := mk {
  firstName : string;
  lastName : string;
  email : option string;
  phone : option string;
  dateOfBirth : option Timestamp;
  address : option string;
  emergencyContact : option string;
  medicalNotes : option string }.
End InsertClient.

Module ClientUpdate.
Record t := mk {
  firstName : option string;
  lastName : option string;
  email : option string;
  phone : option string;
  dateOfBirth : option Timestamp;
  address : option string;
  emergencyContact : option string;
  medicalNotes : option string }.
End ClientUpdate.

Module InsertInventory.
Record t := mk {
  name : string;
  brand : option string;
  category : InventoryCategory;
  currentStock : option Z;
  minLevel : option Z;
  unitPrice : Decimal;
  supplier : option string;
  description : option string }.
End InsertInventory.

Module InventoryUpdate.
Record t := mk {
  name : option string;
  brand : option string;
  category : option InventoryCategory;
  currentStock : option Z;
  minLevel : option Z;
  unitPrice : option Decimal;
  supplier : option string;
  description : option string }.
End InventoryUpdate.

(** [AppointmentWithRelations] and [SaleWithRelations].  The two joined
    columns are declared non-null in TypeScript, but a left join yields
    [null] for a row without a match and the [!] of [row.clients!] does
    not exist at run time, so the fields are options here. *)
Module AppointmentWithRelations.
Record t := mk {
  id : Id;
  row : Appointment.t;
  client : option Client.t;
  artist : option Artist.t }.
End AppointmentWithRelations.

Module SaleWithRelations.
Record t := mk {
  id : Id;
  row : Sale.t;
  client : option Client.t;
  artist : option Artist.t;
  appointment : option Appointment.t }.
End SaleWithRelations.

(** The database: one map per table. *)
Record Database := mkDatabase {
  artists : gmap Id Artist.t;
  clients : gmap Id Client.t;
  appointments : gmap Id Appointment.t;
  inventory : gmap Id Inventory.t;
  sales : gmap Id Sale.t }.

(** The [references(() => ...)] clauses of the schema that involve the
    five tables: every appointment and sale names an existing client and
    artist, and a sale's appointment, when present, exists. *)
Definition appointment_refs_ok (db : Database) (a : Appointment.t) : Prop :=
  is_Some (clients db !! Appointment.clientId a) ∧
  is_Some (artists db !! Appointment.artistId a).

Definition sale_refs_ok (db : Database) (s : Sale.t) : Prop :=
  is_Some (clients db !! Sale.clientId s) ∧
  is_Some (artists db !! Sale.artistId s) ∧
  from_option (λ aid, is_Some (appointments db !! aid)) True (Sale.appointmentId s).

Definition foreign_keys_ok (db : Database) : Prop :=
  map_Forall (λ _ a, appointment_refs_ok db a) (appointments db) ∧
  map_Forall (λ _ s, sale_refs_ok db s) (sales db).

#[global] Instance from_option_dec {A} (P : A → Prop) (Q : Prop) (o : option A) :
  (∀ a, Decision (P a)) → Decision Q → Decision (from_option P Q o).
Proof. intros ??. destruct o; simpl; apply _. Defined.

#[global] Instance appointment_refs_ok_dec db a : Decision (appointment_refs_ok db a).
Proof. unfold appointment_refs_ok. apply _. Defined.

#[global] Instance sale_refs_ok_dec db s : Decision (sale_refs_ok db s).
Proof. unfold sale_refs_ok. apply _. Defined.

#[global] Instance foreign_keys_ok_dec db : Decision (foreign_keys_ok db).
Proof. unfold foreign_keys_ok. apply _. Defined.

(** The values the numeric columns hold.  [decimal(10,2)]: fewer than
    10^10 cents either way; NaN passes.  [integer]: 32 bits. *)
Definition decimal_fits (c : Decimal) : Prop :=
  -10000000000 < c < 10000000000.

Definition numeric_fits (x : Numeric) : Prop :=
  match x with
  | Amount c => decimal_fits c
  | NaN => True
  end.

Definition integer_fits (n : Z) : Prop :=
  -2147483648 ≤ n ≤ 2147483647.

#[global] Instance decimal_fits_dec c : Decision (decimal_fits c).
Proof. unfold decimal_fits. apply _. Defined.

#[global] Instance numeric_fits_dec x : Decision (numeric_fits x).
Proof. destruct x; simpl; apply _. Defined.

#[global] Instance integer_fits_dec n : Decision (integer_fits n).
Proof. unfold integer_fits. apply _. Defined.

(** The numeric values a statement carries for each table: those of an
    insert, and those an update names. *)
Definition insertSale_fits (sale : InsertSale.t) : Prop :=
  decimal_fits (InsertSale.totalAmount sale) ∧
  from_option decimal_fits True (InsertSale.deposit sale) ∧
  from_option numeric_fits True (InsertSale.remainingBalance sale).

Definition saleUpdate_fits (updates : SaleBody.t) : Prop :=
  from_option decimal_fits True (SaleBody.totalAmount updates) ∧
  from_option decimal_fits True (SaleBody.deposit updates) ∧
  from_option numeric_fits True (SaleBody.remainingBalance updates).

Definition insertAppointment_fits (appointment : InsertAppointment.t) : Prop :=
  integer_fits (InsertAppointment.duration appointment) ∧
  from_option decimal_fits True (InsertAppointment.estimatedPrice appointment).

Definition appointmentUpdate_fits (updates : AppointmentUpdate.t) : Prop :=
  from_option integer_fits True (AppointmentUpdate.duration updates) ∧
  from_option decimal_fits True (AppointmentUpdate.estimatedPrice updates).

Definition insertInventory_fits (item : InsertInventory.t) : Prop :=
  from_option integer_fits True (InsertInventory.currentStock item) ∧
  from_option integer_fits True (InsertInventory.minLevel item) ∧
  decimal_fits (InsertInventory.unitPrice item).

Definition inventoryUpdate_fits (updates : InventoryUpdate.t) : Prop :=
  from_option integer_fits True (InventoryUpdate.currentStock updates) ∧
  from_option integer_fits True (InventoryUpdate.minLevel updates) ∧
  from_option decimal_fits True (InventoryUpdate.unitPrice updates).

#[global] Instance insertSale_fits_dec sale : Decision (insertSale_fits sale).
Proof. unfold insertSale_fits. apply _. Defined.

#[global] Instance saleUpdate_fits_dec updates : Decision (saleUpdate_fits updates).
Proof. unfold saleUpdate_fits. apply _. Defined.

#[global] Instance insertAppointment_fits_dec appointment :
  Decision (insertAppointment_fits appointment).
Proof. unfold insertAppointment_fits. apply _. Defined.

#[global] Instance appointmentUpdate_fits_dec updates :
  Decision (appointmentUpdate_fits updates).
Proof. unfold appointmentUpdate_fits. apply _. Defined.

#[global] Instance insertInventory_fits_dec item :
  Decision (insertInventory_fits item).
Proof. unfold insertInventory_fits. apply _. Defined.

#[global] Instance inventoryUpdate_fits_dec updates :
  Decision (inventoryUpdate_fits updates).
Proof. unfold inventoryUpdate_fits. apply _. Defined.

(** What the datastore can raise on the statements below: a reference
    that does not resolve or is still in use, a key or unique column
    already taken, a numeric value its column does not hold. *)
Inductive DbError :=
  | ForeignKeyViolation
  | UniqueViolation
  | NumericValueOutOfRange.

Inductive Result (A : Type) :=
  | Ok (a : A)
  | Throw (e : DbError).
Arguments Ok {A} a.
Arguments Throw {A} e.

(** ** [DatabaseStorage] ([server/storage.ts]) *)

Module Storage.

(** *** Single-row reads *)

Definition getArtist (id : Id) (db : Database) : option Artist.t :=
  artists db !! id.

Definition getClient (id : Id) (db : Database) : option Client.t :=
  clients db !! id.

Definition getInventoryItem (id : Id) (db : Database) : option Inventory.t :=
  inventory db !! id.

(** *** Deletes

    [db.delete(t).where(eq(t.id, id))] removes the rows of [t] whose key
    is [id].  The schema's references carry no [onDelete] action, so the
    statement is refused when a row it would remove is still referenced. *)

Definition artist_referenced (id : Id) (db : Database) : Prop :=
  map_Exists (λ _ a, Appointment.artistId a = id) (appointments db) ∨
  map_Exists (λ _ s, Sale.artistId s = id) (sales db).

Definition client_referenced (id : Id) (db : Database) : Prop :=
  map_Exists (λ _ a, Appointment.clientId a = id) (appointments db) ∨
  map_Exists (λ _ s, Sale.clientId s = id) (sales db).

Definition appointment_referenced (id : Id) (db : Database) : Prop :=
  map_Exists (λ _ s, Sale.appointmentId s = Some id) (sales db).

Definition deleteArtist (id : Id) (db : Database) : Result Database :=
  if decide (is_Some (artists db !! id) ∧ artist_referenced id db)
  then Throw ForeignKeyViolation
  else Ok (mkDatabase (delete id (artists db)) (clients db)
             (appointments db) (inventory db) (sales db)).

Definition deleteClient (id : Id) (db : Database) : Result Database :=
  if decide (is_Some (clients db !! id) ∧ client_referenced id db)
  then Throw ForeignKeyViolation
  else Ok (mkDatabase (artists db) (delete id (clients db))
             (appointments db) (inventory db) (sales db)).

Definition deleteAppointment (id : Id) (db : Database) : Result Database :=
  if decide (is_Some (appointments db !! id) ∧ appointment_referenced id db)
  then Throw ForeignKeyViolation
  else Ok (mkDatabase (artists db) (clients db)
             (delete id (appointments db)) (inventory db) (sales db)).

Definition deleteInventoryItem (id : Id) (db : Database) : Result Database :=
  Ok (mkDatabase (artists db) (clients db) (appointments db)
        (delete id (inventory db)) (sales db)).

Definition deleteSale (id : Id) (db : Database) : Result Database :=
  Ok (mkDatabase (artists db) (clients db) (appointments db)
        (inventory db) (delete id (sales db))).

(** *** Orderings of [orderBy] *)

Definition ascScheduledDate (x y : Id * Appointment.t) : Prop :=
  Appointment.scheduledDate x.2 ≤ Appointment.scheduledDate y.2.

Definition ascName (x y : Id * Inventory.t) : Prop :=
  Is_true (String.leb (Inventory.name x.2) (Inventory.name y.2)).

#[global] Instance ascScheduledDate_dec x y : Decision (ascScheduledDate x y).
Proof. unfold ascScheduledDate. apply _. Defined.

#[global] Instance ascName_dec x y : Decision (ascName x y).
Proof. unfold ascName. apply _. Defined.

(** *** Appointments and sales with their relations *)

Definition withRelations (db : Database) (kv : Id * Appointment.t)
  : AppointmentWithRelations.t :=
  AppointmentWithRelations.mk kv.1 kv.2
    (clients db !! Appointment.clientId kv.2)
    (artists db !! Appointment.artistId kv.2).

Definition getAppointment (id : Id) (db : Database)
  : option AppointmentWithRelations.t :=
  match appointments db !! id with
  | None => None
  | Some a => Some (withRelations db (id, a))
  end.

Definition getAppointmentsByDate (date : Timestamp) (db : Database)
  : list AppointmentWithRelations.t :=
  let startOfDay := setHours date 0 0 0 0 in
  let endOfDay := setHours date 23 59 59 999 in
  let rows :=
    filter (λ kv : Id * Appointment.t,
              startOfDay ≤ Appointment.scheduledDate kv.2 ∧
              Appointment.scheduledDate kv.2 ≤ endOfDay)
           (appointments db) in
  withRelations db <$>
    merge_sort ascScheduledDate (map_to_list rows).

Definition getSale (id : Id) (db : Database) : option SaleWithRelations.t :=
  match sales db !! id with
  | None => None
  | Some s =>
      Some (SaleWithRelations.mk id s
              (clients db !! Sale.clientId s)
              (artists db !! Sale.artistId s)
              (Sale.appointmentId s ≫= λ aid, appointments db !! aid))
  end.

(** *** Inventory *)

Definition getLowStockItems (db : Database) : list (Id * Inventory.t) :=
  merge_sort ascName
    (map_to_list
       (filter (λ kv : Id * Inventory.t,
                  Inventory.currentStock kv.2 ≤ Inventory.minLevel kv.2)
               (inventory db))).

(** *** Sale writes

    [newId] is the key [gen_random_uuid()] draws for the new row and
    [now] the value of [defaultNow()] / [new Date()].  The datastore
    reads the values of a statement before it touches a row, then checks
    the keys, then the references. *)

Definition insertedSale (sale : InsertSale.t) (now : Timestamp) : Sale.t :=
  Sale.mk (InsertSale.appointmentId sale)
    (InsertSale.clientId sale)
    (InsertSale.artistId sale)
    (InsertSale.totalAmount sale)
    (Some (default 0 (InsertSale.deposit sale)))
    (Some (default (Amount 0) (InsertSale.remainingBalance sale)))
    (default "pending"%string (InsertSale.paymentStatus sale))
    (InsertSale.paymentMethod sale)
    (Some (default now (InsertSale.saleDate sale)))
    (InsertSale.notes sale)
    (Some now) (Some now).

Definition createSale (sale : InsertSale.t) (now : Timestamp) (newId : Id)
    (db : Database) : Result (Sale.t * Database) :=
  let row := insertedSale sale now in
  if decide (insertSale_fits sale) then
    if decide (is_Some (sales db !! newId)) then Throw UniqueViolation
    else if decide (sale_refs_ok db row)
    then Ok (row, mkDatabase (artists db) (clients db) (appointments db)
                    (inventory db) (<[newId := row]> (sales db)))
    else Throw ForeignKeyViolation
  else Throw NumericValueOutOfRange.

(** [set({ ...updates, updatedAt: new Date() })]: a column is replaced
    when the update names it. *)
Definition updatedSale (old : Sale.t) (updates : SaleBody.t)
    (now : Timestamp) : Sale.t :=
  let keep {A} (new old : option A) : option A :=
    match new with Some v => Some v | None => old end in
  Sale.mk (keep (SaleBody.appointmentId updates) (Sale.appointmentId old))
    (default (Sale.clientId old) (SaleBody.clientId updates))
    (default (Sale.artistId old) (SaleBody.artistId updates))
    (default (Sale.totalAmount old) (SaleBody.totalAmount updates))
    (keep (SaleBody.deposit updates) (Sale.deposit old))
    (keep (SaleBody.remainingBalance updates) (Sale.remainingBalance old))
    (default (Sale.paymentStatus old) (SaleBody.paymentStatus updates))
    (keep (SaleBody.paymentMethod updates) (Sale.paymentMethod old))
    (keep (SaleBody.saleDate updates) (Sale.saleDate old))
    (keep (SaleBody.notes updates) (Sale.notes old))
    (Sale.createdAt old) (Some now).

(** The result is [undefined] when no row has the key. *)
Definition updateSale (id : Id) (updates : SaleBody.t) (now : Timestamp)
    (db : Database) : Result (option Sale.t * Database) :=
  if decide (saleUpdate_fits updates) then
    match sales db !! id with
    | None => Ok (None, db)
    | Some old =>
        let row := updatedSale old updates now in
        if decide (sale_refs_ok db row)
        then Ok (Some row, mkDatabase (artists db) (clients db) (appointments db)
                             (inventory db) (<[id := row]> (sales db)))
        else Throw ForeignKeyViolation
    end
  else Throw NumericValueOutOfRange.

(** *** Dashboard *)

Record DashboardStats := mkStats {
  todayAppointments : Z;
  monthlyRevenue : Decimal;
  activeArtists : Z;
  lowStockItems : Z }.

(** [now] is the value of [new Date()] on entry. *)
Definition getDashboardStats (now : Timestamp) (db : Database) : DashboardStats :=
  let today := setHours now 0 0 0 0 in
  let tomorrow := setDate today (getDate today + 1) in
  let startOfMonth := newDate (getFullYear today) (getMonth today) 1 in
  let endOfMonth := newDate (getFullYear today) (getMonth today + 1) 0 in
  let todayAppointmentsResult :=
    size (filter (λ kv : Id * Appointment.t,
                    today ≤ Appointment.scheduledDate kv.2 ∧
                    Appointment.scheduledDate kv.2 ≤ tomorrow)
                 (appointments db)) in
  let monthlyRevenueResult :=
    map_fold (λ _ s acc, Sale.totalAmount s + acc) 0
      (filter (λ kv : Id * Sale.t,
                 from_option (λ d, startOfMonth ≤ d ∧ d ≤ endOfMonth)
                             False (Sale.saleDate kv.2))
              (sales db)) in
  let activeArtistsResult :=
    size (filter (λ kv : Id * Artist.t, Artist.isActive kv.2 = Some true)
                 (artists db)) in
  let lowStockItemsResult :=
    size (filter (λ kv : Id * Inventory.t,
                    Inventory.currentStock kv.2 ≤ Inventory.minLevel kv.2)
                 (inventory db)) in
  mkStats (Z.of_nat todayAppointmentsResult) monthlyRevenueResult
          (Z.of_nat activeArtistsResult) (Z.of_nat lowStockItemsResult).

(** *** The other list queries *)

Definition descScheduledDate (x y : Id * Appointment.t) : Prop :=
  Appointment.scheduledDate y.2 ≤ Appointment.scheduledDate x.2.

(** [desc(sales.saleDate)]: the column is nullable and the datastore puts
    the rows without a date first in a descending order. *)
Definition descSaleDate (x y : Id * Sale.t) : Prop :=
  match Sale.saleDate x.2, Sale.saleDate y.2 with
  | None, _ => True
  | Some _, None => False
  | Some a, Some b => b ≤ a
  end.

#[global] Instance descScheduledDate_dec x y : Decision (descScheduledDate x y).
Proof. unfold descScheduledDate. apply _. Defined.

#[global] Instance descSaleDate_dec x y : Decision (descSaleDate x y).
Proof.
  unfold descSaleDate.
  destruct (Sale.saleDate x.2), (Sale.saleDate y.2); apply _.
Defined.

Definition getAppointments (db : Database) : list AppointmentWithRelations.t :=
  withRelations db <$> merge_sort descScheduledDate (map_to_list (appointments db)).

Definition getAppointmentsByArtist (artistId : Id) (db : Database)
  : list AppointmentWithRelations.t :=
  withRelations db <$>
    merge_sort descScheduledDate
      (map_to_list (filter (λ kv : Id * Appointment.t,
                              Appointment.artistId kv.2 = artistId)
                           (appointments db))).

Definition saleWithRelations (db : Database) (kv : Id * Sale.t)
  : SaleWithRelations.t :=
  SaleWithRelations.mk kv.1 kv.2
    (clients db !! Sale.clientId kv.2)
    (artists db !! Sale.artistId kv.2)
    (Sale.appointmentId kv.2 ≫= λ aid, appointments db !! aid).

Definition getSales (db : Database) : list SaleWithRelations.t :=
  saleWithRelations db <$> merge_sort descSaleDate (map_to_list (sales db)).

Definition getSalesByDateRange (startDate endDate : Timestamp) (db : Database)
  : list SaleWithRelations.t :=
  saleWithRelations db <$>
    merge_sort descSaleDate
      (map_to_list (filter (λ kv : Id * Sale.t,
                              from_option (λ d, startDate ≤ d ∧ d ≤ endDate)
                                          False (Sale.saleDate kv.2))
                           (sales db))).

(** *** Writes to the other tables *)

(** A column of an update: the new value when the update names it. *)
Definition orKeep {A} (new old : option A) : option A :=
  match new with Some v => Some v | None => old end.

Definition insertedAppointment (appointment : InsertAppointment.t)
    (now : Timestamp) : Appointment.t :=
  Appointment.mk (InsertAppointment.clientId appointment)
    (InsertAppointment.artistId appointment)
    (InsertAppointment.scheduledDate appointment)
    (InsertAppointment.duration appointment)
    (InsertAppointment.bodyPart appointment)
    (InsertAppointment.description appointment)
    (default [] (InsertAppointment.referenceImages appointment))
    (Some (default scheduled (InsertAppointment.status appointment)))
    (InsertAppointment.estimatedPrice appointment)
    (InsertAppointment.notes appointment)
    (Some now) (Some now).

Definition withAppointment (db : Database) (id : Id) (row : Appointment.t)
  : Database :=
  mkDatabase (artists db) (clients db) (<[id := row]> (appointments db))
             (inventory db) (sales db).

Definition createAppointment (appointment : InsertAppointment.t)
    (now : Timestamp) (newId : Id) (db : Database)
  : Result (Appointment.t * Database) :=
  let row := insertedAppointment appointment now in
  if decide (insertAppointment_fits appointment) then
    if decide (is_Some (appointments db !! newId)) then Throw UniqueViolation
    else if decide (appointment_refs_ok db row)
    then Ok (row, withAppointment db newId row)
    else Throw ForeignKeyViolation
  else Throw NumericValueOutOfRange.

Definition updatedAppointment (old : Appointment.t)
    (updates : AppointmentUpdate.t) (now : Timestamp) : Appointment.t :=
  Appointment.mk
    (default (Appointment.clientId old) (AppointmentUpdate.clientId updates))
    (default (Appointment.artistId old) (AppointmentUpdate.artistId updates))
    (default (Appointment.scheduledDate old)
             (AppointmentUpdate.scheduledDate updates))
    (default (Appointment.duration old) (AppointmentUpdate.duration updates))
    (default (Appointment.bodyPart old) (AppointmentUpdate.bodyPart updates))
    (orKeep (AppointmentUpdate.description updates) (Appointment.description old))
    (default (Appointment.referenceImages old)
             (AppointmentUpdate.referenceImages updates))
    (orKeep (AppointmentUpdate.status updates) (Appointment.status old))
    (orKeep (AppointmentUpdate.estimatedPrice updates)
            (Appointment.estimatedPrice old))
    (orKeep (AppointmentUpdate.notes updates) (Appointment.notes old))
    (Appointment.createdAt old) (Some now).

Definition updateAppointment (id : Id) (updates : AppointmentUpdate.t)
    (now : Timestamp) (db : Database)
  : Result (option Appointment.t * Database) :=
  if decide (appointmentUpdate_fits updates) then
    match appointments db !! id with
    | None => Ok (None, db)
    | Some old =>
        let row := updatedAppointment old updates now in
        if decide (appointment_refs_ok db row)
        then Ok (Some row, withAppointment db id row)
        else Throw ForeignKeyViolation
    end
  else Throw NumericValueOutOfRange.

(** [email: varchar("email").unique()]: another client row, other than
    the row [except] being written, already holds the address. *)
Definition email_taken (e : string) (except : option Id) (db : Database) : Prop :=
  map_Exists (λ k c, Some k ≠ except ∧ Client.email c = Some e) (clients db).

Definition insertedClient (client : InsertClient.t) (now : Timestamp) : Client.t :=
  Client.mk (InsertClient.firstName client) (InsertClient.lastName client)
    (InsertClient.email client) (InsertClient.phone client)
    (InsertClient.dateOfBirth client) (InsertClient.address client)
    (InsertClient.emergencyContact client) (InsertClient.medicalNotes client)
    (Some now) (Some now).

Definition withClient (db : Database) (id : Id) (row : Client.t) : Database :=
  mkDatabase (artists db) (<[id := row]> (clients db)) (appointments db)
             (inventory db) (sales db).

Definition createClient (client : InsertClient.t) (now : Timestamp)
    (newId : Id) (db : Database) : Result (Client.t * Database) :=
  let row := insertedClient client now in
  if decide (is_Some (clients db !! newId)) then Throw UniqueViolation
  else if decide (from_option (λ e, email_taken e None db) False (Client.email row))
  then Throw UniqueViolation
  else Ok (row, withClient db newId row).

Definition updatedClient (old : Client.t) (updates : ClientUpdate.t)
    (now : Timestamp) : Client.t :=
  Client.mk
    (default (Client.firstName old) (ClientUpdate.firstName updates))
    (default (Client.lastName old) (ClientUpdate.lastName updates))
    (orKeep (ClientUpdate.email updates) (Client.email old))
    (orKeep (ClientUpdate.phone updates) (Client.phone old))
    (orKeep (ClientUpdate.dateOfBirth updates) (Client.dateOfBirth old))
    (orKeep (ClientUpdate.address updates) (Client.address old))
    (orKeep (ClientUpdate.emergencyContact updates) (Client.emergencyContact old))
    (orKeep (ClientUpdate.medicalNotes updates) (Client.medicalNotes old))
    (Client.createdAt old) (Some now).

Definition updateClient (id : Id) (updates : ClientUpdate.t) (now : Timestamp)
    (db : Database) : Result (option Client.t * Database) :=
  match clients db !! id with
  | None => Ok (None, db)
  | Some old =>
      let row := updatedClient old updates now in
      if decide (from_option (λ e, email_taken e (Some id) db) False
                             (Client.email row))
      then Throw UniqueViolation
      else Ok (Some row, withClient db id row)
  end.

Definition insertedInventoryItem (item : InsertInventory.t) (now : Timestamp)
  : Inventory.t :=
  Inventory.mk (InsertInventory.name item) (InsertInventory.brand item)
    (InsertInventory.category item)
    (default 0 (InsertInventory.currentStock item))
    (default 0 (InsertInventory.minLevel item))
    (InsertInventory.unitPrice item) (InsertInventory.supplier item)
    (InsertInventory.description item) (Some now) (Some now).

Definition withInventoryItem (db : Database) (id : Id) (row : Inventory.t)
  : Database :=
  mkDatabase (artists db) (clients db) (appointments db)
             (<[id := row]> (inventory db)) (sales db).

Definition createInventoryItem (item : InsertInventory.t) (now : Timestamp)
    (newId : Id) (db : Database) : Result (Inventory.t * Database) :=
  let row := insertedInventoryItem item now in
  if decide (insertInventory_fits item) then
    if decide (is_Some (inventory db !! newId)) then Throw UniqueViolation
    else Ok (row, withInventoryItem db newId row)
  else Throw NumericValueOutOfRange.

Definition updatedInventoryItem (old : Inventory.t) (updates : InventoryUpdate.t)
    (now : Timestamp) : Inventory.t :=
  Inventory.mk
    (default (Inventory.name old) (InventoryUpdate.name updates))
    (orKeep (InventoryUpdate.brand updates) (Inventory.brand old))
    (default (Inventory.category old) (InventoryUpdate.category updates))
    (default (Inventory.currentStock old) (InventoryUpdate.currentStock updates))
    (default (Inventory.minLevel old) (InventoryUpdate.minLevel updates))
    (default (Inventory.unitPrice old) (InventoryUpdate.unitPrice updates))
    (orKeep (InventoryUpdate.supplier updates) (Inventory.supplier old))
    (orKeep (InventoryUpdate.description updates) (Inventory.description old))
    (Inventory.createdAt old) (Some now).

Definition updateInventoryItem (id : Id) (updates : InventoryUpdate.t)
    (now : Timestamp) (db : Database)
  : Result (option Inventory.t * Database) :=
  if decide (inventoryUpdate_fits updates) then
    match inventory db !! id with
    | None => Ok (None, db)
    | Some old =>
        let row := updatedInventoryItem old updates now in
        Ok (Some row, withInventoryItem db id row)
    end
  else Throw NumericValueOutOfRange.

End Storage.

(** ** The handlers of [registerRoutes] ([server/routes.ts])

    Every handler sits behind [isAuthenticated]; the request is taken to
    have passed it. *)

Inductive Response (A : Type) :=
  | Json (status : Z) (payload : A)
  | Message (status : Z) (message : string)
  | NoContent (status : Z).
Arguments Json {A} status payload.
Arguments Message {A} status message.
Arguments NoContent {A} status.

Definition statusOf {A} (r : Response A) : Z :=
  match r with
  | Json s _ | Message s _ | NoContent s => s
  end.

Module Routes.

(** [app.delete('/api/.../:id')]: 204 when the storage call returns,
    500 when it throws. *)
Definition handleDelete (del : Id → Database → Result Database) (what : string)
    (id : Id) (db : Database) : Response unit * Database :=
  match del id db with
  | Ok db' => (NoContent 204, db')
  | Throw _ => (Message 500 ("Failed to delete " +:+ what), db)
  end.

Definition deleteArtists := handleDelete Storage.deleteArtist "artist".
Definition deleteClients := handleDelete Storage.deleteClient "client".
Definition deleteAppointments :=
  handleDelete Storage.deleteAppointment "appointment".
Definition deleteInventory :=
  handleDelete Storage.deleteInventoryItem "inventory item".
Definition deleteSales := handleDelete Storage.deleteSale "sale".

(** [app.get('/api/appointments/:id')] *)
Definition getAppointmentById (id : Id) (db : Database)
  : Response AppointmentWithRelations.t :=
  match Storage.getAppointment id db with
  | None => Message 404 "Appointment not found"
  | Some appointment => Json 200 appointment
  end.

(** [app.get('/api/sales/:id')] *)
Definition getSaleById (id : Id) (db : Database) : Response SaleWithRelations.t :=
  match Storage.getSale id db with
  | None => Message 404 "Sale not found"
  | Some sale => Json 200 sale
  end.

(** [insertSaleSchema.parse(req.body)]; [None] stands for the [ZodError].
    The schema requires [clientId], [artistId] and [totalAmount], and
    wants a [Date] for [saleDate]: a body that carries the field carries
    a string there and is refused. *)
Definition parseInsertSale (body : SaleBody.t) : option InsertSale.t :=
  clientId ← SaleBody.clientId body;
  artistId ← SaleBody.artistId body;
  totalAmount ← SaleBody.totalAmount body;
  match SaleBody.saleDate body with
  | Some _ => None
  | None =>
      Some (InsertSale.mk (SaleBody.appointmentId body) clientId artistId
              totalAmount (SaleBody.deposit body) (SaleBody.remainingBalance body)
              (SaleBody.paymentStatus body) (SaleBody.paymentMethod body)
              None (SaleBody.notes body))
  end.

(** [insertSaleSchema.partial().parse(req.body)]: no field is required,
    and [saleDate] is refused as above. *)
Definition parsePartialInsertSale (body : SaleBody.t) : option SaleBody.t :=
  match SaleBody.saleDate body with
  | Some _ => None
  | None => Some body
  end.

(** [app.post('/api/sales')] *)
Definition postSales (body : SaleBody.t) (now : Timestamp) (newId : Id)
    (db : Database) : Response Sale.t * Database :=
  match parseInsertSale body with
  | None => (Message 400 "Failed to create sale", db)
  | Some validatedData =>
      match Storage.createSale validatedData now newId db with
      | Ok (sale, db') => (Json 201 sale, db')
      | Throw _ => (Message 400 "Failed to create sale", db)
      end
  end.

(** [app.patch('/api/sales/:id')] *)
Definition patchSales (id : Id) (body : SaleBody.t) (now : Timestamp)
    (db : Database) : Response (option Sale.t) * Database :=
  match parsePartialInsertSale body with
  | None => (Message 400 "Failed to update sale", db)
  | Some updates =>
      match Storage.updateSale id updates now db with
      | Ok (sale, db') => (Json 200 sale, db')
      | Throw _ => (Message 400 "Failed to update sale", db)
      end
  end.

(** [app.get('/api/dashboard/stats')] *)
Definition getDashboardStats (now : Timestamp) (db : Database)
  : Response Storage.DashboardStats :=
  Json 200 (Storage.getDashboardStats now db).

End Routes.

(** ** The sale form ([SaleModal]) *)

Module SaleModal.

(** [Number(x)] on a decimal field: the amount the field holds, and NaN
    for a field that is [undefined]. *)
Definition Number (x : option Decimal) : Numeric :=
  match x with
  | Some c => Amount c
  | None => NaN
  end.

(** [x - y], [x <= y] and [x < y] on numbers: a NaN operand makes the
    difference NaN and the comparison false. *)
Definition minus (x y : Numeric) : Numeric :=
  match x, y with
  | Amount a, Amount b => Amount (a - b)
  | _, _ => NaN
  end.

Definition leq (x y : Numeric) : bool :=
  match x, y with
  | Amount a, Amount b => bool_decide (a ≤ b)
  | _, _ => false
  end.

Definition lt (x y : Numeric) : bool :=
  match x, y with
  | Amount a, Amount b => bool_decide (a < b)
  | _, _ => false
  end.

(** [x || 0] *)
Definition orZero (x : Numeric) : Z :=
  match x with
  | Amount c => c
  | NaN => 0
  end.

(** The conditional that fills [paymentStatus] in the payload. *)
Definition paymentStatusOf (remaining total : Numeric) : string :=
  if leq remaining (Amount 0) then "completed"
  else if lt remaining total then "partial"
  else "pending".

(** The [payload] that [mutationFn] builds from the form's [data];
    [remaining.toString()] is the text of the amount, or "NaN".  A date
    in [data] travels as its text. *)
Definition payload (data : InsertSale.t) : SaleBody.t :=
  let total := Number (Some (InsertSale.totalAmount data)) in
  let deposit := Number (InsertSale.deposit data) in
  let remaining := minus total deposit in
  SaleBody.mk (InsertSale.appointmentId data)
    (Some (InsertSale.clientId data))
    (Some (InsertSale.artistId data))
    (Some (InsertSale.totalAmount data))
    (InsertSale.deposit data)
    (Some remaining)
    (Some (paymentStatusOf remaining total))
    (InsertSale.paymentMethod data)
    (InsertSale.saleDate data)
    (InsertSale.notes data).

(** [mutationFn]: [sale] is the sale being edited, if any.  The status
    of the response and the database after the request. *)
Definition mutationFn (sale : option Id) (data : InsertSale.t)
    (now : Timestamp) (newId : Id) (db : Database) : Z * Database :=
  match sale with
  | Some id =>
      let '(r, db') := Routes.patchSales id (payload data) now db in
      (statusOf r, db')
  | None =>
      let '(r, db') := Routes.postSales (payload data) now newId db in
      (statusOf r, db')
  end.

(** The "Remaining Balance" the form shows next to the two inputs, from
    the two watched fields. *)
Definition remainingBalance (totalAmount deposit : option Decimal) : Z :=
  let totalAmount := orZero (Number totalAmount) in
  let deposit := orZero (Number deposit) in
  Z.max 0 (totalAmount - deposit).

End SaleModal.

(** ** The inventory page *)

Module InventoryPage.

Record StockStatus := mkStatus { label : string; color : string }.

Definition getStockStatus (currentStock minLevel : Z) : StockStatus :=
  if decide (currentStock = 0) then
    mkStatus "Out of Stock"
      "bg-red-100 text-red-800 dark:bg-red-900 dark:text-red-200"
  else if decide (currentStock ≤ minLevel) then
    mkStatus "Low Stock"
      "bg-orange-100 text-orange-800 dark:bg-orange-900 dark:text-orange-200"
  else
    mkStatus "In Stock"
      "bg-green-100 text-green-800 dark:bg-green-900 dark:text-green-200".

(** The [matchesStock] part of the callback of [filteredInventory]. *)
Definition matchesStock (stockFilter : string) (currentStock minLevel : Z) : bool :=
  if decide (stockFilter = "low") then bool_decide (currentStock ≤ minLevel)
  else if decide (stockFilter = "out") then bool_decide (currentStock = 0)
  else if decide (stockFilter = "in") then bool_decide (currentStock > minLevel)
  else true.

(** The condition under which a row of the table shows the warning sign. *)
Definition showsWarning (currentStock minLevel : Z) : bool :=
  bool_decide (currentStock ≤ minLevel) && bool_decide (currentStock > 0).

End InventoryPage.

(** ** The artist form ([ArtistModal]): the list of specialties *)

Module ArtistModal.

Definition addSpecialty (specialties : list string) (specialty : string)
  : list string :=
  if decide (specialty ≠ "" ∧ specialty ∉ specialties)
  then specialties ++ [specialty]
  else specialties.

Definition removeSpecialty (specialties : list string) (specialty : string)
  : list string :=
  filter (λ s, s ≠ specialty) specialties.

End ArtistModal.

(** ** The reference-image picker ([FileUpload])

    [value] is the list of urls the form holds. *)

Module FileUpload.

Record File := mkFile { name : string; type : string; size : Z }.

(** What [handleFiles] does with a selection: one of the two toasts, or
    the upload of the files. *)
Inductive Handled :=
  | TooManyFiles
  | InvalidFiles
  | Uploading (files : list File).

Definition isInvalid (maxSizePerFile : Z) (file : File) : Prop :=
  let isValidType := String.prefix "image/" (type file) in
  let isValidSize := bool_decide (size file ≤ maxSizePerFile * 1024 * 1024) in
  Is_true (negb isValidType || negb isValidSize).

#[global] Instance isInvalid_dec maxSizePerFile file :
  Decision (isInvalid maxSizePerFile file).
Proof. unfold isInvalid. apply _. Defined.

Definition handleFiles (value : list string) (maxFiles maxSizePerFile : Z)
    (files : list File) : Handled :=
  if decide (Z.of_nat (length value) + Z.of_nat (length files) > maxFiles)
  then TooManyFiles
  else
    let invalidFiles := filter (isInvalid maxSizePerFile) files in
    if decide (Z.of_nat (length invalidFiles) > 0) then InvalidFiles
    else Uploading files.

(** [onSuccess]: the urls the server answered are appended. *)
Definition onSuccess (value urls : list string) : list string := value ++ urls.

(** [removeFile]: [value.filter((_, i) => i !== index)] *)
Definition removeFile (value : list string) (index : Z) : list string :=
  snd <$> filter (λ ix : Z * string, ix.1 ≠ index)
                 (zip (seqZ 0 (Z.of_nat (length value))) value).

End FileUpload.

(** ** The sales page: the range of dates it asks for *)

Module SalesPage.

(** [getDateRangeParams]: the two bounds, or nothing for a range it does
    not know.  [now] is [new Date()] in the browser that shows the page,
    and the calendar is the browser's. *)
Definition getDateRangeParams (dateRange : string) (now : Timestamp)
  : option (Timestamp * Timestamp) :=
  if decide (dateRange = "today") then
    Some (setHours now 0 0 0 0, setHours now 23 59 59 999)
  else if decide (dateRange = "week") then
    Some (setDate now (getDate now - 7), now)
  else if decide (dateRange = "month") then
    Some (newDate (getFullYear now) (getMonth now) 1,
          newDate (getFullYear now) (getMonth now + 1) 0)
  else if decide (dateRange = "year") then
    Some (newDate (getFullYear now) 0 1, newDate (getFullYear now) 11 31)
  else None.

End SalesPage.

(** ** A small studio used in the examples

    One client, one artist, three appointments around the night of
    2024-03-10 and two sales in February 2024. *)

Module Example.

Definition ana : Client.t :=
  Client.mk "Ana" "Lopez" None None None None None None None None.

Definition rex : Artist.t :=
  Artist.mk None "Rex" None None ["blackwork"] None (Some 8000) (Some true)
    None None.

Definition appointmentAt (d : Timestamp) : Appointment.t :=
  Appointment.mk "c1" "a1" d 60 "arm" None [] (Some scheduled) None None
    None None.

Definition saleOf (total : Decimal) (d : Timestamp) : Sale.t :=
  Sale.mk None "c1" "a1" total (Some 0) (Some (Amount total)) "pending" None
    (Some d) None None None.

Definition item (name : string) (currentStock minLevel : Z) : Inventory.t :=
  Inventory.mk name None ink currentStock minLevel 1500 None None None None.

Definition febSales : gmap Id Sale.t :=
  <["s1" := saleOf 10000 (at_ 2024 1 10 12 0 0 0)]>
    (<["s2" := saleOf 25050 (at_ 2024 1 29 15 0 0 0)]> ∅).

Definition studio : Database :=
  mkDatabase {[ "a1" := rex ]} {[ "c1" := ana ]}
    (<["p1" := appointmentAt (at_ 2024 2 10 14 0 0 0)]>
       (<["p2" := appointmentAt (at_ 2024 2 11 0 0 0 0)]>
          (<["p3" := appointmentAt (at_ 2024 2 9 23 0 0 0)]> ∅)))
    (<["i1" := item "black ink" 3 5]>
       (<["i2" := item "gloves" 0 5]>
          (<["i3" := item "needles 7RL" 40 10]> ∅)))
    febSales.

(** What the sale form holds for a total and a deposit. *)
Definition form (total deposit : Decimal) : InsertSale.t :=
  InsertSale.mk None "c1" "a1" total (Some deposit) (Some (Amount 0))
    (Some "pending") (Some "cash") None None.

(** 2024-03-10 09:00 and 2024-02-15 10:30, two moments of evaluation. *)
Definition march10 : Timestamp := at_ 2024 2 10 9 0 0 0.
Definition feb15 : Timestamp := at_ 2024 1 15 10 30 0 0.

(** A request body that does not come from the form: 100.00 with 30.00
    paid, yet a balance of 999.00 and the status "completed". *)
Definition handWritten : SaleBody.t :=
  SaleBody.mk None (Some "c1") (Some "a1") (Some 10000) (Some 3000)
    (Some (Amount 99900)) (Some "completed") None None None.

(** A body that changes the deposit of a sale and nothing else. *)
Definition depositOnly (deposit : Decimal) : SaleBody.t :=
  SaleBody.mk None None None None (Some deposit) None None None None None.

End Example.

(** ** The two dashboard figures as the specification words them

    [todayAppointments]: the appointments whose [scheduledDate] lies in
    [start-of-day, start-of-next-day) around the moment of evaluation.
    [monthlyRevenue]: the sum of [totalAmount] over the sales whose
    [saleDate] falls in the calendar month of that moment, first day
    00:00:00 through the end of the last day. *)

Module Spec.

Definition startOfDay (asOf : Timestamp) : Timestamp := Day asOf * msPerDay.
Definition startOfNextDay (asOf : Timestamp) : Timestamp :=
  (Day asOf + 1) * msPerDay.

Definition todayAppointments (asOf : Timestamp) (db : Database) : Z :=
  Z.of_nat (size (filter (λ kv : Id * Appointment.t,
                            startOfDay asOf ≤ Appointment.scheduledDate kv.2 ∧
                            Appointment.scheduledDate kv.2 < startOfNextDay asOf)
                         (appointments db))).

Definition sameMonth (asOf d : Timestamp) : Prop :=
  getFullYear d = getFullYear asOf ∧ getMonth d = getMonth asOf.

Definition monthlyRevenue (asOf : Timestamp) (db : Database) : Decimal :=
  map_fold (λ _ s acc, Sale.totalAmount s + acc) 0
    (filter (λ kv : Id * Sale.t,
               from_option (sameMonth asOf) False (Sale.saleDate kv.2))
            (sales db)).

End Spec.

#[global] Instance sameMonth_dec asOf d : Decision (Spec.sameMonth asOf d).
Proof. unfold Spec.sameMonth. apply _. Defined.

(** ** Conditions under which the datastore accepts a sale write *)

(** The references a sale's three foreign keys point at exist. *)
Definition refs_resolve (db : Database) (data : InsertSale.t) : Prop :=
  is_Some (clients db !! InsertSale.clientId data) ∧
  is_Some (artists db !! InsertSale.artistId data) ∧
  from_option (λ aid, is_Some (appointments db !! aid)) True
              (InsertSale.appointmentId data).

(** The row a write is aimed at: a free key for a new sale, an existing
    sale for an edit. *)
Definition target_ok (editing : option Id) (newId : Id) (db : Database) : Prop :=
  match editing with
  | None => sales db !! newId = None
  | Some id => is_Some (sales db !! id)
  end.

Definition withSale (db : Database) (id : Id) (row : Sale.t) : Database :=
  mkDatabase (artists db) (clients db) (appointments db) (inventory db)
             (<[id := row]> (sales db)).

#[global] Instance refs_resolve_dec db data : Decision (refs_resolve db data).
Proof. unfold refs_resolve. apply _. Defined.

(** ** Vocabulary of the further properties *)

(** No two client rows hold the same e-mail address. *)
Definition emails_unique (db : Database) : Prop :=
  ∀ i j c c' e,
    clients db !! i = Some c → clients db !! j = Some c' →
    Client.email c = Some e → Client.email c' = Some e → i = j.

(** The sum of the totals of a list of sales. *)
Definition sumTotals (l : list SaleWithRelations.t) : Decimal :=
  foldr (λ r acc, Sale.totalAmount (SaleWithRelations.row r) + acc) 0 l.

(** More rows for the examples. *)
Module Sample.

Definition walkIn : InsertAppointment.t :=
  InsertAppointment.mk "c1" "a1" (at_ 2024 2 12 16 0 0 0) 90 "back" None None
    None (Some 30000) None.

Definition bea (email : option string) : InsertClient.t :=
  InsertClient.mk "Bea" "Ruiz" email None None None None None.

(** The example studio after Ana gave her address. *)
Definition withAddress : Database :=
  mkDatabase (artists Example.studio)
    {[ "c1" := Client.mk "Ana" "Lopez" (Some "ana@example.org") None None
                 None None None None None ]}
    (appointments Example.studio) (inventory Example.studio)
    (sales Example.studio).

(** The hand-written body of the examples, once validated. *)
Definition handWrittenSale : InsertSale.t :=
  InsertSale.mk None "c1" "a1" 10000 (Some 3000) (Some (Amount 99900))
    (Some "completed") None None None.

Definition tape : InsertInventory.t :=
  InsertInventory.mk "grip tape" None supplies None None 450 None None.

Definition restock (n : Z) : InventoryUpdate.t :=
  InventoryUpdate.mk None None None (Some n) None None None None.

Definition photo (type : string) (size : Z) : FileUpload.File :=
  FileUpload.mkFile "ref" type size.

(** A booking for a client the studio does not have. *)
Definition stranger : InsertAppointment.t :=
  InsertAppointment.mk "ghost" "a1" (at_ 2024 2 12 16 0 0 0) 90 "back" None None
    None None None.

(** A booking of [duration] minutes for Ana with Rex. *)
Definition booking (duration : Z) : InsertAppointment.t :=
  InsertAppointment.mk "c1" "a1" (at_ 2024 2 12 16 0 0 0) duration "back" None
    None None None None.

(** An item entered with no stock and a minimum level of -1. *)
Definition noMinimum : InsertInventory.t :=
  InsertInventory.mk "stencil paper" None supplies (Some 0) (Some (-1)) 900
    None None.

(** An item priced at 100,000,000.00. *)
Definition priceless : InsertInventory.t :=
  InsertInventory.mk "flash sheet" None supplies None None 10000000000 None
    None.

(** A body for a sale of [total] for Ana by Rex, dated or not. *)
Definition saleBody (total : Decimal) (saleDate : option Timestamp) : SaleBody.t :=
  SaleBody.mk None (Some "c1") (Some "a1") (Some total) None None None None
    saleDate None.

(** What the sale form holds when the deposit is left undefined. *)
Definition noDeposit (total : Decimal) : InsertSale.t :=
  InsertSale.mk None "c1" "a1" total None None None None None None.

End Sample.

(** * Properties *)

(** ** The calendar *)

Section Calendar.

Lemma yoe_doy_bounds (doe : Z) :
  0 ≤ doe < 146097 →
  let yoe := (doe - doe `div` 1460 + doe `div` 36524 - doe `div` 146096) `div` 365 in
  let doy := doe - (365 * yoe + yoe `div` 4 - yoe `div` 100) in
  0 ≤ yoe ≤ 399 ∧ 0 ≤ doy ≤ 365.
Proof. intros H yoe doy. subst doy yoe. Z.div_mod_to_equations. lia. Qed.

Lemma month_bounds (doy : Z) :
  0 ≤ doy ≤ 365 → 0 ≤ (5 * doy + 2) `div` 153 ≤ 11.
Proof. intros H. Z.div_mod_to_equations. lia. Qed.

Lemma daysFromCivil_parts (era yoe mp d : Z) :
  0 ≤ yoe ≤ 399 → 0 ≤ mp ≤ 11 →
  let m := if decide (mp < 10) then mp + 3 else mp - 9 in
  let y := yoe + era * 400 in
  daysFromCivil (if decide (m ≤ 2) then y + 1 else y) m d
    = era * 146097
      + (yoe * 365 + yoe `div` 4 - yoe `div` 100 + ((153 * mp + 2) `div` 5 + d - 1))
      - 719468.
Proof.
  intros Hyoe Hmp m y. subst m y. unfold daysFromCivil.
  assert (Hera : (yoe + era * 400) `div` 400 = era).
  { rewrite Z.div_add by lia. rewrite Z.div_small; lia. }
  repeat case_decide; try lia.
  - replace (yoe + era * 400 + 1 - 1) with (yoe + era * 400) by lia.
    rewrite Hera. replace (mp - 9 + 9) with mp by lia.
    replace (yoe + era * 400 - era * 400) with yoe by lia. lia.
  - rewrite Hera. replace (mp + 3 - 3) with mp by lia.
    replace (yoe + era * 400 - era * 400) with yoe by lia. lia.
Qed.

Lemma MakeDay_civil (z k : Z) :
  MakeDay (civilFromDays z).1.1 ((civilFromDays z).1.2 - 1) ((civilFromDays z).2 + k)
    = z + k.
Proof.
  unfold civilFromDays. cbv zeta.
  set (era := (z + 719468) `div` 146097).
  set (doe := z + 719468 - era * 146097).
  assert (Hdoe : 0 ≤ doe < 146097).
  { subst doe era. Z.div_mod_to_equations. lia. }
  destruct (yoe_doy_bounds doe Hdoe) as [Hyoe Hdoy].
  cbv zeta in Hyoe, Hdoy.
  set (yoe := (doe - doe `div` 1460 + doe `div` 36524 - doe `div` 146096) `div` 365) in *.
  set (doy := doe - (365 * yoe + yoe `div` 4 - yoe `div` 100)) in *.
  pose proof (month_bounds doy Hdoy) as Hmp.
  set (mp := (5 * doy + 2) `div` 153) in *.
  pose proof (daysFromCivil_parts era yoe mp 1 Hyoe Hmp) as Hparts.
  cbv zeta in Hparts.
  simpl fst; simpl snd.
  unfold MakeDay.
  set (m := if decide (mp < 10) then mp + 3 else mp - 9) in *.
  assert (Hm : 1 ≤ m ≤ 12) by (unfold m; destruct (decide (mp < 10)); lia).
  replace ((m - 1) `div` 12) with 0 by (Z.div_mod_to_equations; lia).
  replace ((m - 1) `mod` 12 + 1) with m by (Z.div_mod_to_equations; lia).
  rewrite Z.add_0_r, Hparts.
  clearbody m mp. subst doy. clearbody yoe. subst doe. lia.
Qed.

End Calendar.

(** ** Payment status and remaining balance (the form) *)

Section Financial.

Import SaleModal.

Lemma paymentStatusOf_completed remaining total :
  paymentStatusOf (Amount remaining) (Amount total) = "completed"
    ↔ remaining ≤ 0.
Proof.
  unfold paymentStatusOf, leq, lt.
  repeat case_bool_decide; split; (lia || done).
Qed.

Lemma paymentStatusOf_partial remaining total :
  paymentStatusOf (Amount remaining) (Amount total) = "partial"
    ↔ 0 < remaining < total.
Proof.
  unfold paymentStatusOf, leq, lt.
  repeat case_bool_decide; split; (lia || done).
Qed.

Lemma paymentStatusOf_pending remaining total :
  paymentStatusOf (Amount remaining) (Amount total) = "pending"
    ↔ 0 < remaining ∧ total ≤ remaining.
Proof.
  unfold paymentStatusOf, leq, lt.
  repeat case_bool_decide; split; (lia || done).
Qed.

(** The three cases of the status for a balance that is not negative. *)
Lemma paymentStatusOf_cases remaining total :
  0 ≤ remaining →
  let status := paymentStatusOf (Amount remaining) (Amount total) in
  (status = "completed" ↔ remaining = 0) ∧
  (status = "partial" ↔ 0 < remaining < total) ∧
  (status = "pending" ↔ ¬ remaining = 0 ∧ ¬ 0 < remaining < total).
Proof.
  intros Hpos status. subst status.
  rewrite paymentStatusOf_completed, paymentStatusOf_partial,
    paymentStatusOf_pending.
  lia.
Qed.

Lemma payload_remainingBalance data :
  SaleBody.remainingBalance (payload data) =
    Some (minus (Amount (InsertSale.totalAmount data))
                (Number (InsertSale.deposit data))).
Proof. reflexivity. Qed.

Lemma payload_paymentStatus data :
  SaleBody.paymentStatus (payload data) =
    Some (paymentStatusOf
            (minus (Amount (InsertSale.totalAmount data))
                   (Number (InsertSale.deposit data)))
            (Amount (InsertSale.totalAmount data))).
Proof. reflexivity. Qed.

End Financial.

(** ** Stock levels *)

Section Stock.

Import InventoryPage.

Lemma getStockStatus_cases currentStock minLevel :
  (currentStock = 0 ∧
     label (getStockStatus currentStock minLevel) = "Out of Stock") ∨
  (currentStock ≠ 0 ∧ currentStock ≤ minLevel ∧
     label (getStockStatus currentStock minLevel) = "Low Stock") ∨
  (currentStock ≠ 0 ∧ minLevel < currentStock ∧
     label (getStockStatus currentStock minLevel) = "In Stock").
Proof.
  unfold getStockStatus. repeat case_decide; simpl.
  - by left.
  - right; left. done.
  - right; right. repeat split; [done | lia].
Qed.

(** The rows the low-stock queries select are the ones the page labels
    "Out of Stock" or "Low Stock", for a minimum level that is not
    negative. *)
Lemma low_or_out_iff currentStock minLevel :
  0 ≤ minLevel →
  currentStock ≤ minLevel ↔
    label (getStockStatus currentStock minLevel) = "Out of Stock" ∨
    label (getStockStatus currentStock minLevel) = "Low Stock".
Proof.
  intros Hmin.
  destruct (getStockStatus_cases currentStock minLevel)
    as [[? ->] | [(? & ? & ->) | (? & ? & ->)]]; split; intros Hx.
  - by left.
  - lia.
  - by right.
  - done.
  - lia.
  - by destruct Hx.
Qed.

(** For any minimum level: the rows selected are the ones labelled "Low
    Stock", and the ones labelled "Out of Stock" whose minimum level is
    not negative. *)
Lemma selected_iff_label currentStock minLevel :
  currentStock ≤ minLevel ↔
    label (getStockStatus currentStock minLevel) = "Low Stock" ∨
    (label (getStockStatus currentStock minLevel) = "Out of Stock" ∧
     0 ≤ minLevel).
Proof.
  destruct (getStockStatus_cases currentStock minLevel)
    as [[? ->] | [(? & ? & ->) | (? & ? & ->)]]; split; intros Hx.
  - right. split; [done|lia].
  - destruct Hx as [?|[_ ?]]; [done|lia].
  - by left.
  - done.
  - lia.
  - by destruct Hx as [?|[? _]].
Qed.

Lemma elem_of_getLowStockItems db id i :
  (id, i) ∈ Storage.getLowStockItems db ↔
  inventory db !! id = Some i ∧ Inventory.currentStock i ≤ Inventory.minLevel i.
Proof.
  unfold Storage.getLowStockItems.
  by rewrite merge_sort_Permutation, elem_of_map_to_list,
    map_lookup_filter_Some.
Qed.

End Stock.

(** C5, as the code has it. The page's classification is "Out of Stock"
    exactly when the stock is 0, "Low Stock" exactly when the stock is
    not 0 and at most the minimum level, and "In Stock" in every other
    case; it is always one of the three.  For a stock that is not
    negative, "Low Stock" is the case of a stock above 0 and at most the
    minimum level. *)
Theorem stock_classification (currentStock minLevel : Z) :
  let l := InventoryPage.label
             (InventoryPage.getStockStatus currentStock minLevel) in
  (l = "Out of Stock" ↔ currentStock = 0) ∧
  (l = "Low Stock" ↔ currentStock ≠ 0 ∧ currentStock ≤ minLevel) ∧
  (l = "In Stock" ↔ currentStock ≠ 0 ∧ minLevel < currentStock) ∧
  (l = "Out of Stock" ∨ l = "Low Stock" ∨ l = "In Stock") ∧
  (0 ≤ currentStock → (l = "Low Stock" ↔ 0 < currentStock ≤ minLevel)).
Proof.
  intros l. subst l.
  destruct (getStockStatus_cases currentStock minLevel)
    as [[? ->] | [(? & ? & ->) | (? & ? & ->)]].
  - repeat split; try done; try lia. by left.
  - repeat split; try done; try lia. right; by left.
  - repeat split; try done; try lia. right; by right.
Qed.

(** The two scenarios: stock 3 with minimum 5 is low, stock 0 with
    minimum 5 is out. *)
Lemma stock_classification_scenarios :
  (0 ≤ 3 ∧
   InventoryPage.label (InventoryPage.getStockStatus 3 5) = "Low Stock") ∧
  InventoryPage.label (InventoryPage.getStockStatus 0 5) = "Out of Stock".
Proof.
  split.
  - assert (H : (0 ≤ 3)%Z) by lia.
    split; [exact H|].
    destruct (stock_classification 3 5) as (_ & _ & _ & _ & Hlow).
    apply (Hlow H). lia.
  - destruct (stock_classification 0 5) as (Hout & _).
    apply Hout. reflexivity.
Defined.

(** C5 as the specification words it fails. The black ink of the example
    studio can be written down to a stock of -4, which the store takes;
    with a minimum level of 5 the page then labels it "Low Stock",
    although its stock is not above 0. *)
Lemma negative_stock_is_low_stock :
  (∃ row db',
     Storage.updateInventoryItem "i1" (Sample.restock (-4)) Example.march10
                                 Example.studio = Ok (Some row, db') ∧
     inventory db' !! "i1" = Some row ∧
     Inventory.currentStock row = -4 ∧
     Inventory.minLevel row = 5) ∧
  InventoryPage.label (InventoryPage.getStockStatus (-4) 5) = "Low Stock" ∧
  ¬ (InventoryPage.label (InventoryPage.getStockStatus (-4) 5) = "Low Stock"
       ↔ 0 < -4 ≤ 5).
Proof.
  split; [|split].
  - eexists _, _. split; [vm_compute; reflexivity|].
    split; [vm_compute; reflexivity|]. by split.
  - reflexivity.
  - intros [Hlow _]. specialize (Hlow eq_refl). lia.
Qed.

(** C6, as the code has it. The dashboard's [lowStockItems] is the number
    of rows [getLowStockItems] returns, the rows with [currentStock <=
    minLevel]. It is one figure: it counts every item the page labels
    "Low Stock", and an item labelled "Out of Stock" exactly when its
    minimum level is not negative; when no minimum level is negative it
    is the number of items with either label. *)
Theorem low_stock_metric (now : Timestamp) (db : Database) :
  let lowStockItems :=
    Storage.lowStockItems (Storage.getDashboardStats now db) in
  let label (i : Inventory.t) :=
    InventoryPage.label
      (InventoryPage.getStockStatus (Inventory.currentStock i)
                                    (Inventory.minLevel i)) in
  lowStockItems = Z.of_nat (length (Storage.getLowStockItems db)) ∧
  (∀ id i, inventory db !! id = Some i →
     ((id, i) ∈ Storage.getLowStockItems db
        ↔ label i = "Low Stock" ∨
          (label i = "Out of Stock" ∧ 0 ≤ Inventory.minLevel i))) ∧
  lowStockItems =
    Z.of_nat (size (filter (λ kv : Id * Inventory.t,
                              label kv.2 = "Low Stock" ∨
                              (label kv.2 = "Out of Stock" ∧
                               0 ≤ Inventory.minLevel kv.2))
                           (inventory db))) ∧
  (map_Forall (λ _ i, 0 ≤ Inventory.minLevel i) (inventory db) →
   lowStockItems =
     Z.of_nat (size (filter (λ kv : Id * Inventory.t,
                               label kv.2 = "Out of Stock" ∨
                               label kv.2 = "Low Stock")
                            (inventory db)))).
Proof.
  intros lowStockItems label. subst lowStockItems label.
  cbv beta iota zeta delta [Storage.getDashboardStats Storage.lowStockItems].
  split; [|split; [|split]].
  - unfold Storage.getLowStockItems.
    rewrite merge_sort_Permutation, length_map_to_list. done.
  - intros id i Hi. rewrite elem_of_getLowStockItems, <-selected_iff_label.
    split; [by intros [_ ?]|by intros ?].
  - do 2 f_equal. apply map_filter_strong_ext. intros id i. simpl.
    by rewrite selected_iff_label.
  - intros Hmin. do 2 f_equal. apply map_filter_strong_ext. intros id i. simpl.
    split; intros [Hi Hl]; split; try done;
      (apply low_or_out_iff in Hi || apply low_or_out_iff); try done;
      by apply (Hmin id i).
Qed.

(** At the example studio: black ink (3 of 5) and gloves (0 of 5) are
    counted, the needles (40 of 10) are not. *)
Lemma low_stock_metric_example :
  map_Forall (λ _ i, 0 ≤ Inventory.minLevel i) (inventory Example.studio) ∧
  inventory Example.studio !! "i2" = Some (Example.item "gloves" 0 5) ∧
  Storage.lowStockItems (Storage.getDashboardStats 0 Example.studio) = 2 ∧
  ("i2", Example.item "gloves" 0 5) ∈ Storage.getLowStockItems Example.studio.
Proof.
  assert (Hmin : map_Forall (λ _ i, 0 ≤ Inventory.minLevel i)
                   (inventory Example.studio)).
  { apply (bool_decide_unpack _). vm_compute. exact I. }
  assert (Hi : inventory Example.studio !! "i2"
               = Some (Example.item "gloves" 0 5))
    by (vm_compute; reflexivity).
  destruct (low_stock_metric 0 Example.studio) as (_ & Hlisted & _ & Hlabels).
  split; [exact Hmin|]. split; [exact Hi|]. split.
  - rewrite (Hlabels Hmin). vm_compute. reflexivity.
  - apply (Hlisted _ _ Hi). right. split; [reflexivity|]. simpl. lia.
Defined.

(** C6 as the specification words it fails. An item created at the
    example studio with no stock and a minimum level of -1 is taken by
    the store; the page labels it "Out of Stock", and the dashboard's
    figure does not count it. *)
Lemma out_of_stock_item_is_not_counted :
  ∃ row db',
    Storage.createInventoryItem Sample.noMinimum Example.march10 "i4"
                                Example.studio = Ok (row, db') ∧
    inventory db' !! "i4" = Some row ∧
    Inventory.currentStock row = 0 ∧
    InventoryPage.label
      (InventoryPage.getStockStatus (Inventory.currentStock row)
                                    (Inventory.minLevel row))
      = "Out of Stock" ∧
    (("i4", row) ∉ Storage.getLowStockItems db') ∧
    Storage.lowStockItems (Storage.getDashboardStats Example.march10 db')
      = Storage.lowStockItems
          (Storage.getDashboardStats Example.march10 Example.studio).
Proof.
  eexists _, _. split; [vm_compute; reflexivity|].
  split; [vm_compute; reflexivity|].
  split; [reflexivity|]. split; [reflexivity|]. split.
  - intros [_ Hle]%elem_of_getLowStockItems. vm_compute in Hle. by apply Hle.
  - vm_compute. reflexivity.
Qed.

(** ** Sale writes *)

Section SaleWrites.

Import Storage Routes.

Lemma createSale_Ok sale now newId db :
  insertSale_fits sale →
  sales db !! newId = None →
  refs_resolve db sale →
  createSale sale now newId db =
    Ok (insertedSale sale now, withSale db newId (insertedSale sale now)).
Proof.
  intros Hfits Hfresh Hrefs. unfold createSale.
  rewrite decide_True by done.
  rewrite decide_False by (rewrite Hfresh; by intros [? ?]).
  by rewrite decide_True.
Qed.

Lemma postSales_created body sale now newId db :
  parseInsertSale body = Some sale →
  insertSale_fits sale →
  sales db !! newId = None →
  refs_resolve db sale →
  postSales body now newId db =
    (Json 201 (insertedSale sale now),
     withSale db newId (insertedSale sale now)).
Proof.
  intros Hparse Hfits Hfresh Hrefs. unfold postSales.
  by rewrite Hparse, createSale_Ok.
Qed.

Lemma patchSales_updated id body old now db :
  SaleBody.saleDate body = None →
  saleUpdate_fits body →
  sales db !! id = Some old →
  sale_refs_ok db (updatedSale old body now) →
  patchSales id body now db =
    (Json 200 (Some (updatedSale old body now)),
     withSale db id (updatedSale old body now)).
Proof.
  intros Hdate Hfits Hold Hrefs.
  unfold patchSales, parsePartialInsertSale, updateSale.
  by rewrite Hdate, decide_True, Hold, decide_True.
Qed.

(** What [insertSaleSchema] lets through. *)
Lemma parseInsertSale_is_Some body :
  is_Some (parseInsertSale body) ↔
    is_Some (SaleBody.clientId body) ∧ is_Some (SaleBody.artistId body) ∧
    is_Some (SaleBody.totalAmount body) ∧ SaleBody.saleDate body = None.
Proof.
  unfold parseInsertSale.
  destruct (SaleBody.clientId body), (SaleBody.artistId body),
    (SaleBody.totalAmount body), (SaleBody.saleDate body); simpl;
    split; try (intros [? ?]; done); try (intros (? & ? & ? & ?); done);
    try (intros ([? ?] & [? ?] & [? ?] & ?); done);
    intros _; eauto.
Qed.

Lemma parse_payload data :
  InsertSale.saleDate data = None →
  parseInsertSale (SaleModal.payload data) =
    Some (InsertSale.mk (InsertSale.appointmentId data)
            (InsertSale.clientId data) (InsertSale.artistId data)
            (InsertSale.totalAmount data) (InsertSale.deposit data)
            (SaleBody.remainingBalance (SaleModal.payload data))
            (SaleBody.paymentStatus (SaleModal.payload data))
            (InsertSale.paymentMethod data) None
            (InsertSale.notes data)).
Proof. unfold parseInsertSale. simpl. by intros ->. Qed.

(** The amounts of the payload fit when the form's do, and their
    difference does. *)
Lemma payload_fits data d :
  InsertSale.deposit data = Some d →
  decimal_fits (InsertSale.totalAmount data) →
  decimal_fits d →
  decimal_fits (InsertSale.totalAmount data - d) →
  saleUpdate_fits (SaleModal.payload data).
Proof.
  intros Hd Ht Hdep Hrem. unfold saleUpdate_fits. simpl. by rewrite Hd.
Qed.

(** An edit sent by the form names client and artist, so the updated
    row's references are the form's, or the old row's appointment. *)
Lemma updated_from_form_refs db old data now :
  foreign_keys_ok db →
  (∃ id, sales db !! id = Some old) →
  refs_resolve db data →
  sale_refs_ok db (updatedSale old (SaleModal.payload data) now).
Proof.
  intros [_ Hsales] [id Hold] (Hc & Ha & Hp).
  destruct (Hsales id old Hold) as (_ & _ & Hpold).
  unfold sale_refs_ok; simpl. repeat split; try done.
  destruct (InsertSale.appointmentId data); simpl in *; done.
Qed.

(** The row a form leaves behind when its request goes through: the
    form's total and deposit, their difference and the status computed
    from it. *)
Lemma mutationFn_stored editing data d now newId db :
  InsertSale.deposit data = Some d →
  InsertSale.saleDate data = None →
  decimal_fits (InsertSale.totalAmount data) →
  decimal_fits d →
  decimal_fits (InsertSale.totalAmount data - d) →
  foreign_keys_ok db →
  target_ok editing newId db →
  refs_resolve db data →
  ∃ row db',
    SaleModal.mutationFn editing data now newId db
      = (match editing with Some _ => 200 | None => 201 end, db') ∧
    sales db' !! default newId editing = Some row ∧
    Sale.totalAmount row = InsertSale.totalAmount data ∧
    Sale.deposit row = Some d ∧
    Sale.remainingBalance row
      = Some (Amount (InsertSale.totalAmount data - d)) ∧
    Sale.paymentStatus row
      = SaleModal.paymentStatusOf (Amount (InsertSale.totalAmount data - d))
                                  (Amount (InsertSale.totalAmount data)).
Proof.
  intros Hd Hdate Ht Hdep Hrem Hfk Htarget Hrefs.
  pose proof (payload_fits data d Hd Ht Hdep Hrem) as Hfits.
  destruct editing as [id|]; simpl in Htarget; unfold SaleModal.mutationFn.
  - destruct Htarget as [old Hold].
    erewrite patchSales_updated;
      [|by simpl|exact Hfits|exact Hold|by eapply updated_from_form_refs; eauto].
    eexists _, _. split; [reflexivity|].
    split; [apply lookup_insert_eq|].
    simpl. rewrite Hd. done.
  - erewrite postSales_created; [|by apply parse_payload| |done|done].
    + eexists _, _. split; [reflexivity|].
      split; [apply lookup_insert_eq|].
      simpl. rewrite Hd. done.
    + unfold insertSale_fits. simpl. rewrite Hd. done.
Qed.

End SaleWrites.

Lemma parseInsertSale_Some body sale :
  Routes.parseInsertSale body = Some sale →
  InsertSale.remainingBalance sale = SaleBody.remainingBalance body ∧
  InsertSale.paymentStatus sale = SaleBody.paymentStatus body ∧
  InsertSale.deposit sale = SaleBody.deposit body ∧
  SaleBody.totalAmount body = Some (InsertSale.totalAmount sale) ∧
  SaleBody.saleDate body = None ∧
  InsertSale.saleDate sale = None.
Proof.
  unfold Routes.parseInsertSale. intros Hparse.
  destruct (SaleBody.clientId body), (SaleBody.artistId body),
    (SaleBody.totalAmount body), (SaleBody.saleDate body); simplify_eq/=. done.
Qed.

(** C7. For every total and deposit with the deposit not above the
    total, the sale write carries [remainingBalance = totalAmount -
    deposit]: [mutationFn] puts that balance in the request it sends,
    with a [paymentStatus] that is "completed" exactly when the balance
    is 0, "partial" exactly when the balance lies strictly between 0 and
    the total, and "pending" in every other case; and the row the server
    stores for the request holds the form's total and deposit, that
    balance and that status.  The request is answered 201 (a new sale)
    or 200 (an edit) when the form holds no date, the three amounts fit
    their columns, the row aimed at is there to take the write and the
    sale's references exist. *)
Theorem sale_write_balance_and_status (editing : option Id)
    (data : InsertSale.t) (deposit : Decimal) (now : Timestamp) (newId : Id)
    (db : Database) :
  let total := InsertSale.totalAmount data in
  let remaining := total - deposit in
  InsertSale.deposit data = Some deposit →
  deposit ≤ total →
  (SaleBody.remainingBalance (SaleModal.payload data) = Some (Amount remaining) ∧
   (SaleBody.paymentStatus (SaleModal.payload data) = Some "completed"
      ↔ remaining = 0) ∧
   (SaleBody.paymentStatus (SaleModal.payload data) = Some "partial"
      ↔ 0 < remaining < total) ∧
   (SaleBody.paymentStatus (SaleModal.payload data) = Some "pending"
      ↔ ¬ remaining = 0 ∧ ¬ 0 < remaining < total)) ∧
  (InsertSale.saleDate data = None →
   decimal_fits total → decimal_fits deposit → decimal_fits remaining →
   foreign_keys_ok db →
   target_ok editing newId db →
   refs_resolve db data →
   ∃ row db',
     SaleModal.mutationFn editing data now newId db
       = (match editing with Some _ => 200 | None => 201 end, db') ∧
     sales db' !! default newId editing = Some row ∧
     Sale.totalAmount row = total ∧
     Sale.deposit row = Some deposit ∧
     Sale.remainingBalance row = Some (Amount remaining) ∧
     (Sale.paymentStatus row = "completed"%string ↔ remaining = 0) ∧
     (Sale.paymentStatus row = "partial"%string ↔ 0 < remaining < total) ∧
     (Sale.paymentStatus row = "pending"%string
        ↔ ¬ remaining = 0 ∧ ¬ 0 < remaining < total)).
Proof.
  intros total remaining Hd Hle.
  assert (Hpos : 0 ≤ remaining) by (subst remaining; lia).
  destruct (paymentStatusOf_cases remaining total Hpos) as (Hc & Hp & Hn).
  split.
  - rewrite payload_remainingBalance, payload_paymentStatus, Hd. simpl.
    fold total remaining.
    split; [done|].
    split; [|split]; (split; [intros [= H]|intros H; f_equal]).
    + by apply Hc.
    + by apply Hc.
    + by apply Hp.
    + by apply Hp.
    + by apply Hn.
    + by apply Hn.
  - intros Hdate Ht Hdep Hrem Hfk Htarget Hrefs.
    destruct (mutationFn_stored editing data deposit now newId db
                Hd Hdate Ht Hdep Hrem Hfk Htarget Hrefs)
      as (row & db' & Hrun & Hrow & Htot & Hdepo & Hbal & Hstatus).
    exists row, db'. rewrite Hstatus. fold total remaining.
    repeat split; try done; by (apply Hc || apply Hp || apply Hn).
Qed.

(** The two scenarios, recorded at the example studio: 500.00 with
    150.00 paid leaves 350.00, "partial"; 200.00 with 200.00 paid leaves
    0.00, "completed". *)
Lemma sale_write_balance_and_status_scenarios :
  (∃ row db',
     SaleModal.mutationFn None (Example.form 50000 15000) Example.march10 "s3"
                          Example.studio = (201, db') ∧
     sales db' !! "s3" = Some row ∧
     Sale.remainingBalance row = Some (Amount 35000) ∧
     Sale.paymentStatus row = "partial"%string) ∧
  (∃ row db',
     SaleModal.mutationFn None (Example.form 20000 20000) Example.march10 "s3"
                          Example.studio = (201, db') ∧
     sales db' !! "s3" = Some row ∧
     Sale.remainingBalance row = Some (Amount 0) ∧
     Sale.paymentStatus row = "completed"%string).
Proof.
  assert (Hfk : foreign_keys_ok Example.studio).
  { apply (bool_decide_unpack _). vm_compute. exact I. }
  assert (Hrefs : ∀ t d, refs_resolve Example.studio (Example.form t d)).
  { intros t d. apply (bool_decide_unpack _). vm_compute. exact I. }
  split.
  - destruct (sale_write_balance_and_status None (Example.form 50000 15000)
                15000 Example.march10 "s3" Example.studio eq_refl)
      as [_ Hrow]; [simpl; lia|].
    destruct (Hrow eq_refl) as (row & db' & Hrun & Hat & _ & _ & Hbal & _ & Hp & _);
      [unfold decimal_fits; simpl; lia..|exact Hfk|reflexivity|apply Hrefs|].
    exists row, db'. split; [exact Hrun|]. split; [exact Hat|].
    split; [exact Hbal|]. apply Hp. simpl. lia.
  - destruct (sale_write_balance_and_status None (Example.form 20000 20000)
                20000 Example.march10 "s3" Example.studio eq_refl)
      as [_ Hrow]; [simpl; lia|].
    destruct (Hrow eq_refl) as (row & db' & Hrun & Hat & _ & _ & Hbal & Hc & _);
      [unfold decimal_fits; simpl; lia..|exact Hfk|reflexivity|apply Hrefs|].
    exists row, db'. split; [exact Hrun|]. split; [exact Hat|].
    split; [exact Hbal|]. apply Hc. reflexivity.
Defined.

(** C1, as the code has it. The server stores the [remainingBalance] and
    [paymentStatus] that the request body carries: on create the body's
    values (0 and "pending" when it omits them), on update the body's
    values or, when it omits them, the ones already stored. The values
    come from the sale form, which computes them before sending; for a
    form whose deposit does not exceed its total, an accepted create or
    update leaves a row with [remainingBalance = max(0, totalAmount -
    deposit)] and the status derived from it.  A request is accepted when
    its body passes the schema (on create it names client, artist and
    total; it carries no [saleDate]), its amounts fit their columns, the
    row aimed at is there to take the write and the references of the
    sale exist. *)
Theorem sale_write_derived_fields (now : Timestamp) (newId : Id) (db : Database) :
  foreign_keys_ok db →
  (∀ body sale,
     Routes.parseInsertSale body = Some sale →
     insertSale_fits sale →
     sales db !! newId = None →
     refs_resolve db sale →
     ∃ row db',
       Routes.postSales body now newId db = (Json 201 row, db') ∧
       sales db' !! newId = Some row ∧
       Sale.remainingBalance row
         = Some (default (Amount 0) (SaleBody.remainingBalance body)) ∧
       Sale.paymentStatus row
         = default "pending"%string (SaleBody.paymentStatus body)) ∧
  (∀ id body old,
     SaleBody.saleDate body = None →
     saleUpdate_fits body →
     sales db !! id = Some old →
     sale_refs_ok db (Storage.updatedSale old body now) →
     ∃ row db',
       Routes.patchSales id body now db = (Json 200 (Some row), db') ∧
       sales db' !! id = Some row ∧
       Sale.remainingBalance row
         = match SaleBody.remainingBalance body with
           | Some v => Some v
           | None => Sale.remainingBalance old
           end ∧
       Sale.paymentStatus row
         = default (Sale.paymentStatus old) (SaleBody.paymentStatus body)) ∧
  (∀ editing data d,
     InsertSale.deposit data = Some d →
     d ≤ InsertSale.totalAmount data →
     InsertSale.saleDate data = None →
     decimal_fits (InsertSale.totalAmount data) →
     decimal_fits d →
     decimal_fits (InsertSale.totalAmount data - d) →
     target_ok editing newId db →
     refs_resolve db data →
     ∃ row db',
       SaleModal.mutationFn editing data now newId db
         = (match editing with Some _ => 200 | None => 201 end, db') ∧
       sales db' !! default newId editing = Some row ∧
       Sale.totalAmount row = InsertSale.totalAmount data ∧
       Sale.deposit row = Some d ∧
       Sale.remainingBalance row
         = Some (Amount (Z.max 0 (InsertSale.totalAmount data - d))) ∧
       Sale.paymentStatus row
         = SaleModal.paymentStatusOf
             (Amount (InsertSale.totalAmount data - d))
             (Amount (InsertSale.totalAmount data))).
Proof.
  intros Hfk. split; [|split].
  - intros body sale Hparse Hfits Hfresh Hrefs.
    destruct (parseInsertSale_Some _ _ Hparse) as (Hrb & Hps & _).
    eexists _, _. split; [by apply postSales_created|].
    split; [apply lookup_insert_eq|].
    simpl. by rewrite Hrb, Hps.
  - intros id body old Hdate Hfits Hold Hrefs.
    eexists _, _. split; [by apply patchSales_updated|].
    split; [apply lookup_insert_eq|]. done.
  - intros editing data d Hd Hle Hdate Ht Hdep Hrem Htarget Hrefs.
    assert (Hmax : Z.max 0 (InsertSale.totalAmount data - d)
                   = InsertSale.totalAmount data - d) by lia.
    rewrite Hmax. by apply mutationFn_stored.
Qed.

(** At the example studio the form records 500.00 with 150.00 paid: the
    row stored under the new key has balance 350.00 and is "partial". *)
Lemma sale_write_derived_fields_example :
  foreign_keys_ok Example.studio ∧
  ∃ row db',
    SaleModal.mutationFn None (Example.form 50000 15000) Example.march10 "s3"
                         Example.studio = (201, db') ∧
    sales db' !! "s3" = Some row ∧
    Sale.remainingBalance row = Some (Amount 35000) ∧
    Sale.paymentStatus row = "partial"%string.
Proof.
  assert (Hfk : foreign_keys_ok Example.studio).
  { apply (bool_decide_unpack _). vm_compute. exact I. }
  assert (Hrefs : refs_resolve Example.studio (Example.form 50000 15000)).
  { apply (bool_decide_unpack _). vm_compute. exact I. }
  assert (Hle : (15000 ≤ 50000)%Z) by lia.
  destruct (sale_write_derived_fields Example.march10 "s3" Example.studio Hfk)
    as (_ & _ & Hform).
  destruct (Hform None (Example.form 50000 15000) 15000 eq_refl Hle eq_refl)
    as (row & db' & Hrun & Hrow & _ & _ & Hbal & Hstatus);
    [unfold decimal_fits; simpl; lia..|reflexivity|exact Hrefs|].
  split; [exact Hfk|]. exists row, db'. repeat split; assumption.
Defined.

(** C1 as the specification words it fails. A body that passes
    [insertSaleSchema] with total 100.00, deposit 30.00 and a balance of
    999.00 is stored with that balance and that status; and a PATCH
    carrying only a new deposit leaves the stored balance as it was. *)
Lemma caller_supplied_balance_is_stored :
  (∃ row db',
     Routes.postSales Example.handWritten Example.march10 "s3" Example.studio
       = (Json 201 row, db') ∧
     sales db' !! "s3" = Some row ∧
     Sale.totalAmount row = 10000 ∧
     Sale.deposit row = Some 3000 ∧
     Sale.remainingBalance row = Some (Amount 99900) ∧
     Sale.paymentStatus row = "completed"%string ∧
     Sale.remainingBalance row ≠ Some (Amount (Z.max 0 (10000 - 3000)))) ∧
  (∃ row db',
     Routes.patchSales "s1" (Example.depositOnly 4000) Example.march10
                       Example.studio = (Json 200 (Some row), db') ∧
     sales db' !! "s1" = Some row ∧
     Sale.totalAmount row = 10000 ∧
     Sale.deposit row = Some 4000 ∧
     Sale.remainingBalance row = Some (Amount 10000) ∧
     Sale.paymentStatus row = "pending"%string ∧
     Sale.remainingBalance row ≠ Some (Amount (Z.max 0 (10000 - 4000)))).
Proof.
  split.
  - eexists _, _. split; [vm_compute; reflexivity|].
    split; [vm_compute; reflexivity|]. by repeat split.
  - eexists _, _. split; [vm_compute; reflexivity|].
    split; [vm_compute; reflexivity|]. by repeat split.
Qed.

(** C2 at a deposit above the total. The form sends, and the server
    stores, the balance -50.00 for a total of 100.00 with 150.00 paid,
    while the form shows 0.00 next to the inputs; the status is
    "completed" and the write is accepted. *)
Lemma overpaid_sale_balance :
  SaleBody.remainingBalance (SaleModal.payload (Example.form 10000 15000))
    = Some (Amount (-5000)) ∧
  SaleBody.paymentStatus (SaleModal.payload (Example.form 10000 15000))
    = Some "completed"%string ∧
  SaleModal.remainingBalance (Some 10000) (Some 15000) = 0 ∧
  ∃ row db',
    SaleModal.mutationFn None (Example.form 10000 15000) Example.march10 "s3"
                         Example.studio = (201, db') ∧
    sales db' !! "s3" = Some row ∧
    Sale.totalAmount row = 10000 ∧
    Sale.deposit row = Some 15000 ∧
    Sale.remainingBalance row = Some (Amount (-5000)) ∧
    Sale.paymentStatus row = "completed"%string.
Proof.
  repeat split.
  eexists _, _. split; [vm_compute; reflexivity|].
  split; [vm_compute; reflexivity|]. by repeat split.
Qed.

(** ** Enriched records *)



(** ** Deletes *)

Section Deletes.

Import Storage Routes.

(** A key some row still points at survives a delete that went through. *)
Lemma lookup_delete_referenced {A} (m : gmap Id A) (id k : Id) (referenced : Prop) :
  ¬ (is_Some (m !! id) ∧ referenced) →
  (k = id → referenced) →
  is_Some (m !! k) → is_Some (delete id m !! k).
Proof.
  intros Hnot Hk Hsome.
  destruct (decide (id = k)) as [<-|Hne]; [|by rewrite lookup_delete_ne].
  exfalso. apply Hnot. split; [exact Hsome|by apply Hk].
Qed.

Lemma deleteClient_keeps_foreign_keys id db db' :
  foreign_keys_ok db → deleteClient id db = Ok db' → foreign_keys_ok db'.
Proof.
  unfold deleteClient. intros [Happ Hsale] Hdel.
  case_decide as Href; [done|]. simplify_eq.
  split.
  - intros j a Ha. destruct (Happ j a Ha) as [Hc Har].
    split; [|exact Har]. simpl.
    eapply lookup_delete_referenced; [exact Href| |exact Hc].
    intros Heq. left. by exists j, a.
  - intros j s Hs. destruct (Hsale j s Hs) as (Hc & Har & Hp).
    split; [|split; [exact Har|exact Hp]]. simpl.
    eapply lookup_delete_referenced; [exact Href| |exact Hc].
    intros Heq. right. by exists j, s.
Qed.

Lemma deleteArtist_keeps_foreign_keys id db db' :
  foreign_keys_ok db → deleteArtist id db = Ok db' → foreign_keys_ok db'.
Proof.
  unfold deleteArtist. intros [Happ Hsale] Hdel.
  case_decide as Href; [done|]. simplify_eq.
  split.
  - intros j a Ha. destruct (Happ j a Ha) as [Hc Har].
    split; [exact Hc|]. simpl.
    eapply lookup_delete_referenced; [exact Href| |exact Har].
    intros Heq. left. by exists j, a.
  - intros j s Hs. destruct (Hsale j s Hs) as (Hc & Har & Hp).
    split; [exact Hc|split; [|exact Hp]]. simpl.
    eapply lookup_delete_referenced; [exact Href| |exact Har].
    intros Heq. right. by exists j, s.
Qed.

(** Deleting twice is deleting once, response and state. *)
Lemma handleDelete_twice del what id db :
  (∀ db', del id db = Ok db' → del id db' = Ok db') →
  handleDelete del what id (handleDelete del what id db).2
    = handleDelete del what id db.
Proof.
  intros Hagain. unfold handleDelete.
  destruct (del id db) as [db'|e] eqn:Hdel; simpl.
  - by rewrite (Hagain db' eq_refl).
  - by rewrite Hdel.
Qed.

Lemma deleteClient_again id db db' :
  deleteClient id db = Ok db' → deleteClient id db' = Ok db'.
Proof.
  unfold deleteClient. intros Hdel. case_decide; simplify_eq. simpl.
  rewrite decide_False.
  - by rewrite delete_delete_eq.
  - rewrite lookup_delete_eq. by intros [[? ?] _].
Qed.

Lemma deleteArtist_again id db db' :
  deleteArtist id db = Ok db' → deleteArtist id db' = Ok db'.
Proof.
  unfold deleteArtist. intros Hdel. case_decide; simplify_eq. simpl.
  rewrite decide_False.
  - by rewrite delete_delete_eq.
  - rewrite lookup_delete_eq. by intros [[? ?] _].
Qed.

Lemma deleteAppointment_again id db db' :
  deleteAppointment id db = Ok db' → deleteAppointment id db' = Ok db'.
Proof.
  unfold deleteAppointment. intros Hdel. case_decide; simplify_eq. simpl.
  rewrite decide_False.
  - by rewrite delete_delete_eq.
  - rewrite lookup_delete_eq. by intros [[? ?] _].
Qed.

Lemma deleteInventoryItem_again id db db' :
  deleteInventoryItem id db = Ok db' → deleteInventoryItem id db' = Ok db'.
Proof.
  unfold deleteInventoryItem. intros [= <-]. simpl. by rewrite delete_delete_eq.
Qed.

Lemma deleteSale_again id db db' :
  deleteSale id db = Ok db' → deleteSale id db' = Ok db'.
Proof.
  unfold deleteSale. intros [= <-]. simpl. by rewrite delete_delete_eq.
Qed.

End Deletes.

(** C9. A client or an artist that an appointment or a sale still names
    is not deleted: the statement is refused, the handler answers 500 and
    the store is what it was. The policy is the same for both tables, and
    whatever a delete of a client or an artist does, it leaves no
    appointment or sale whose client or artist is gone. *)
Theorem delete_referenced_is_rejected (db : Database) (id : Id) :
  (is_Some (clients db !! id) → Storage.client_referenced id db →
   Storage.deleteClient id db = Throw ForeignKeyViolation ∧
   Routes.deleteClients id db = (Message 500 "Failed to delete client", db)) ∧
  (is_Some (artists db !! id) → Storage.artist_referenced id db →
   Storage.deleteArtist id db = Throw ForeignKeyViolation ∧
   Routes.deleteArtists id db = (Message 500 "Failed to delete artist", db)) ∧
  (foreign_keys_ok db →
   foreign_keys_ok (Routes.deleteClients id db).2 ∧
   foreign_keys_ok (Routes.deleteArtists id db).2).
Proof.
  split; [|split].
  - intros Hrow Href.
    assert (Hdel : Storage.deleteClient id db = Throw ForeignKeyViolation).
    { unfold Storage.deleteClient. by rewrite decide_True. }
    split; [exact Hdel|].
    unfold Routes.deleteClients, Routes.handleDelete. by rewrite Hdel.
  - intros Hrow Href.
    assert (Hdel : Storage.deleteArtist id db = Throw ForeignKeyViolation).
    { unfold Storage.deleteArtist. by rewrite decide_True. }
    split; [exact Hdel|].
    unfold Routes.deleteArtists, Routes.handleDelete. by rewrite Hdel.
  - intros Hfk. unfold Routes.deleteClients, Routes.deleteArtists,
      Routes.handleDelete. split.
    + destruct (Storage.deleteClient id db) eqn:Hdel; simpl; [|done].
      by eapply deleteClient_keeps_foreign_keys.
    + destruct (Storage.deleteArtist id db) eqn:Hdel; simpl; [|done].
      by eapply deleteArtist_keeps_foreign_keys.
Qed.

(** At the example studio, Ana has appointments and sales and Rex too:
    neither can be deleted. *)
Lemma delete_referenced_is_rejected_example :
  (is_Some (clients Example.studio !! "c1") ∧
   Storage.client_referenced "c1" Example.studio ∧
   Routes.deleteClients "c1" Example.studio
     = (Message 500 "Failed to delete client", Example.studio)) ∧
  (is_Some (artists Example.studio !! "a1") ∧
   Storage.artist_referenced "a1" Example.studio ∧
   Routes.deleteArtists "a1" Example.studio
     = (Message 500 "Failed to delete artist", Example.studio)) ∧
  foreign_keys_ok Example.studio ∧
  foreign_keys_ok (Routes.deleteClients "c1" Example.studio).2.
Proof.
  assert (Hfk : foreign_keys_ok Example.studio).
  { apply (bool_decide_unpack _). vm_compute. exact I. }
  assert (Hc : is_Some (clients Example.studio !! "c1")).
  { apply (bool_decide_unpack _). vm_compute. exact I. }
  assert (Hcr : Storage.client_referenced "c1" Example.studio).
  { apply (bool_decide_unpack _). vm_compute. exact I. }
  assert (Ha : is_Some (artists Example.studio !! "a1")).
  { apply (bool_decide_unpack _). vm_compute. exact I. }
  assert (Har : Storage.artist_referenced "a1" Example.studio).
  { apply (bool_decide_unpack _). vm_compute. exact I. }
  destruct (delete_referenced_is_rejected Example.studio "c1")
    as (Hclient & _ & Hkeep).
  destruct (delete_referenced_is_rejected Example.studio "a1")
    as (_ & Hartist & _).
  split; [|split; [|split]].
  - split; [exact Hc|]. split; [exact Hcr|]. exact (proj2 (Hclient Hc Hcr)).
  - split; [exact Ha|]. split; [exact Har|]. exact (proj2 (Hartist Ha Har)).
  - exact Hfk.
  - exact (proj1 (Hkeep Hfk)).
Defined.

(** C10. For each of the five tables, deleting a key that has no row
    answers 204 and leaves the store as it was; and for every key,
    repeating a delete gives the response and the store of the first. *)
Theorem delete_missing_is_noop (db : Database) (id : Id) :
  (clients db !! id = None →
   Routes.deleteClients id db = (NoContent 204, db)) ∧
  (artists db !! id = None →
   Routes.deleteArtists id db = (NoContent 204, db)) ∧
  (appointments db !! id = None →
   Routes.deleteAppointments id db = (NoContent 204, db)) ∧
  (inventory db !! id = None →
   Routes.deleteInventory id db = (NoContent 204, db)) ∧
  (sales db !! id = None →
   Routes.deleteSales id db = (NoContent 204, db)) ∧
  Routes.deleteClients id (Routes.deleteClients id db).2
    = Routes.deleteClients id db ∧
  Routes.deleteArtists id (Routes.deleteArtists id db).2
    = Routes.deleteArtists id db ∧
  Routes.deleteAppointments id (Routes.deleteAppointments id db).2
    = Routes.deleteAppointments id db ∧
  Routes.deleteInventory id (Routes.deleteInventory id db).2
    = Routes.deleteInventory id db ∧
  Routes.deleteSales id (Routes.deleteSales id db).2
    = Routes.deleteSales id db.
Proof.
  repeat split.
  - intros Hnone. unfold Routes.deleteClients, Routes.handleDelete,
      Storage.deleteClient.
    rewrite decide_False by (rewrite Hnone; by intros [[? ?] _]).
    rewrite delete_id by done. by destruct db.
  - intros Hnone. unfold Routes.deleteArtists, Routes.handleDelete,
      Storage.deleteArtist.
    rewrite decide_False by (rewrite Hnone; by intros [[? ?] _]).
    rewrite delete_id by done. by destruct db.
  - intros Hnone. unfold Routes.deleteAppointments, Routes.handleDelete,
      Storage.deleteAppointment.
    rewrite decide_False by (rewrite Hnone; by intros [[? ?] _]).
    rewrite delete_id by done. by destruct db.
  - intros Hnone. unfold Routes.deleteInventory, Routes.handleDelete,
      Storage.deleteInventoryItem.
    rewrite delete_id by done. by destruct db.
  - intros Hnone. unfold Routes.deleteSales, Routes.handleDelete,
      Storage.deleteSale.
    rewrite delete_id by done. by destruct db.
  - apply handleDelete_twice, deleteClient_again.
  - apply handleDelete_twice, deleteArtist_again.
  - apply handleDelete_twice, deleteAppointment_again.
  - apply handleDelete_twice, deleteInventoryItem_again.
  - apply handleDelete_twice, deleteSale_again.
Qed.

(** At the example studio nobody has the key "nobody". *)
Lemma delete_missing_is_noop_example :
  clients Example.studio !! "nobody" = None ∧
  Routes.deleteClients "nobody" Example.studio = (NoContent 204, Example.studio) ∧
  sales Example.studio !! "nobody" = None ∧
  Routes.deleteSales "nobody" Example.studio = (NoContent 204, Example.studio).
Proof.
  destruct (delete_missing_is_noop Example.studio "nobody")
    as (Hclients & _ & _ & _ & Hsales & _).
  assert (Hc : clients Example.studio !! "nobody" = None)
    by (vm_compute; reflexivity).
  assert (Hs : sales Example.studio !! "nobody" = None)
    by (vm_compute; reflexivity).
  split; [exact Hc|]. split; [exact (Hclients Hc)|].
  split; [exact Hs|]. exact (Hsales Hs).
Defined.

(** ** Dashboard windows *)

Section Dashboard.

Import Storage.

Lemma setHours_midnight t : setHours t 0 0 0 0 = Day t * msPerDay.
Proof. unfold setHours. lia. Qed.

Lemma Day_midnight z : Day (z * msPerDay) = z.
Proof. unfold Day, msPerDay. by rewrite Z.div_mul. Qed.

Lemma TimeWithinDay_midnight z : TimeWithinDay (z * msPerDay) = 0.
Proof. unfold TimeWithinDay, msPerDay. by rewrite Z.mod_mul. Qed.

(** [setDate] with the day of the month moved by [k] moves the instant by
    [k] days, across the ends of months and years. *)
Lemma setDate_shift t k : setDate t (getDate t + k) = t + k * msPerDay.
Proof.
  unfold setDate, getFullYear, getMonth, getDate.
  rewrite MakeDay_civil. unfold Day, TimeWithinDay.
  pose proof (Z.div_mod t msPerDay) as Hdm. unfold msPerDay in *. lia.
Qed.

Lemma tomorrow_is_next_midnight now :
  setDate (setHours now 0 0 0 0) (getDate (setHours now 0 0 0 0) + 1)
    = Spec.startOfNextDay now.
Proof.
  rewrite setDate_shift, setHours_midnight. unfold Spec.startOfNextDay. lia.
Qed.

(** [new Date(y, m + 1, 0)] is midnight at the start of the month's last
    day: one whole day before the next month begins. *)
Lemma endOfMonth_is_last_midnight y m :
  newDate y (m + 1) 0 + msPerDay = newDate y (m + 1) 1 ∧
  TimeWithinDay (newDate y (m + 1) 0) = 0.
Proof.
  split.
  - unfold newDate, MakeDay. lia.
  - apply TimeWithinDay_midnight.
Qed.

Lemma size_filter_split {A} (P Q R : Id * A → Prop)
    `{!∀ x, Decision (P x)} `{!∀ x, Decision (Q x)} `{!∀ x, Decision (R x)}
    (m : gmap Id A) :
  (∀ x, P x ↔ Q x ∨ R x) → (∀ x, Q x → R x → False) →
  size (filter P m) = (size (filter Q m) + size (filter R m))%nat.
Proof.
  intros Hsplit Hdisj.
  induction m as [|i x m Hi IH] using map_ind.
  - by rewrite !map_filter_empty, map_size_empty.
  - assert (Hnone : ∀ (S : Id * A → Prop) `{!∀ x, Decision (S x)},
              filter S m !! i = None).
    { intros S ?. apply map_lookup_filter_None. by left. }
    pose proof (Hsplit (i, x)) as HP.
    destruct (decide (Q (i, x))) as [HQ|HQ];
      destruct (decide (R (i, x))) as [HR|HR].
    + by destruct (Hdisj _ HQ HR).
    + rewrite (map_filter_insert_True P) by (apply HP; by left).
      rewrite (map_filter_insert_True Q) by done.
      rewrite (map_filter_insert_False R), delete_id by done.
      rewrite !map_size_insert_None by done. lia.
    + rewrite (map_filter_insert_True P) by (apply HP; by right).
      rewrite (map_filter_insert_False Q), delete_id by done.
      rewrite (map_filter_insert_True R) by done.
      rewrite !map_size_insert_None by done. lia.
    + rewrite (map_filter_insert_False P), delete_id
        by (done || (rewrite HP; by intros [?|?])).
      rewrite (map_filter_insert_False Q), delete_id by done.
      rewrite (map_filter_insert_False R), delete_id by done.
      done.
Qed.

(** The window of [todayAppointments] is closed at both ends: it is the
    day of [now] together with the first instant of the next day. *)
Lemma todayAppointments_excess now db :
  todayAppointments (getDashboardStats now db) =
    Spec.todayAppointments now db +
    Z.of_nat (size (filter (λ kv : Id * Appointment.t,
                              Appointment.scheduledDate kv.2
                                = Spec.startOfNextDay now)
                           (appointments db))).
Proof.
  unfold Spec.todayAppointments.
  cbv beta iota zeta delta [getDashboardStats todayAppointments].
  rewrite tomorrow_is_next_midnight, setHours_midnight.
  rewrite <-Nat2Z.inj_add. f_equal.
  apply size_filter_split.
  - intros [k a]. simpl. unfold Spec.startOfDay, Spec.startOfNextDay, msPerDay.
    lia.
  - intros [k a]. simpl. lia.
Qed.

(** The window of [monthlyRevenue] runs from the first day of the month
    of [now] at 00:00 to the last day of that month at 00:00. *)
Lemma monthlyRevenue_window now db :
  monthlyRevenue (getDashboardStats now db) =
    map_fold (λ _ s acc, Sale.totalAmount s + acc) 0
      (filter (λ kv : Id * Sale.t,
                 from_option
                   (λ d, newDate (getFullYear now) (getMonth now) 1 ≤ d ∧
                         d ≤ newDate (getFullYear now) (getMonth now + 1) 1
                               - msPerDay)
                   False (Sale.saleDate kv.2))
              (sales db)).
Proof.
  cbv beta iota zeta delta [getDashboardStats monthlyRevenue].
  assert (Hy : getFullYear (setHours now 0 0 0 0) = getFullYear now).
  { unfold getFullYear. by rewrite setHours_midnight, Day_midnight. }
  assert (Hm : getMonth (setHours now 0 0 0 0) = getMonth now).
  { unfold getMonth. by rewrite setHours_midnight, Day_midnight. }
  rewrite Hy, Hm.
  replace (newDate (getFullYear now) (getMonth now + 1) 0)
    with (newDate (getFullYear now) (getMonth now + 1) 1 - msPerDay); [done|].
  destruct (endOfMonth_is_last_midnight (getFullYear now) (getMonth now))
    as [Hend _]. lia.
Qed.

End Dashboard.

(** C3 at an appointment on the stroke of the next midnight. On
    2024-03-10 at 09:00 the studio has one appointment that day (14:00),
    one at 2024-03-11 00:00:00.000 and one the evening before. The
    dashboard counts two; the half-open day holds one, and the day's list
    that the dashboard shows beside the figure ([getAppointmentsByDate])
    holds that one. *)
Lemma next_midnight_is_counted_today :
  Appointment.scheduledDate <$> appointments Example.studio !! "p2"
    = Some (Spec.startOfNextDay Example.march10) ∧
  Storage.todayAppointments
    (Storage.getDashboardStats Example.march10 Example.studio) = 2 ∧
  Spec.todayAppointments Example.march10 Example.studio = 1 ∧
  AppointmentWithRelations.id
    <$> Storage.getAppointmentsByDate Example.march10 Example.studio = ["p1"].
Proof. repeat split; vm_compute; reflexivity. Qed.

(** C4 at a sale on the afternoon of the month's last day. On 2024-02-15
    the studio has a sale of 100.00 dated 2024-02-10 12:00 and one of
    250.50 dated 2024-02-29 15:00, both in February 2024. The dashboard
    reports 100.00; the sum over the calendar month is 350.50. *)
Lemma last_day_sale_is_left_out :
  Sale.saleDate <$> sales Example.studio !! "s1"
    = Some (Some (at_ 2024 1 10 12 0 0 0)) ∧
  Sale.saleDate <$> sales Example.studio !! "s2"
    = Some (Some (at_ 2024 1 29 15 0 0 0)) ∧
  Spec.sameMonth Example.feb15 (at_ 2024 1 10 12 0 0 0) ∧
  Spec.sameMonth Example.feb15 (at_ 2024 1 29 15 0 0 0) ∧
  newDate (getFullYear Example.feb15) (getMonth Example.feb15 + 1) 0
    = at_ 2024 1 29 0 0 0 0 ∧
  Storage.monthlyRevenue
    (Storage.getDashboardStats Example.feb15 Example.studio) = 10000 ∧
  Spec.monthlyRevenue Example.feb15 Example.studio = 35050.
Proof. repeat split; vm_compute; reflexivity. Qed.

(** * Further properties of the storage layer and its callers *)

(** ** Sale writes, continued *)

Section SaleWritesMore.

Import Storage Routes.

Lemma sale_refs_inserted db sale now :
  sale_refs_ok db (insertedSale sale now) ↔ refs_resolve db sale.
Proof. reflexivity. Qed.

(** The references of a sale are looked up in the three tables a sale
    write leaves alone. *)
Lemma foreign_keys_withSale db id row :
  foreign_keys_ok db → sale_refs_ok db row →
  foreign_keys_ok (withSale db id row).
Proof.
  intros [Happ Hsale] Hrow. split.
  - exact Happ.
  - apply map_Forall_insert_2; [exact Hrow|exact Hsale].
Qed.

End SaleWritesMore.

(** X1. POST /api/sales answers 201 exactly when the body names a
    client, an artist and a total and carries no [saleDate], its amounts
    fit their columns, the key drawn for the row is free and the three
    references of the sale exist; the store then holds the new row under
    that key. In every other case it answers 400 and the store is as it
    was. *)
Theorem post_sales_outcome (body : SaleBody.t) (now : Timestamp) (newId : Id)
    (db : Database) :
  (is_Some (Routes.parseInsertSale body) ↔
     is_Some (SaleBody.clientId body) ∧ is_Some (SaleBody.artistId body) ∧
     is_Some (SaleBody.totalAmount body) ∧ SaleBody.saleDate body = None) ∧
  (∀ sale,
     Routes.parseInsertSale body = Some sale →
     insertSale_fits sale →
     sales db !! newId = None → refs_resolve db sale →
     Routes.postSales body now newId db
       = (Json 201 (Storage.insertedSale sale now),
          withSale db newId (Storage.insertedSale sale now))) ∧
  (¬ (∃ sale, Routes.parseInsertSale body = Some sale ∧
              insertSale_fits sale ∧
              sales db !! newId = None ∧ refs_resolve db sale) →
   Routes.postSales body now newId db
     = (Message 400 "Failed to create sale", db)).
Proof.
  split; [apply parseInsertSale_is_Some|]. split.
  - intros sale Hparse Hfits Hfresh Hrefs. by apply postSales_created.
  - intros Hnot. unfold Routes.postSales.
    destruct (Routes.parseInsertSale body) as [sale|] eqn:Hparse; [|done].
    unfold Storage.createSale.
    case_decide as Hfits; [|done].
    case_decide as Hkey; [done|].
    case_decide as Hrefs; [|done].
    exfalso. apply Hnot. exists sale. split; [done|]. split; [done|].
    split; [|done].
    destruct (sales db !! newId) eqn:E; [|done]. by destruct Hkey.
Qed.

(** At the example studio: the hand-written body is stored; a body
    without a total, a body with a date and a body whose total is
    100,000,000.00 are refused. *)
Lemma post_sales_outcome_example :
  Routes.postSales Example.handWritten Example.march10 "s3" Example.studio
    = (Json 201 (Storage.insertedSale Sample.handWrittenSale Example.march10),
       withSale Example.studio "s3"
         (Storage.insertedSale Sample.handWrittenSale Example.march10)) ∧
  Routes.postSales (Example.depositOnly 4000) Example.march10 "s3"
                   Example.studio
    = (Message 400 "Failed to create sale", Example.studio) ∧
  Routes.postSales (Sample.saleBody 10000 (Some Example.march10))
                   Example.march10 "s3" Example.studio
    = (Message 400 "Failed to create sale", Example.studio) ∧
  Routes.postSales (Sample.saleBody 10000000000 None) Example.march10 "s3"
                   Example.studio
    = (Message 400 "Failed to create sale", Example.studio).
Proof.
  destruct (post_sales_outcome Example.handWritten Example.march10 "s3"
              Example.studio) as (_ & Hok & _).
  destruct (post_sales_outcome (Example.depositOnly 4000) Example.march10 "s3"
              Example.studio) as (_ & _ & Hbad).
  destruct (post_sales_outcome (Sample.saleBody 10000 (Some Example.march10))
              Example.march10 "s3" Example.studio) as (_ & _ & Hdated).
  destruct (post_sales_outcome (Sample.saleBody 10000000000 None)
              Example.march10 "s3" Example.studio) as (_ & _ & Hdear).
  split; [|split; [|split]].
  - apply Hok; [reflexivity| |vm_compute; reflexivity|].
    + apply (bool_decide_unpack _). vm_compute. exact I.
    + apply (bool_decide_unpack _). vm_compute. exact I.
  - apply Hbad. intros (sale & Hparse & _). discriminate Hparse.
  - apply Hdated. intros (sale & Hparse & _). discriminate Hparse.
  - apply Hdear. intros (sale & Hparse & Hfits & _).
    injection Hparse as <-. destruct Hfits as [[_ Hfits] _].
    simpl in Hfits. lia.
Defined.

(** X2. After a POST /api/sales answered 201, GET /api/sales/:id on the
    new key answers 200 with the row that was stored, its client and its
    artist, both present; every other key reads as before. *)
Theorem post_then_get_sale (body : SaleBody.t) (now : Timestamp) (newId : Id)
    (db db' : Database) (row : Sale.t) :
  Routes.postSales body now newId db = (Json 201 row, db') →
  (∃ client artist,
     Routes.getSaleById newId db'
       = Json 200 (SaleWithRelations.mk newId row (Some client) (Some artist)
                     (Sale.appointmentId row ≫= λ aid, appointments db !! aid)) ∧
     clients db !! Sale.clientId row = Some client ∧
     artists db !! Sale.artistId row = Some artist) ∧
  (∀ id, id ≠ newId → Routes.getSaleById id db' = Routes.getSaleById id db).
Proof.
  unfold Routes.postSales. intros Hpost.
  destruct (Routes.parseInsertSale body) as [sale|]; [|done].
  unfold Storage.createSale in Hpost.
  case_decide as Hfits; [|done].
  case_decide as Hkey; [done|]. case_decide as Hrefs; [|done].
  simplify_eq. destruct Hrefs as ([client Hc] & [artist Ha] & _).
  split.
  - exists client, artist. split; [|done].
    unfold Routes.getSaleById, Storage.getSale. simpl.
    rewrite lookup_insert_eq. simpl in *. by rewrite Hc, Ha.
  - intros id Hne. unfold Routes.getSaleById, Storage.getSale. simpl.
    by rewrite lookup_insert_ne.
Qed.

Lemma post_then_get_sale_example :
  let row := Storage.insertedSale Sample.handWrittenSale Example.march10 in
  let db' := withSale Example.studio "s3" row in
  Routes.postSales Example.handWritten Example.march10 "s3" Example.studio
    = (Json 201 row, db') ∧
  Routes.getSaleById "s3" db'
    = Json 200 (SaleWithRelations.mk "s3" row (Some Example.ana)
                  (Some Example.rex) None) ∧
  Routes.getSaleById "s1" db' = Routes.getSaleById "s1" Example.studio.
Proof.
  intros row db'.
  assert (Hpost : Routes.postSales Example.handWritten Example.march10 "s3"
                    Example.studio = (Json 201 row, db'))
    by (vm_compute; reflexivity).
  destruct (post_then_get_sale _ _ _ _ _ _ Hpost)
    as [(client & artist & Hget & Hc & Ha) Hothers].
  split; [exact Hpost|]. split.
  - rewrite Hget. f_equal. f_equal; [rewrite <-Hc|rewrite <-Ha]; reflexivity.
  - by apply Hothers.
Defined.

(** X3. An update aimed at a key that has no row, with values that fit
    their columns, does nothing and is not an error: the four [update]
    functions return [undefined] with the store untouched.  PATCH
    /api/sales/:id on such a key answers 200 with no row when the body
    carries no [saleDate], and 400 when it carries one. *)
Theorem update_missing_row (id : Id) (now : Timestamp) (db : Database) :
  (∀ updates, sales db !! id = None → saleUpdate_fits updates →
     Storage.updateSale id updates now db = Ok (None, db) ∧
     (SaleBody.saleDate updates = None →
      Routes.patchSales id updates now db = (Json 200 None, db)) ∧
     (is_Some (SaleBody.saleDate updates) →
      Routes.patchSales id updates now db
        = (Message 400 "Failed to update sale", db))) ∧
  (∀ updates, appointments db !! id = None → appointmentUpdate_fits updates →
     Storage.updateAppointment id updates now db = Ok (None, db)) ∧
  (∀ updates, clients db !! id = None →
     Storage.updateClient id updates now db = Ok (None, db)) ∧
  (∀ updates, inventory db !! id = None → inventoryUpdate_fits updates →
     Storage.updateInventoryItem id updates now db = Ok (None, db)).
Proof.
  split; [|split; [|split]].
  - intros updates Hnone Hfits.
    assert (Hup : Storage.updateSale id updates now db = Ok (None, db)).
    { unfold Storage.updateSale. by rewrite decide_True, Hnone. }
    split; [exact Hup|]. unfold Routes.patchSales, Routes.parsePartialInsertSale.
    split.
    + intros ->. by rewrite Hup.
    + by intros [d ->].
  - intros updates Hnone Hfits. unfold Storage.updateAppointment.
    by rewrite decide_True, Hnone.
  - intros updates Hnone. unfold Storage.updateClient. by rewrite Hnone.
  - intros updates Hnone Hfits. unfold Storage.updateInventoryItem.
    by rewrite decide_True, Hnone.
Qed.

Lemma update_missing_row_example :
  sales Example.studio !! "nobody" = None ∧
  saleUpdate_fits (Example.depositOnly 4000) ∧
  Routes.patchSales "nobody" (Example.depositOnly 4000) Example.march10
                    Example.studio = (Json 200 None, Example.studio).
Proof.
  destruct (update_missing_row "nobody" Example.march10 Example.studio)
    as (Hsale & _).
  assert (Hnone : sales Example.studio !! "nobody" = None)
    by (vm_compute; reflexivity).
  assert (Hfits : saleUpdate_fits (Example.depositOnly 4000)).
  { apply (bool_decide_unpack _). vm_compute. exact I. }
  split; [exact Hnone|]. split; [exact Hfits|].
  destruct (Hsale _ Hnone Hfits) as (_ & Hpatch & _).
  apply Hpatch. reflexivity.
Defined.

(** X4. An accepted PATCH /api/sales/:id changes the row it names and
    nothing else: the other sales and the other tables are as before.
    The body carried no [saleDate]; the row keeps its [createdAt] and its
    [saleDate], gets [updatedAt = now], takes each value the body
    carries, and keeps the value of each column the body omits. *)
Theorem patch_sale_scope (id : Id) (body : SaleBody.t) (now : Timestamp)
    (db db' : Database) (row : Sale.t) :
  Routes.patchSales id body now db = (Json 200 (Some row), db') →
  ∃ old,
    sales db !! id = Some old ∧
    sales db' = <[id := row]> (sales db) ∧
    artists db' = artists db ∧ clients db' = clients db ∧
    appointments db' = appointments db ∧ inventory db' = inventory db ∧
    SaleBody.saleDate body = None ∧
    Sale.createdAt row = Sale.createdAt old ∧
    Sale.saleDate row = Sale.saleDate old ∧
    Sale.updatedAt row = Some now ∧
    Sale.appointmentId row
      = from_option Some (Sale.appointmentId old) (SaleBody.appointmentId body) ∧
    Sale.clientId row = default (Sale.clientId old) (SaleBody.clientId body) ∧
    Sale.artistId row = default (Sale.artistId old) (SaleBody.artistId body) ∧
    Sale.totalAmount row
      = default (Sale.totalAmount old) (SaleBody.totalAmount body) ∧
    Sale.deposit row
      = from_option Some (Sale.deposit old) (SaleBody.deposit body) ∧
    Sale.remainingBalance row
      = from_option Some (Sale.remainingBalance old)
                    (SaleBody.remainingBalance body) ∧
    Sale.paymentStatus row
      = default (Sale.paymentStatus old) (SaleBody.paymentStatus body) ∧
    Sale.paymentMethod row
      = from_option Some (Sale.paymentMethod old) (SaleBody.paymentMethod body) ∧
    Sale.notes row = from_option Some (Sale.notes old) (SaleBody.notes body).
Proof.
  unfold Routes.patchSales, Routes.parsePartialInsertSale, Storage.updateSale.
  intros Hpatch.
  destruct (SaleBody.saleDate body) as [d|] eqn:Hdate; [done|].
  case_decide as Hfits; [|done].
  destruct (sales db !! id) as [old|] eqn:Hold; [|by simplify_eq].
  case_decide; [|done]. simplify_eq. exists old. simpl. rewrite Hdate.
  repeat split; try done;
    match goal with |- context [from_option Some _ ?o] => by destruct o end.
Qed.

Lemma patch_sale_scope_example :
  let old := Example.saleOf 10000 (at_ 2024 1 10 12 0 0 0) in
  let row := Storage.updatedSale old (Example.depositOnly 4000) Example.march10 in
  let db' := withSale Example.studio "s1" row in
  Routes.patchSales "s1" (Example.depositOnly 4000) Example.march10
                    Example.studio = (Json 200 (Some row), db') ∧
  Sale.deposit row = Some 4000 ∧
  Sale.totalAmount row = 10000 ∧
  Sale.remainingBalance row = Some (Amount 10000) ∧
  Sale.updatedAt row = Some Example.march10 ∧
  clients db' = clients Example.studio.
Proof.
  intros old row db'.
  assert (Hpatch : Routes.patchSales "s1" (Example.depositOnly 4000)
                     Example.march10 Example.studio = (Json 200 (Some row), db'))
    by (vm_compute; reflexivity).
  destruct (patch_sale_scope _ _ _ _ _ _ Hpatch)
    as (old' & Hold & _ & _ & Hc & _ & _ & _ & _ & _ & Hup & _).
  split; [exact Hpatch|]. split; [reflexivity|]. split; [reflexivity|].
  split; [reflexivity|]. split; [exact Hup|exact Hc].
Defined.

(** X5. DELETE /api/sales/:id always answers 204. Afterwards the sale is
    gone (GET answers 404) and every other sale and table is as before. *)
Theorem delete_sale_then_get (id : Id) (db : Database) :
  ∃ db',
    Routes.deleteSales id db = (NoContent 204, db') ∧
    Routes.getSaleById id db' = Message 404 "Sale not found" ∧
    (∀ j, j ≠ id → Routes.getSaleById j db' = Routes.getSaleById j db) ∧
    artists db' = artists db ∧ clients db' = clients db ∧
    appointments db' = appointments db ∧ inventory db' = inventory db.
Proof.
  eexists. split; [reflexivity|]. simpl.
  unfold Routes.getSaleById, Storage.getSale. simpl.
  rewrite lookup_delete_eq. split; [done|]. split; [|done].
  intros j Hne. by rewrite lookup_delete_ne.
Qed.

Lemma delete_sale_then_get_example :
  Routes.deleteSales "s1" Example.studio
    = (NoContent 204, (Routes.deleteSales "s1" Example.studio).2) ∧
  Routes.getSaleById "s1" (Routes.deleteSales "s1" Example.studio).2
    = Message 404 "Sale not found" ∧
  Routes.getSaleById "s2" (Routes.deleteSales "s1" Example.studio).2
    = Routes.getSaleById "s2" Example.studio.
Proof.
  destruct (delete_sale_then_get "s1" Example.studio)
    as (db' & Hdel & Hgone & Hothers & _).
  rewrite Hdel. simpl. split; [reflexivity|]. split; [exact Hgone|].
  by apply Hothers.
Defined.

(** ** The references survive every write *)

Section ForeignKeys.

Import Storage.

(** A store whose referenced tables only grew, and whose appointments
    and sales are old rows or rows with resolved references, satisfies
    the references. *)
Lemma foreign_keys_mono db db' :
  foreign_keys_ok db →
  (∀ k, is_Some (clients db !! k) → is_Some (clients db' !! k)) →
  (∀ k, is_Some (artists db !! k) → is_Some (artists db' !! k)) →
  (∀ k, is_Some (appointments db !! k) → is_Some (appointments db' !! k)) →
  (∀ k a, appointments db' !! k = Some a →
          appointments db !! k = Some a ∨ appointment_refs_ok db a) →
  (∀ k s, sales db' !! k = Some s →
          sales db !! k = Some s ∨ sale_refs_ok db s) →
  foreign_keys_ok db'.
Proof.
  intros [Happ Hsale] Hc Ha Hp Hrows Hsales.
  assert (Happ' : ∀ a, appointment_refs_ok db a → appointment_refs_ok db' a).
  { intros a [? ?]. split; [by apply Hc|by apply Ha]. }
  assert (Hsale' : ∀ s, sale_refs_ok db s → sale_refs_ok db' s).
  { intros s (? & ? & Hs). split; [by apply Hc|]. split; [by apply Ha|].
    destruct (Sale.appointmentId s); simpl in *; [by apply Hp|done]. }
  split.
  - intros k a Hk. apply Happ'.
    destruct (Hrows k a Hk) as [Hold|Hnew]; [by apply (Happ k a)|done].
  - intros k s Hk. apply Hsale'.
    destruct (Hsales k s Hk) as [Hold|Hnew]; [by apply (Hsale k s)|done].
Qed.

Lemma is_Some_insert {A} (m : gmap Id A) i x k :
  is_Some (m !! k) → is_Some (<[i := x]> m !! k).
Proof.
  intros Hk. destruct (decide (i = k)) as [->|Hne].
  - rewrite lookup_insert_eq. by eexists.
  - by rewrite lookup_insert_ne.
Qed.

Lemma lookup_insert_old_or_new {A} (m : gmap Id A) i x k y (P : A → Prop) :
  P x → <[i := x]> m !! k = Some y → m !! k = Some y ∨ P y.
Proof.
  intros Hx. destruct (decide (i = k)) as [->|Hne].
  - rewrite lookup_insert_eq. intros [= <-]. by right.
  - rewrite lookup_insert_ne by done. by left.
Qed.

Lemma deleteAppointment_keeps_foreign_keys id db db' :
  foreign_keys_ok db → deleteAppointment id db = Ok db' → foreign_keys_ok db'.
Proof.
  unfold deleteAppointment. intros [Happ Hsale] Hdel.
  case_decide as Href; [done|]. simplify_eq. split.
  - intros j a Ha. simpl in Ha. apply lookup_delete_Some in Ha as [_ Ha].
    exact (Happ j a Ha).
  - intros j s Hs. destruct (Hsale j s Hs) as (Hc & Har & Hp).
    split; [exact Hc|]. split; [exact Har|]. simpl.
    destruct (Sale.appointmentId s) as [aid|] eqn:Haid; simpl in *; [|done].
    eapply lookup_delete_referenced; [exact Href| |exact Hp].
    intros ->. by exists j, s.
Qed.

End ForeignKeys.

(** X6. Every write of the storage layer keeps the references of the
    schema: if each appointment and sale names an existing client and
    artist (and each sale an existing appointment, when it names one)
    before a create, update or delete that went through, the same holds
    after it. *)
Theorem writes_keep_foreign_keys (db db' : Database) (now : Timestamp) (id : Id) :
  foreign_keys_ok db →
  (∀ sale row, Storage.createSale sale now id db = Ok (row, db') →
               foreign_keys_ok db') ∧
  (∀ updates row, Storage.updateSale id updates now db = Ok (row, db') →
                  foreign_keys_ok db') ∧
  (Storage.deleteSale id db = Ok db' → foreign_keys_ok db') ∧
  (∀ appointment row,
     Storage.createAppointment appointment now id db = Ok (row, db') →
     foreign_keys_ok db') ∧
  (∀ updates row, Storage.updateAppointment id updates now db = Ok (row, db') →
                  foreign_keys_ok db') ∧
  (Storage.deleteAppointment id db = Ok db' → foreign_keys_ok db') ∧
  (∀ client row, Storage.createClient client now id db = Ok (row, db') →
                 foreign_keys_ok db') ∧
  (∀ updates row, Storage.updateClient id updates now db = Ok (row, db') →
                  foreign_keys_ok db') ∧
  (Storage.deleteClient id db = Ok db' → foreign_keys_ok db') ∧
  (Storage.deleteArtist id db = Ok db' → foreign_keys_ok db') ∧
  (∀ item row, Storage.createInventoryItem item now id db = Ok (row, db') →
               foreign_keys_ok db') ∧
  (∀ updates row, Storage.updateInventoryItem id updates now db = Ok (row, db') →
                  foreign_keys_ok db') ∧
  (Storage.deleteInventoryItem id db = Ok db' → foreign_keys_ok db').
Proof.
  intros Hfk.
  split; [|split; [|split; [|split; [|split; [|split; [|split; [|split;
    [|split; [|split; [|split; [|split]]]]]]]]]]].
  - intros sale row. unfold Storage.createSale.
    repeat case_decide; intros; simplify_eq.
    by apply foreign_keys_withSale.
  - intros updates row. unfold Storage.updateSale.
    case_decide; [|done].
    destruct (sales db !! id); [|by intros; simplify_eq].
    case_decide; intros; simplify_eq. by apply foreign_keys_withSale.
  - unfold Storage.deleteSale. intros; simplify_eq.
    apply (foreign_keys_mono db); simpl; try done; try by left.
    intros k s [_ Hs]%lookup_delete_Some. by left.
  - intros appointment row. unfold Storage.createAppointment.
    repeat case_decide; intros; simplify_eq.
    apply (foreign_keys_mono db); simpl; try done; try by left.
    + intros k. apply is_Some_insert.
    + intros k a. by apply lookup_insert_old_or_new.
  - intros updates row. unfold Storage.updateAppointment.
    case_decide; [|done].
    destruct (appointments db !! id); [|by intros; simplify_eq].
    case_decide; intros; simplify_eq.
    apply (foreign_keys_mono db); simpl; try done; try by left.
    + intros k. apply is_Some_insert.
    + intros k a. by apply lookup_insert_old_or_new.
  - by apply deleteAppointment_keeps_foreign_keys.
  - intros client row. unfold Storage.createClient.
    repeat case_decide; intros; simplify_eq.
    apply (foreign_keys_mono db); simpl; try done; try by left.
    intros k. apply is_Some_insert.
  - intros updates row. unfold Storage.updateClient.
    destruct (clients db !! id); [|by intros; simplify_eq].
    case_decide; intros; simplify_eq.
    apply (foreign_keys_mono db); simpl; try done; try by left.
    intros k. apply is_Some_insert.
  - by apply deleteClient_keeps_foreign_keys.
  - by apply deleteArtist_keeps_foreign_keys.
  - intros item row. unfold Storage.createInventoryItem.
    repeat case_decide; intros; simplify_eq.
    apply (foreign_keys_mono db); simpl; try done; by left.
  - intros updates row. unfold Storage.updateInventoryItem.
    case_decide; [|done].
    destruct (inventory db !! id); intros; simplify_eq; [|done].
    apply (foreign_keys_mono db); simpl; try done; by left.
  - unfold Storage.deleteInventoryItem. intros; simplify_eq.
    apply (foreign_keys_mono db); simpl; try done; by left.
Qed.

(** At the example studio, booking a walk-in for Ana with Rex. *)
Lemma writes_keep_foreign_keys_example :
  let row := Storage.insertedAppointment Sample.walkIn Example.march10 in
  let db' := Storage.withAppointment Example.studio "p4" row in
  foreign_keys_ok Example.studio ∧
  Storage.createAppointment Sample.walkIn Example.march10 "p4" Example.studio
    = Ok (row, db') ∧
  foreign_keys_ok db'.
Proof.
  intros row db'.
  assert (Hfk : foreign_keys_ok Example.studio).
  { apply (bool_decide_unpack _). vm_compute. exact I. }
  assert (Hrun : Storage.createAppointment Sample.walkIn Example.march10 "p4"
                   Example.studio = Ok (row, db'))
    by (vm_compute; reflexivity).
  destruct (writes_keep_foreign_keys Example.studio db' Example.march10 "p4" Hfk)
    as (_ & _ & _ & Hcreate & _).
  split; [exact Hfk|]. split; [exact Hrun|]. exact (Hcreate _ _ Hrun).
Defined.

(** ** Appointments *)

(** X7. An appointment that a sale still names is not deleted: DELETE
    /api/appointments/:id answers 500 and the store is as it was. An
    appointment no sale names is deleted with 204, after which GET
    answers 404 for it. *)
Theorem delete_appointment_policy (id : Id) (db : Database) :
  (is_Some (appointments db !! id) → Storage.appointment_referenced id db →
   Routes.deleteAppointments id db
     = (Message 500 "Failed to delete appointment", db)) ∧
  (¬ Storage.appointment_referenced id db →
   ∃ db', Routes.deleteAppointments id db = (NoContent 204, db') ∧
          appointments db' = delete id (appointments db) ∧
          sales db' = sales db ∧
          Routes.getAppointmentById id db'
            = Message 404 "Appointment not found").
Proof.
  unfold Routes.deleteAppointments, Routes.handleDelete,
    Storage.deleteAppointment.
  split.
  - intros Hrow Href. by rewrite decide_True.
  - intros Hfree. rewrite decide_False by (by intros [_ ?]).
    eexists. split; [reflexivity|]. simpl. split; [done|]. split; [done|].
    unfold Routes.getAppointmentById, Storage.getAppointment. simpl.
    by rewrite lookup_delete_eq.
Qed.

(** At the example studio no sale names the appointment "p1"; once a
    sale names it, "p1" stays. *)
Lemma delete_appointment_policy_example :
  let paid := withSale Example.studio "s3"
                (Sale.mk (Some "p1") "c1" "a1" 5000 (Some 5000)
                   (Some (Amount 0)) "completed" None None None None None) in
  (is_Some (appointments paid !! "p1") ∧
   Storage.appointment_referenced "p1" paid ∧
   Routes.deleteAppointments "p1" paid
     = (Message 500 "Failed to delete appointment", paid)) ∧
  (¬ Storage.appointment_referenced "p1" Example.studio ∧
   Routes.getAppointmentById "p1"
     (Routes.deleteAppointments "p1" Example.studio).2
     = Message 404 "Appointment not found").
Proof.
  intros paid.
  assert (Hrow : is_Some (appointments paid !! "p1")).
  { apply (bool_decide_unpack _). vm_compute. exact I. }
  assert (Href : Storage.appointment_referenced "p1" paid).
  { apply (bool_decide_unpack _). vm_compute. exact I. }
  assert (Hfree : ¬ Storage.appointment_referenced "p1" Example.studio).
  { apply (bool_decide_unpack _). vm_compute. exact I. }
  destruct (delete_appointment_policy "p1" paid) as [Hkept _].
  destruct (delete_appointment_policy "p1" Example.studio) as [_ Hgone].
  split.
  - split; [exact Hrow|]. split; [exact Href|]. exact (Hkept Hrow Href).
  - split; [exact Hfree|].
    destruct (Hgone Hfree) as (db' & Hdel & _ & _ & Hget).
    rewrite Hdel. exact Hget.
Defined.

(** X8. [createAppointment] stores the appointment exactly when its
    duration and price fit their columns, the key drawn for it is free
    and its client and artist exist; a value that does not fit is a
    range error, a taken key a uniqueness error and a missing client or
    artist a foreign-key error. A duration and a price that fit are not
    looked at any further: a duration of 0 or less is stored.
    After a create that went through, [getAppointment] on the key
    returns the row with its client and its artist, both present. *)
Theorem create_appointment_outcome (appointment : InsertAppointment.t)
    (now : Timestamp) (newId : Id) (db : Database) :
  let row := Storage.insertedAppointment appointment now in
  (insertAppointment_fits appointment →
   appointments db !! newId = None →
   ∀ client artist,
     clients db !! InsertAppointment.clientId appointment = Some client →
     artists db !! InsertAppointment.artistId appointment = Some artist →
     Storage.createAppointment appointment now newId db
       = Ok (row, Storage.withAppointment db newId row) ∧
     Storage.getAppointment newId (Storage.withAppointment db newId row)
       = Some (AppointmentWithRelations.mk newId row (Some client) (Some artist))) ∧
  (insertAppointment_fits appointment →
   appointments db !! newId = None →
   clients db !! InsertAppointment.clientId appointment = None ∨
   artists db !! InsertAppointment.artistId appointment = None →
   Storage.createAppointment appointment now newId db
     = Throw ForeignKeyViolation) ∧
  (insertAppointment_fits appointment →
   is_Some (appointments db !! newId) →
   Storage.createAppointment appointment now newId db = Throw UniqueViolation) ∧
  (¬ insertAppointment_fits appointment →
   Storage.createAppointment appointment now newId db
     = Throw NumericValueOutOfRange).
Proof.
  intros row. unfold Storage.createAppointment. fold row.
  split; [|split; [|split]].
  - intros Hfits Hfresh client artist Hc Ha.
    rewrite decide_True by done.
    rewrite decide_False by (rewrite Hfresh; by intros [? ?]).
    rewrite decide_True by (split; simpl; [rewrite Hc|rewrite Ha]; by eexists).
    split; [done|].
    unfold Storage.getAppointment, Storage.withRelations. simpl.
    rewrite lookup_insert_eq. simpl. by rewrite Hc, Ha.
  - intros Hfits Hfresh Hmissing.
    rewrite decide_True by done.
    rewrite decide_False by (rewrite Hfresh; by intros [? ?]).
    rewrite decide_False; [done|].
    intros [[? Hc] [? Ha]]. simpl in *.
    destruct Hmissing as [Hm|Hm]; rewrite Hm in *; done.
  - intros Hfits Htaken. by rewrite !decide_True.
  - intros Hfits. by rewrite decide_False.
Qed.

(** At the example studio: a walk-in is booked, and so is a booking of
    -30 minutes; a booking for a client the studio does not have, one
    under a key in use and one of 2^31 minutes are refused. *)
Lemma create_appointment_outcome_example :
  let row := Storage.insertedAppointment Sample.walkIn Example.march10 in
  let short := Storage.insertedAppointment (Sample.booking (-30)) Example.march10 in
  (appointments Example.studio !! "p4" = None ∧
   Storage.getAppointment "p4" (Storage.withAppointment Example.studio "p4" row)
     = Some (AppointmentWithRelations.mk "p4" row (Some Example.ana)
               (Some Example.rex)) ∧
   Storage.createAppointment (Sample.booking (-30)) Example.march10 "p4"
                             Example.studio
     = Ok (short, Storage.withAppointment Example.studio "p4" short)) ∧
  (clients Example.studio !! "ghost" = None ∧
   Storage.createAppointment Sample.stranger Example.march10 "p4" Example.studio
     = Throw ForeignKeyViolation) ∧
  (is_Some (appointments Example.studio !! "p1") ∧
   Storage.createAppointment Sample.walkIn Example.march10 "p1" Example.studio
     = Throw UniqueViolation) ∧
  (¬ insertAppointment_fits (Sample.booking 2147483648) ∧
   Storage.createAppointment (Sample.booking 2147483648) Example.march10 "p4"
                             Example.studio
     = Throw NumericValueOutOfRange).
Proof.
  intros row short.
  destruct (create_appointment_outcome Sample.walkIn Example.march10 "p4"
              Example.studio) as (Hok & _ & _ & _).
  destruct (create_appointment_outcome (Sample.booking (-30)) Example.march10
              "p4" Example.studio) as (Hshort & _ & _ & _).
  destruct (create_appointment_outcome Sample.stranger Example.march10 "p4"
              Example.studio) as (_ & Hfk & _ & _).
  destruct (create_appointment_outcome Sample.walkIn Example.march10 "p1"
              Example.studio) as (_ & _ & Hkey & _).
  destruct (create_appointment_outcome (Sample.booking 2147483648)
              Example.march10 "p4" Example.studio) as (_ & _ & _ & Hrange).
  assert (Hf1 : insertAppointment_fits Sample.walkIn).
  { apply (bool_decide_unpack _). vm_compute. exact I. }
  assert (Hf2 : insertAppointment_fits (Sample.booking (-30))).
  { apply (bool_decide_unpack _). vm_compute. exact I. }
  assert (Hf3 : insertAppointment_fits Sample.stranger).
  { apply (bool_decide_unpack _). vm_compute. exact I. }
  assert (Hfresh : appointments Example.studio !! "p4" = None)
    by (vm_compute; reflexivity).
  assert (Hnone : clients Example.studio !! "ghost" = None)
    by (vm_compute; reflexivity).
  assert (Htaken : is_Some (appointments Example.studio !! "p1")).
  { apply (bool_decide_unpack _). vm_compute. exact I. }
  assert (Hbig : ¬ insertAppointment_fits (Sample.booking 2147483648)).
  { intros [[_ Hle] _]. simpl in Hle. lia. }
  split; [|split; [|split]].
  - split; [exact Hfresh|]. split.
    + refine (proj2 (Hok Hf1 Hfresh Example.ana Example.rex _ _));
        vm_compute; reflexivity.
    + refine (proj1 (Hshort Hf2 Hfresh Example.ana Example.rex _ _));
        vm_compute; reflexivity.
  - split; [exact Hnone|].
    apply Hfk; [exact Hf3|exact Hfresh|]. left. exact Hnone.
  - split; [exact Htaken|]. exact (Hkey Hf1 Htaken).
  - split; [exact Hbig|]. exact (Hrange Hbig).
Defined.

(** ** The list queries *)

Section Lists.

Import Storage.

#[global] Instance ascScheduledDate_total : Total ascScheduledDate.
Proof. intros x y. unfold ascScheduledDate. lia. Qed.

#[global] Instance ascScheduledDate_trans : Transitive ascScheduledDate.
Proof. intros x y z. unfold ascScheduledDate. lia. Qed.

#[global] Instance descScheduledDate_total : Total descScheduledDate.
Proof. intros x y. unfold descScheduledDate. lia. Qed.

#[global] Instance descScheduledDate_trans : Transitive descScheduledDate.
Proof. intros x y z. unfold descScheduledDate. lia. Qed.

#[global] Instance descSaleDate_total : Total descSaleDate.
Proof.
  intros x y. unfold descSaleDate.
  destruct (Sale.saleDate x.2), (Sale.saleDate y.2); auto. lia.
Qed.

#[global] Instance descSaleDate_trans : Transitive descSaleDate.
Proof.
  intros x y z. unfold descSaleDate.
  destruct (Sale.saleDate x.2), (Sale.saleDate y.2), (Sale.saleDate z.2);
    auto; try done. lia.
Qed.

(** What sorting the rows of a table keeps: the rows, each once. *)
Lemma elem_of_sorted_rows {A} (R : relation (Id * A))
    `{!∀ x y, Decision (R x y)} (m : gmap Id A) id a :
  (id, a) ∈ merge_sort R (map_to_list m) ↔ m !! id = Some a.
Proof. rewrite merge_sort_Permutation. apply elem_of_map_to_list. Qed.

Lemma NoDup_sorted_keys {A} (R : relation (Id * A))
    `{!∀ x y, Decision (R x y)} (m : gmap Id A) :
  NoDup (merge_sort R (map_to_list m)).*1.
Proof. rewrite merge_sort_Permutation. apply NoDup_fst_map_to_list. Qed.

Lemma length_sorted_rows {A} (R : relation (Id * A))
    `{!∀ x y, Decision (R x y)} (m : gmap Id A) :
  length (merge_sort R (map_to_list m)) = size m.
Proof. by rewrite merge_sort_Permutation, length_map_to_list. Qed.

Lemma setHours_last_instant t :
  setHours t 23 59 59 999 = Day t * msPerDay + 86399999.
Proof. unfold setHours. lia. Qed.

Lemma length_getAppointmentsByDate date db :
  length (getAppointmentsByDate date db) =
    size (filter (λ kv : Id * Appointment.t,
                    Day date * msPerDay ≤ Appointment.scheduledDate kv.2 ∧
                    Appointment.scheduledDate kv.2
                      ≤ Day date * msPerDay + 86399999)
                 (appointments db)).
Proof.
  unfold getAppointmentsByDate. cbv zeta.
  rewrite length_fmap, length_sorted_rows.
  by rewrite setHours_midnight, setHours_last_instant.
Qed.

Lemma foldr_add_Permutation {A} (g : A → Z) (l1 l2 : list A) :
  l1 ≡ₚ l2 →
  foldr (λ x acc, g x + acc) 0 l1 = foldr (λ x acc, g x + acc) 0 l2.
Proof. induction 1; simpl; lia. Qed.

Lemma sumTotals_sorted db (R : relation (Id * Sale.t))
    `{!∀ x y, Decision (R x y)} (m : gmap Id Sale.t) :
  sumTotals (saleWithRelations db <$> merge_sort R (map_to_list m))
    = map_fold (λ _ s acc, Sale.totalAmount s + acc) 0 m.
Proof.
  rewrite map_fold_foldr. unfold sumTotals.
  rewrite foldr_fmap. simpl.
  transitivity (foldr (λ (kv : Id * Sale.t) acc, Sale.totalAmount kv.2 + acc) 0
                      (map_to_list m)).
  - apply (foldr_add_Permutation (λ kv : Id * Sale.t, Sale.totalAmount kv.2)).
    apply merge_sort_Permutation.
  - induction (map_to_list m) as [|[j s] l IH]; simpl; [done|by rewrite IH].
Qed.

End Lists.

(** X9. [getAppointmentsByDate] lists exactly the appointments scheduled
    on the day of [date], from 00:00:00.000 to 23:59:59.999, each once
    and with the client and artist its row names, in ascending order of
    [scheduledDate]. *)
Theorem appointments_by_date_listing (date : Timestamp) (db : Database) :
  let result := Storage.getAppointmentsByDate date db in
  (∀ r, r ∈ result ↔
        ∃ id a, appointments db !! id = Some a ∧
                Day date * msPerDay ≤ Appointment.scheduledDate a ∧
                Appointment.scheduledDate a ≤ Day date * msPerDay + 86399999 ∧
                r = Storage.withRelations db (id, a)) ∧
  NoDup (AppointmentWithRelations.id <$> result) ∧
  StronglySorted Z.le
    ((λ r, Appointment.scheduledDate (AppointmentWithRelations.row r))
       <$> result).
Proof.
  intros result. subst result. unfold Storage.getAppointmentsByDate. cbv zeta.
  rewrite setHours_midnight, setHours_last_instant.
  split; [|split].
  - intros r. rewrite list_elem_of_fmap. split.
    + intros ([id a] & -> & Hin).
      apply elem_of_sorted_rows, map_lookup_filter_Some in Hin
        as [Hrow [Hlo Hhi]].
      by exists id, a.
    + intros (id & a & Hrow & Hlo & Hhi & ->).
      exists (id, a). split; [done|].
      apply elem_of_sorted_rows, map_lookup_filter_Some. by repeat split.
  - rewrite <-list_fmap_compose.
    replace (AppointmentWithRelations.id ∘ Storage.withRelations db)
      with (fst : Id * Appointment.t → Id) by done.
    apply NoDup_sorted_keys.
  - rewrite <-list_fmap_compose.
    apply (StronglySorted_fmap _ Storage.ascScheduledDate); [done|].
    apply StronglySorted_merge_sort; apply _.
Qed.

(** On 2024-03-10 the example studio's list is the one appointment of
    14:00. *)
Lemma appointments_by_date_listing_example :
  Storage.withRelations Example.studio
      ("p1", Example.appointmentAt (at_ 2024 2 10 14 0 0 0))
    ∈ Storage.getAppointmentsByDate Example.march10 Example.studio.
Proof.
  destruct (appointments_by_date_listing Example.march10 Example.studio)
    as (Hmem & _).
  apply Hmem.
  exists "p1", (Example.appointmentAt (at_ 2024 2 10 14 0 0 0)).
  split; [vm_compute; reflexivity|].
  split; [vm_compute; discriminate|]. split; [vm_compute; discriminate|].
  reflexivity.
Defined.

(** X10. The dashboard's [todayAppointments] is the length of the day's
    list of [getAppointmentsByDate] plus the number of appointments
    scheduled exactly at the first instant of the next day. *)
Theorem today_count_and_day_list (now : Timestamp) (db : Database) :
  Storage.todayAppointments (Storage.getDashboardStats now db) =
    Z.of_nat (length (Storage.getAppointmentsByDate now db)) +
    Z.of_nat (size (filter (λ kv : Id * Appointment.t,
                              Appointment.scheduledDate kv.2
                                = (Day now + 1) * msPerDay)
                           (appointments db))).
Proof.
  rewrite length_getAppointmentsByDate.
  cbv beta iota zeta delta [Storage.getDashboardStats Storage.todayAppointments].
  rewrite tomorrow_is_next_midnight, setHours_midnight.
  rewrite <-Nat2Z.inj_add. f_equal.
  apply size_filter_split.
  - intros [k a]. simpl. unfold Spec.startOfNextDay, msPerDay. lia.
  - intros [k a]. simpl. unfold msPerDay. lia.
Qed.

(** X11. [getAppointments] lists every appointment once, latest first;
    [getAppointmentsByArtist] lists, latest first, exactly those of the
    artist. Both attach the client and artist the row names. *)
Theorem appointments_listings (artistId : Id) (db : Database) :
  (∀ r, r ∈ Storage.getAppointments db ↔
        ∃ id a, appointments db !! id = Some a ∧
                r = Storage.withRelations db (id, a)) ∧
  length (Storage.getAppointments db) = size (appointments db) ∧
  (∀ r, r ∈ Storage.getAppointmentsByArtist artistId db ↔
        r ∈ Storage.getAppointments db ∧
        Appointment.artistId (AppointmentWithRelations.row r) = artistId) ∧
  StronglySorted (flip Z.le)
    ((λ r, Appointment.scheduledDate (AppointmentWithRelations.row r))
       <$> Storage.getAppointments db) ∧
  StronglySorted (flip Z.le)
    ((λ r, Appointment.scheduledDate (AppointmentWithRelations.row r))
       <$> Storage.getAppointmentsByArtist artistId db).
Proof.
  unfold Storage.getAppointments, Storage.getAppointmentsByArtist.
  assert (Hall : ∀ r,
    r ∈ Storage.withRelations db
          <$> merge_sort Storage.descScheduledDate (map_to_list (appointments db))
    ↔ ∃ id a, appointments db !! id = Some a ∧
              r = Storage.withRelations db (id, a)).
  { intros r. rewrite list_elem_of_fmap. split.
    - intros ([id a] & -> & Hin). apply elem_of_sorted_rows in Hin.
      by exists id, a.
    - intros (id & a & Hrow & ->). exists (id, a). split; [done|].
      by apply elem_of_sorted_rows. }
  split; [exact Hall|]. split; [|split; [|split]].
  - by rewrite length_fmap, length_sorted_rows.
  - intros r. rewrite Hall, list_elem_of_fmap. split.
    + intros ([id a] & -> & Hin).
      apply elem_of_sorted_rows, map_lookup_filter_Some in Hin as [Hrow Hart].
      split; [by exists id, a|done].
    + intros [(id & a & Hrow & ->) Hart]. exists (id, a). split; [done|].
      apply elem_of_sorted_rows, map_lookup_filter_Some. by split.
  - rewrite <-list_fmap_compose.
    apply (StronglySorted_fmap _ Storage.descScheduledDate); [done|].
    apply StronglySorted_merge_sort; apply _.
  - rewrite <-list_fmap_compose.
    apply (StronglySorted_fmap _ Storage.descScheduledDate); [done|].
    apply StronglySorted_merge_sort; apply _.
Qed.

(** ** Sales by range of dates *)

(** Dated sales in descending order show their dates in descending
    order. *)
Lemma sorted_sale_dates db (l : list (Id * Sale.t)) :
  StronglySorted Storage.descSaleDate l →
  Forall (λ kv : Id * Sale.t, is_Some (Sale.saleDate kv.2)) l →
  StronglySorted (flip Z.le)
    (omap (λ r, Sale.saleDate (SaleWithRelations.row r))
          (Storage.saleWithRelations db <$> l)).
Proof.
  induction 1 as [|kv l Hl IH Hkv]; intros Hdated; [constructor|].
  apply Forall_cons in Hdated as [[d Hd] Hdated].
  csimpl. rewrite Hd. csimpl. constructor; [by apply IH|].
  apply Forall_forall. intros d' Hd'.
  apply list_elem_of_omap in Hd' as (r & Hr & Hrd).
  apply list_elem_of_fmap in Hr as (kv' & -> & Hkv').
  rewrite Forall_forall in Hkv. specialize (Hkv kv' Hkv').
  unfold Storage.descSaleDate in Hkv. simpl in Hrd.
  rewrite Hd, Hrd in Hkv. exact Hkv.
Qed.

(** X12. [getSalesByDateRange] lists exactly the sales dated from
    [startDate] to [endDate], both included, each once, latest first; a
    sale without a date is never listed, and a range whose end lies
    before its start lists nothing. *)
Theorem sales_by_range_listing (startDate endDate : Timestamp) (db : Database) :
  let result := Storage.getSalesByDateRange startDate endDate db in
  (∀ r, r ∈ result ↔
        ∃ id s d, sales db !! id = Some s ∧ Sale.saleDate s = Some d ∧
                  startDate ≤ d ∧ d ≤ endDate ∧
                  r = Storage.saleWithRelations db (id, s)) ∧
  NoDup (SaleWithRelations.id <$> result) ∧
  StronglySorted (flip Z.le)
    (omap (λ r, Sale.saleDate (SaleWithRelations.row r)) result) ∧
  (endDate < startDate → result = []).
Proof.
  intros result. subst result. unfold Storage.getSalesByDateRange.
  set (inRange := λ kv : Id * Sale.t,
         from_option (λ d, startDate ≤ d ∧ d ≤ endDate) False
                     (Sale.saleDate kv.2)).
  assert (Hmem : ∀ id s,
    (id, s) ∈ merge_sort Storage.descSaleDate
                (map_to_list (filter inRange (sales db)))
    ↔ sales db !! id = Some s ∧
      ∃ d, Sale.saleDate s = Some d ∧ startDate ≤ d ∧ d ≤ endDate).
  { intros id s. rewrite elem_of_sorted_rows, map_lookup_filter_Some.
    unfold inRange. simpl. split.
    - intros [Hrow Hd]. split; [done|].
      destruct (Sale.saleDate s) as [d|]; simpl in Hd; [|done].
      by exists d.
    - intros [Hrow (d & Hd & Hlo & Hhi)]. split; [done|].
      simpl. rewrite Hd. by split. }
  split; [|split; [|split]].
  - intros r. rewrite list_elem_of_fmap. split.
    + intros ([id s] & -> & Hin). apply Hmem in Hin as [Hrow (d & ? & ? & ?)].
      by exists id, s, d.
    + intros (id & s & d & Hrow & Hd & Hlo & Hhi & ->).
      exists (id, s). split; [done|]. apply Hmem. split; [done|]. by exists d.
  - rewrite <-list_fmap_compose.
    replace (SaleWithRelations.id ∘ Storage.saleWithRelations db)
      with (fst : Id * Sale.t → Id) by done.
    apply NoDup_sorted_keys.
  - assert (Hsorted : StronglySorted Storage.descSaleDate
              (merge_sort Storage.descSaleDate
                 (map_to_list (filter inRange (sales db)))))
      by (apply StronglySorted_merge_sort; apply _).
    assert (Hdated : Forall (λ kv : Id * Sale.t, is_Some (Sale.saleDate kv.2))
              (merge_sort Storage.descSaleDate
                 (map_to_list (filter inRange (sales db))))).
    { apply Forall_forall. intros [id s] Hin.
      apply Hmem in Hin as [_ (d & Hd & _)]. simpl. rewrite Hd. by eexists. }
    by apply sorted_sale_dates.
  - intros Hinv.
    destruct (merge_sort Storage.descSaleDate
                (map_to_list (filter inRange (sales db))))
      as [|[id s] l] eqn:E; [done|].
    assert (Hin : (id, s) ∈ (id, s) :: l) by left.
    apply Hmem in Hin as [_ (d & _ & ? & ?)]. lia.
Qed.

(** February 2024 up to the 20th holds the sale of the 10th only. *)
Lemma sales_by_range_listing_example :
  Storage.saleWithRelations Example.studio
      ("s1", Example.saleOf 10000 (at_ 2024 1 10 12 0 0 0))
    ∈ Storage.getSalesByDateRange (at_ 2024 1 1 0 0 0 0)
        (at_ 2024 1 20 0 0 0 0) Example.studio ∧
  (at_ 2024 1 1 0 0 0 0 < at_ 2024 1 20 0 0 0 0 ∧
   Storage.getSalesByDateRange (at_ 2024 1 20 0 0 0 0) (at_ 2024 1 1 0 0 0 0)
     Example.studio = []).
Proof.
  destruct (sales_by_range_listing (at_ 2024 1 1 0 0 0 0)
              (at_ 2024 1 20 0 0 0 0) Example.studio) as (Hmem & _).
  destruct (sales_by_range_listing (at_ 2024 1 20 0 0 0 0)
              (at_ 2024 1 1 0 0 0 0) Example.studio) as (_ & _ & _ & Hempty).
  assert (Hlt : at_ 2024 1 1 0 0 0 0 < at_ 2024 1 20 0 0 0 0)
    by (vm_compute; reflexivity).
  split.
  - apply Hmem.
    exists "s1", (Example.saleOf 10000 (at_ 2024 1 10 12 0 0 0)),
      (at_ 2024 1 10 12 0 0 0).
    split; [vm_compute; reflexivity|].
    split; [reflexivity|]. split; [vm_compute; discriminate|].
    split; [vm_compute; discriminate|reflexivity].
  - split; [exact Hlt|]. exact (Hempty Hlt).
Defined.

(** ** Months and years *)

Section Months.

(** From the first of a month to the first of the next, within a year. *)
Lemma daysFromCivil_month_step y m :
  1 ≤ m ≤ 11 → 28 ≤ daysFromCivil y (m + 1) 1 - daysFromCivil y m 1 ≤ 31.
Proof.
  intros Hm. unfold daysFromCivil.
  assert (m = 1 ∨ m = 2 ∨ m = 3 ∨ m = 4 ∨ m = 5 ∨ m = 6 ∨ m = 7 ∨ m = 8 ∨
          m = 9 ∨ m = 10 ∨ m = 11) as Hc by lia.
  destruct Hc as [->|[->|[->|[->|[->|[->|[->|[->|[->|[->| ->]]]]]]]]]]; simpl;
    Z.div_mod_to_equations; lia.
Qed.

(** From the first of December to the first of January. *)
Lemma daysFromCivil_year_step y :
  daysFromCivil (y + 1) 1 1 - daysFromCivil y 12 1 = 31.
Proof.
  unfold daysFromCivil. simpl. replace (y + 1 - 1) with y by lia.
  Z.div_mod_to_equations; lia.
Qed.

(** A month has 28 to 31 days, whatever the month index. *)
Lemma MakeDay_month_step y m :
  28 ≤ MakeDay y (m + 1) 1 - MakeDay y m 1 ≤ 31.
Proof.
  unfold MakeDay.
  pose proof (Z.div_mod m 12 ltac:(lia)) as Hdm.
  pose proof (Z.mod_pos_bound m 12 ltac:(lia)) as Hb.
  set (q := m `div` 12) in *. set (r := m `mod` 12) in *.
  destruct (decide (r = 11)) as [Hr|Hr].
  - replace ((m + 1) `div` 12) with (q + 1)
      by (apply (Z.div_unique _ _ _ 0); lia).
    replace ((m + 1) `mod` 12) with 0
      by (apply (Z.mod_unique _ _ (q + 1)); lia).
    rewrite Hr. replace (y + (q + 1)) with (y + q + 1) by lia.
    pose proof (daysFromCivil_year_step (y + q)) as Hy.
    change (0 + 1) with 1. change (11 + 1) with 12. lia.
  - replace ((m + 1) `div` 12) with q
      by (apply (Z.div_unique _ _ _ (r + 1)); lia).
    replace ((m + 1) `mod` 12) with (r + 1)
      by (apply (Z.mod_unique _ _ q); lia).
    pose proof (daysFromCivil_month_step (y + q) (r + 1) ltac:(lia)). lia.
Qed.

(** A year has 365 or 366 days. *)
Lemma MakeDay_year_step y :
  MakeDay (y + 1) 0 1 - MakeDay y 0 1 = 365 ∨
  MakeDay (y + 1) 0 1 - MakeDay y 0 1 = 366.
Proof.
  unfold MakeDay, daysFromCivil. simpl.
  replace (y + 1 + 0 - 1) with (y + 0) by lia.
  Z.div_mod_to_equations; lia.
Qed.

Lemma MakeDay_december y : MakeDay y 11 31 = MakeDay (y + 1) 0 1 - 1.
Proof.
  unfold MakeDay.
  change (11 `div` 12) with 0. change (11 `mod` 12 + 1) with 12.
  change (0 `div` 12) with 0. change (0 `mod` 12 + 1) with 1.
  pose proof (daysFromCivil_year_step (y + 0)) as Hy.
  replace (y + 1 + 0) with (y + 0 + 1) by lia. lia.
Qed.

(** The day of the month and the month a day falls on. *)
Lemma civilFromDays_bounds z :
  1 ≤ (civilFromDays z).2 ≤ 31 ∧ 1 ≤ (civilFromDays z).1.2 ≤ 12.
Proof.
  unfold civilFromDays. cbv zeta.
  set (era := (z + 719468) `div` 146097).
  set (doe := z + 719468 - era * 146097).
  assert (Hdoe : 0 ≤ doe < 146097).
  { subst doe era. Z.div_mod_to_equations. lia. }
  destruct (yoe_doy_bounds doe Hdoe) as [_ Hdoy]. cbv zeta in Hdoy.
  set (yoe := (doe - doe `div` 1460 + doe `div` 36524 - doe `div` 146096)
                `div` 365) in *.
  set (doy := doe - (365 * yoe + yoe `div` 4 - yoe `div` 100)) in *.
  pose proof (month_bounds doy Hdoy) as Hmp.
  clearbody doy. simpl. split.
  - Z.div_mod_to_equations. lia.
  - case_decide; lia.
Qed.

(** The first of the month of [t] is not after [t]. *)
Lemma first_of_month_le t : newDate (getFullYear t) (getMonth t) 1 ≤ t.
Proof.
  unfold newDate, getFullYear, getMonth.
  pose proof (MakeDay_civil (Day t) (1 - (civilFromDays (Day t)).2)) as Hc.
  replace ((civilFromDays (Day t)).2 + (1 - (civilFromDays (Day t)).2))
    with 1 in Hc by lia.
  rewrite Hc. destruct (civilFromDays_bounds (Day t)) as [Hd _].
  unfold Day in *. pose proof (Z.div_mod t msPerDay) as Hdm.
  unfold msPerDay in *. Z.div_mod_to_equations. lia.
Qed.

(** The first of January of the year of [t] is not after [t]. *)
Lemma first_of_year_le t : newDate (getFullYear t) 0 1 ≤ t.
Proof.
  etrans; [|apply first_of_month_le].
  unfold newDate, getMonth, getFullYear.
  destruct (civilFromDays_bounds (Day t)) as [_ Hm].
  set (y := (civilFromDays (Day t)).1.1). set (m := (civilFromDays (Day t)).1.2) in *.
  assert (Hmono : ∀ n : nat, MakeDay y 0 1 ≤ MakeDay y (Z.of_nat n) 1).
  { induction n as [|n IH]; [done|].
    rewrite Nat2Z.inj_succ. unfold Z.succ.
    pose proof (MakeDay_month_step y (Z.of_nat n)). lia. }
  specialize (Hmono (Z.to_nat (m - 1))).
  rewrite Z2Nat.id in Hmono by lia. unfold msPerDay. lia.
Qed.

End Months.

(** X13. The dashboard's [monthlyRevenue] is the sum of the totals of the
    sales [getSalesByDateRange] lists between the two bounds that
    [getDashboardStats] computes: the first day of the month of [now] at
    00:00 and the last day of that month at 00:00, one day before the
    next month begins. *)
Theorem monthly_revenue_is_month_range_sum (now : Timestamp) (db : Database) :
  let startOfMonth := newDate (getFullYear now) (getMonth now) 1 in
  let endOfMonth := newDate (getFullYear now) (getMonth now + 1) 0 in
  Storage.monthlyRevenue (Storage.getDashboardStats now db)
    = sumTotals (Storage.getSalesByDateRange startOfMonth endOfMonth db) ∧
  endOfMonth + msPerDay = newDate (getFullYear now) (getMonth now + 1) 1.
Proof.
  intros startOfMonth endOfMonth.
  destruct (endOfMonth_is_last_midnight (getFullYear now) (getMonth now))
    as [Hend _].
  split; [|exact Hend].
  rewrite monthlyRevenue_window. unfold Storage.getSalesByDateRange.
  rewrite sumTotals_sorted.
  replace (newDate (getFullYear now) (getMonth now + 1) 1 - msPerDay)
    with endOfMonth by (subst endOfMonth; lia).
  done.
Qed.

(** X14. The ranges the sales page asks for. "today" is the day of [now]
    from 00:00:00.000 to 23:59:59.999 and contains [now]; "week" is the
    seven days that end at [now]; "month" starts on the first of the
    month, not after [now], and ends 27 to 30 days later, at 00:00 of the
    month's last day; "year" starts on the first of January, not after
    [now], and ends 364 or 365 days later, at 00:00 of the 31st of
    December; any other range gives no bounds. *)
Theorem date_range_params (now : Timestamp) :
  (SalesPage.getDateRangeParams "today" now
     = Some (Day now * msPerDay, Day now * msPerDay + 86399999) ∧
   Day now * msPerDay ≤ now ≤ Day now * msPerDay + 86399999) ∧
  SalesPage.getDateRangeParams "week" now = Some (now - 7 * msPerDay, now) ∧
  (let s := newDate (getFullYear now) (getMonth now) 1 in
   let e := newDate (getFullYear now) (getMonth now + 1) 0 in
   SalesPage.getDateRangeParams "month" now = Some (s, e) ∧
   s ≤ now ∧ s + 27 * msPerDay ≤ e ≤ s + 30 * msPerDay ∧
   TimeWithinDay s = 0 ∧ TimeWithinDay e = 0) ∧
  (let s := newDate (getFullYear now) 0 1 in
   let e := newDate (getFullYear now) 11 31 in
   SalesPage.getDateRangeParams "year" now = Some (s, e) ∧
   s ≤ now ∧ (e = s + 364 * msPerDay ∨ e = s + 365 * msPerDay)) ∧
  (∀ dateRange,
     dateRange ≠ "today"%string → dateRange ≠ "week"%string →
     dateRange ≠ "month"%string → dateRange ≠ "year"%string →
     SalesPage.getDateRangeParams dateRange now = None).
Proof.
  split; [|split; [|split; [|split]]].
  - split.
    + unfold SalesPage.getDateRangeParams. rewrite decide_True by done.
      by rewrite setHours_midnight, setHours_last_instant.
    + unfold Day. pose proof (Z.div_mod now msPerDay) as Hdm.
      pose proof (Z.mod_pos_bound now msPerDay) as Hb.
      unfold msPerDay in *. lia.
  - unfold SalesPage.getDateRangeParams.
    rewrite decide_False, decide_True by done.
    replace (getDate now - 7) with (getDate now + -7) by lia.
    rewrite setDate_shift. do 2 f_equal.
  - intros s e. split.
    { unfold SalesPage.getDateRangeParams.
      by rewrite !decide_False, decide_True by done. }
    split; [apply first_of_month_le|].
    pose proof (MakeDay_month_step (getFullYear now) (getMonth now)) as Hstep.
    assert (Hend : MakeDay (getFullYear now) (getMonth now + 1) 0
                   = MakeDay (getFullYear now) (getMonth now + 1) 1 - 1)
      by (unfold MakeDay; lia).
    subst s e. unfold newDate. rewrite Hend.
    generalize dependent (MakeDay (getFullYear now) (getMonth now + 1) 1).
    generalize (MakeDay (getFullYear now) (getMonth now) 1).
    intros a b Hstep _. unfold msPerDay.
    split; [lia|]. split; apply (TimeWithinDay_midnight _).
  - intros s e. split.
    { unfold SalesPage.getDateRangeParams.
      by rewrite !decide_False, decide_True by done. }
    split; [apply first_of_year_le|].
    subst s e. unfold newDate. rewrite MakeDay_december.
    destruct (MakeDay_year_step (getFullYear now)) as [Hy|Hy];
      generalize dependent (MakeDay (getFullYear now + 1) 0 1);
      generalize (MakeDay (getFullYear now) 0 1); intros a b Hy;
      unfold msPerDay; [left|right]; lia.
  - intros dateRange H1 H2 H3 H4. unfold SalesPage.getDateRangeParams.
    by rewrite !decide_False.
Qed.

Lemma date_range_params_example :
  SalesPage.getDateRangeParams "all" Example.feb15 = None ∧
  SalesPage.getDateRangeParams "month" Example.feb15
    = Some (at_ 2024 1 1 0 0 0 0, at_ 2024 1 29 0 0 0 0).
Proof.
  destruct (date_range_params Example.feb15) as (_ & _ & _ & _ & Hother).
  split.
  - apply Hother; discriminate.
  - vm_compute. reflexivity.
Defined.

(** ** Clients and their e-mail addresses *)

Section Clients.

Import Storage.

Lemma emails_unique_withClient db id row :
  emails_unique db →
  (∀ e, Client.email row = Some e → ¬ email_taken e (Some id) db) →
  emails_unique (withClient db id row).
Proof.
  intros Huniq Hfree i j c c' e Hi Hj Hc Hc'. simpl in Hi, Hj.
  destruct (decide (id = i)) as [<-|Hi'], (decide (id = j)) as [<-|Hj'];
    [done| | |].
  - rewrite lookup_insert_eq in Hi. rewrite lookup_insert_ne in Hj by done.
    simplify_eq. exfalso. apply (Hfree e Hc). exists j, c'.
    split; [done|]. split; [congruence|done].
  - rewrite lookup_insert_eq in Hj. rewrite lookup_insert_ne in Hi by done.
    simplify_eq. exfalso. apply (Hfree e Hc'). exists i, c.
    split; [done|]. split; [congruence|done].
  - rewrite lookup_insert_ne in Hi, Hj by done. by eapply Huniq.
Qed.

(** When the key is free, no row is excepted from the check. *)
Lemma email_taken_fresh e id db :
  clients db !! id = None → email_taken e (Some id) db → email_taken e None db.
Proof.
  intros Hfresh (k & c & Hk & _ & Hc). exists k, c. by repeat split.
Qed.

End Clients.

(** X15. [createClient] stores the client exactly when the key drawn for
    it is free and no client row holds its e-mail address; a client
    without an address is never in conflict. An address that is taken is
    a uniqueness error. After a create that went through, [getClient] on
    the key returns the row. *)
Theorem create_client_outcome (client : InsertClient.t) (now : Timestamp)
    (newId : Id) (db : Database) :
  let row := Storage.insertedClient client now in
  (clients db !! newId = None →
   (∀ e, InsertClient.email client = Some e → ¬ Storage.email_taken e None db) →
   Storage.createClient client now newId db
     = Ok (row, Storage.withClient db newId row) ∧
   Storage.getClient newId (Storage.withClient db newId row) = Some row) ∧
  (∀ e, InsertClient.email client = Some e → Storage.email_taken e None db →
        Storage.createClient client now newId db = Throw UniqueViolation) ∧
  (is_Some (clients db !! newId) →
   Storage.createClient client now newId db = Throw UniqueViolation).
Proof.
  intros row. unfold Storage.createClient. fold row. split; [|split].
  - intros Hfresh Hfree.
    rewrite decide_False by (rewrite Hfresh; by intros [? ?]).
    rewrite decide_False.
    + split; [done|]. unfold Storage.getClient. simpl.
      apply lookup_insert_eq.
    + subst row. simpl.
      destruct (InsertClient.email client) as [e|]; simpl; [|by intros []].
      by apply Hfree.
  - intros e He Htaken. case_decide; [done|].
    rewrite decide_True; [done|]. subst row. simpl. by rewrite He.
  - intros Htaken. by rewrite decide_True.
Qed.

Lemma create_client_outcome_example :
  (clients Sample.withAddress !! "c2" = None ∧
   Storage.createClient (Sample.bea None) Example.march10 "c2"
                        Sample.withAddress
     = Ok (Storage.insertedClient (Sample.bea None) Example.march10,
           Storage.withClient Sample.withAddress "c2"
             (Storage.insertedClient (Sample.bea None) Example.march10))) ∧
  (Storage.email_taken "ana@example.org" None Sample.withAddress ∧
   Storage.createClient (Sample.bea (Some "ana@example.org")) Example.march10
                        "c2" Sample.withAddress = Throw UniqueViolation) ∧
  (is_Some (clients Sample.withAddress !! "c1") ∧
   Storage.createClient (Sample.bea None) Example.march10 "c1"
                        Sample.withAddress = Throw UniqueViolation).
Proof.
  destruct (create_client_outcome (Sample.bea None) Example.march10 "c2"
              Sample.withAddress) as (Hok & _ & _).
  destruct (create_client_outcome (Sample.bea (Some "ana@example.org"))
              Example.march10 "c2" Sample.withAddress) as (_ & Hmail & _).
  destruct (create_client_outcome (Sample.bea None) Example.march10 "c1"
              Sample.withAddress) as (_ & _ & Hkey).
  assert (Hfresh : clients Sample.withAddress !! "c2" = None)
    by (vm_compute; reflexivity).
  assert (Htaken : Storage.email_taken "ana@example.org" None Sample.withAddress).
  { apply (bool_decide_unpack _). vm_compute. exact I. }
  assert (Hrow : is_Some (clients Sample.withAddress !! "c1")).
  { apply (bool_decide_unpack _). vm_compute. exact I. }
  split; [|split].
  - split; [exact Hfresh|]. apply Hok; [exact Hfresh|]. intros e He.
    discriminate He.
  - split; [exact Htaken|]. exact (Hmail _ eq_refl Htaken).
  - split; [exact Hrow|]. exact (Hkey Hrow).
Defined.

(** X16. No write to the clients table makes two clients share an e-mail
    address: if the addresses are pairwise distinct before a
    [createClient], [updateClient] or [deleteClient] that went through,
    they are after it. An update that would give a client the address of
    another one is a uniqueness error. *)
Theorem client_emails_stay_unique (db db' : Database) (now : Timestamp) (id : Id) :
  emails_unique db →
  (∀ client row, Storage.createClient client now id db = Ok (row, db') →
                 emails_unique db') ∧
  (∀ updates row, Storage.updateClient id updates now db = Ok (row, db') →
                  emails_unique db') ∧
  (Storage.deleteClient id db = Ok db' → emails_unique db') ∧
  (∀ updates old e,
     clients db !! id = Some old →
     ClientUpdate.email updates = Some e →
     Storage.email_taken e (Some id) db →
     Storage.updateClient id updates now db = Throw UniqueViolation).
Proof.
  intros Huniq. split; [|split; [|split]].
  - intros client row. unfold Storage.createClient.
    case_decide as Hkey; [done|]. case_decide as Hmail; [done|].
    intros; simplify_eq. apply emails_unique_withClient; [done|].
    intros e He Htaken. apply Hmail. rewrite He. simpl.
    apply (email_taken_fresh e id); [|done].
    destruct (clients db !! id) eqn:E; [|done]. destruct Hkey. by eexists.
  - intros updates row. unfold Storage.updateClient.
    destruct (clients db !! id) as [old|]; [|by intros; simplify_eq].
    case_decide as Hmail; [done|]. intros; simplify_eq.
    apply emails_unique_withClient; [done|].
    intros e He Htaken. apply Hmail. by rewrite He.
  - unfold Storage.deleteClient. case_decide; [done|]. intros; simplify_eq.
    intros i j c c' e Hi Hj Hc Hc'. simpl in Hi, Hj.
    apply lookup_delete_Some in Hi as [_ Hi].
    apply lookup_delete_Some in Hj as [_ Hj]. by eapply Huniq.
  - intros updates old e Hold He Htaken. unfold Storage.updateClient.
    rewrite Hold. rewrite decide_True; [done|]. simpl. by rewrite He.
Qed.

(** Bea joins the studio where Ana has an address; she cannot then take
    Ana's. *)
Lemma client_emails_stay_unique_example :
  let beaRow := Storage.insertedClient (Sample.bea None) Example.march10 in
  let db' := Storage.withClient Sample.withAddress "c2" beaRow in
  emails_unique Sample.withAddress ∧
  emails_unique db' ∧
  Storage.updateClient "c2"
      (ClientUpdate.mk None None (Some "ana@example.org") None None None None None)
      Example.march10 db'
    = Throw UniqueViolation.
Proof.
  intros beaRow db'.
  assert (Huniq : emails_unique Sample.withAddress).
  { intros i j c c' e Hi Hj _ _. simpl in Hi, Hj.
    apply lookup_singleton_Some in Hi as [<- _].
    apply lookup_singleton_Some in Hj as [<- _]. reflexivity. }
  assert (Hrun : Storage.createClient (Sample.bea None) Example.march10 "c2"
                   Sample.withAddress = Ok (beaRow, db'))
    by (vm_compute; reflexivity).
  destruct (client_emails_stay_unique Sample.withAddress db' Example.march10
              "c2" Huniq) as (Hcreate & _).
  assert (Huniq' : emails_unique db') by exact (Hcreate _ _ Hrun).
  destruct (client_emails_stay_unique db' db' Example.march10 "c2" Huniq')
    as (_ & _ & _ & Hclash).
  split; [exact Huniq|]. split; [exact Huniq'|].
  apply (Hclash _ beaRow "ana@example.org").
  - vm_compute. reflexivity.
  - reflexivity.
  - apply (bool_decide_unpack _). vm_compute. exact I.
Defined.

(** ** Inventory writes and the low-stock figures *)

(** X17. [createInventoryItem] on a free key stores the item when its
    stock figures and its price fit their columns, and is a range error
    when one does not. A stored item is what [getInventoryItem] then
    returns, and it raises the dashboard's [lowStockItems] by one exactly
    when its stock is at most its minimum level. An item created without
    stock figures gets stock 0 and minimum 0: it is listed as low stock
    from the start. *)
Theorem create_item_and_low_stock (item : InsertInventory.t)
    (now asOf : Timestamp) (newId : Id) (db : Database) :
  inventory db !! newId = None →
  let row := Storage.insertedInventoryItem item now in
  let db' := Storage.withInventoryItem db newId row in
  (insertInventory_fits item →
   Storage.createInventoryItem item now newId db = Ok (row, db') ∧
   Storage.getInventoryItem newId db' = Some row ∧
   Storage.lowStockItems (Storage.getDashboardStats asOf db')
     = Storage.lowStockItems (Storage.getDashboardStats asOf db)
       + (if decide (Inventory.currentStock row ≤ Inventory.minLevel row)
          then 1 else 0) ∧
   (InsertInventory.currentStock item = None →
    InsertInventory.minLevel item = None →
    (newId, row) ∈ Storage.getLowStockItems db' ∧
    InventoryPage.label
      (InventoryPage.getStockStatus (Inventory.currentStock row)
                                    (Inventory.minLevel row)) = "Out of Stock")) ∧
  (¬ insertInventory_fits item →
   Storage.createInventoryItem item now newId db = Throw NumericValueOutOfRange).
Proof.
  intros Hfresh row db'. split.
  - intros Hfits. split; [|split; [|split]].
    + unfold Storage.createInventoryItem. rewrite decide_True by done.
      by rewrite decide_False by (rewrite Hfresh; by intros [? ?]).
    + unfold Storage.getInventoryItem. apply lookup_insert_eq.
    + cbv beta iota zeta delta [Storage.getDashboardStats Storage.lowStockItems].
      subst db'. simpl.
      case_decide as Hlow.
      * rewrite map_filter_insert_True by done.
        rewrite map_size_insert_None; [lia|].
        apply map_lookup_filter_None. by left.
      * rewrite map_filter_insert_False, delete_id by done. lia.
    + intros Hstock Hmin.
      assert (H0 : Inventory.currentStock row = 0 ∧ Inventory.minLevel row = 0).
      { subst row. simpl. by rewrite Hstock, Hmin. }
      destruct H0 as [Hs Hm]. split.
      * apply elem_of_getLowStockItems. split; [apply lookup_insert_eq|lia].
      * by rewrite Hs, Hm.
  - intros Hfits. unfold Storage.createInventoryItem. by rewrite decide_False.
Qed.

(** At the example studio: grip tape entered without figures is the
    third low item; an item priced at 100,000,000.00 is refused. *)
Lemma create_item_and_low_stock_example :
  let row := Storage.insertedInventoryItem Sample.tape Example.march10 in
  let db' := Storage.withInventoryItem Example.studio "i4" row in
  inventory Example.studio !! "i4" = None ∧
  insertInventory_fits Sample.tape ∧
  Storage.lowStockItems (Storage.getDashboardStats Example.march10 Example.studio)
    = 2 ∧
  Storage.lowStockItems (Storage.getDashboardStats Example.march10 db') = 3 ∧
  ("i4", row) ∈ Storage.getLowStockItems db' ∧
  ¬ insertInventory_fits Sample.priceless ∧
  Storage.createInventoryItem Sample.priceless Example.march10 "i4"
                              Example.studio = Throw NumericValueOutOfRange.
Proof.
  intros row db'.
  assert (Hfresh : inventory Example.studio !! "i4" = None)
    by (vm_compute; reflexivity).
  assert (Hfits : insertInventory_fits Sample.tape).
  { apply (bool_decide_unpack _). vm_compute. exact I. }
  assert (Hbig : ¬ insertInventory_fits Sample.priceless).
  { intros (_ & _ & [_ Hlt]). simpl in Hlt. lia. }
  destruct (create_item_and_low_stock Sample.tape Example.march10
              Example.march10 "i4" Example.studio Hfresh) as [Hok _].
  destruct (Hok Hfits) as (_ & _ & Hcount & Hlisted).
  destruct (create_item_and_low_stock Sample.priceless Example.march10
              Example.march10 "i4" Example.studio Hfresh) as [_ Hrange].
  assert (Hbefore : Storage.lowStockItems
            (Storage.getDashboardStats Example.march10 Example.studio) = 2)
    by (vm_compute; reflexivity).
  split; [exact Hfresh|]. split; [exact Hfits|]. split; [exact Hbefore|].
  split; [|split; [|split]].
  - fold row db' in Hcount. rewrite Hcount, Hbefore. reflexivity.
  - exact (proj1 (Hlisted eq_refl eq_refl)).
  - exact Hbig.
  - exact (Hrange Hbig).
Defined.

(** X18. [updateInventoryItem] on an existing item stores the merged row
    when the figures it is given fit their columns, and is a range error
    when one does not; among the figures that fit it checks nothing, so
    a stock below 0 is stored as given. The row keeps its [createdAt].
    Afterwards the item is on the low-stock list exactly when its stock
    is at most its minimum level; the other items are on the list as
    before. *)
Theorem update_item_and_low_stock (id : Id) (updates : InventoryUpdate.t)
    (now : Timestamp) (db : Database) (old : Inventory.t) :
  inventory db !! id = Some old →
  let row := Storage.updatedInventoryItem old updates now in
  let db' := Storage.withInventoryItem db id row in
  (inventoryUpdate_fits updates →
   Storage.updateInventoryItem id updates now db = Ok (Some row, db') ∧
   Inventory.createdAt row = Inventory.createdAt old ∧
   Inventory.currentStock row
     = default (Inventory.currentStock old) (InventoryUpdate.currentStock updates) ∧
   ((id, row) ∈ Storage.getLowStockItems db'
      ↔ Inventory.currentStock row ≤ Inventory.minLevel row) ∧
   (∀ j i, j ≠ id →
      ((j, i) ∈ Storage.getLowStockItems db'
         ↔ (j, i) ∈ Storage.getLowStockItems db))) ∧
  (¬ inventoryUpdate_fits updates →
   Storage.updateInventoryItem id updates now db = Throw NumericValueOutOfRange).
Proof.
  intros Hold row db'. split.
  - intros Hfits. split; [|split; [|split; [|split]]].
    + unfold Storage.updateInventoryItem. by rewrite decide_True, Hold.
    + done.
    + done.
    + rewrite elem_of_getLowStockItems. subst db'. simpl.
      rewrite lookup_insert_eq. split; [by intros [_ ?]|by intros ?].
    + intros j i Hne. rewrite !elem_of_getLowStockItems. subst db'. simpl.
      by rewrite lookup_insert_ne.
  - intros Hfits. unfold Storage.updateInventoryItem. by rewrite decide_False.
Qed.

(** Restocking the black ink (3 of 5) to 12 takes it off the list; a
    stock of -4 is stored as given, a stock of 2^31 is refused. *)
Lemma update_item_and_low_stock_example :
  let old := Example.item "black ink" 3 5 in
  let row := Storage.updatedInventoryItem old (Sample.restock 12) Example.march10 in
  let db' := Storage.withInventoryItem Example.studio "i1" row in
  inventory Example.studio !! "i1" = Some old ∧
  ("i1", old) ∈ Storage.getLowStockItems Example.studio ∧
  (("i1", row) ∉ Storage.getLowStockItems db') ∧
  Storage.updateInventoryItem "i1" (Sample.restock (-4)) Example.march10
                              Example.studio
    = Ok (Some (Storage.updatedInventoryItem old (Sample.restock (-4))
                  Example.march10),
          Storage.withInventoryItem Example.studio "i1"
            (Storage.updatedInventoryItem old (Sample.restock (-4))
               Example.march10)) ∧
  Storage.updateInventoryItem "i1" (Sample.restock 2147483648) Example.march10
                              Example.studio
    = Throw NumericValueOutOfRange.
Proof.
  intros old row db'.
  assert (Hold : inventory Example.studio !! "i1" = Some old)
    by (vm_compute; reflexivity).
  assert (Hf12 : inventoryUpdate_fits (Sample.restock 12)).
  { apply (bool_decide_unpack _). vm_compute. exact I. }
  assert (Hf4 : inventoryUpdate_fits (Sample.restock (-4))).
  { apply (bool_decide_unpack _). vm_compute. exact I. }
  assert (Hbig : ¬ inventoryUpdate_fits (Sample.restock 2147483648)).
  { intros ([_ Hle] & _). simpl in Hle. lia. }
  destruct (update_item_and_low_stock "i1" (Sample.restock 12) Example.march10
              Example.studio old Hold) as [Hok _].
  destruct (Hok Hf12) as (_ & _ & _ & Hlisted & _).
  destruct (update_item_and_low_stock "i1" (Sample.restock (-4)) Example.march10
              Example.studio old Hold) as [Hneg _].
  destruct (update_item_and_low_stock "i1" (Sample.restock 2147483648)
              Example.march10 Example.studio old Hold) as [_ Hrange].
  split; [exact Hold|]. split; [|split; [|split]].
  - apply elem_of_getLowStockItems. split; [exact Hold|]. vm_compute. discriminate.
  - intros Hin. apply Hlisted in Hin. vm_compute in Hin. by apply Hin.
  - exact (proj1 (Hneg Hf4)).
  - exact (Hrange Hbig).
Defined.

(** ** The sale form, continued *)

(** X19. The balance the sale form shows is never negative. For a total
    and a deposit that fit their columns, the form sends their
    difference, and shows what it sends exactly when the deposit does
    not exceed the total: above the total it shows 0 and sends the
    negative difference. When the deposit is undefined the form sends
    NaN and shows the total, or 0 for a negative total. *)
Theorem shown_and_sent_balance (data : InsertSale.t) :
  let total := InsertSale.totalAmount data in
  let shown := SaleModal.remainingBalance (Some total) (InsertSale.deposit data) in
  let sent := SaleBody.remainingBalance (SaleModal.payload data) in
  decimal_fits total →
  0 ≤ shown ∧
  (∀ deposit,
     InsertSale.deposit data = Some deposit →
     decimal_fits deposit →
     sent = Some (Amount (total - deposit)) ∧
     (sent = Some (Amount shown) ↔ deposit ≤ total) ∧
     (total < deposit → shown = 0 ∧ total - deposit < 0)) ∧
  (InsertSale.deposit data = None →
   sent = Some NaN ∧ shown = Z.max 0 total).
Proof.
  intros total shown sent Ht. subst shown sent.
  rewrite payload_remainingBalance. unfold SaleModal.remainingBalance.
  fold total. split; [lia|]. split.
  - intros deposit Hd Hfits. rewrite Hd. simpl. split; [done|]. split.
    + split.
      * intros [= Heq]. lia.
      * intros Hle. do 2 f_equal. lia.
    + intros Hover. lia.
  - intros Hd. rewrite Hd. simpl. split; [done|]. lia.
Qed.

Lemma shown_and_sent_balance_example :
  decimal_fits 10000 ∧ decimal_fits 15000 ∧
  SaleModal.remainingBalance (Some 10000) (Some 15000) = 0 ∧
  SaleBody.remainingBalance (SaleModal.payload (Example.form 10000 15000))
    = Some (Amount (-5000)) ∧
  SaleBody.remainingBalance (SaleModal.payload (Sample.noDeposit 10000))
    = Some NaN ∧
  SaleModal.remainingBalance (Some 10000) None = 10000.
Proof.
  assert (Ht : decimal_fits 10000) by (unfold decimal_fits; lia).
  assert (Hd : decimal_fits 15000) by (unfold decimal_fits; lia).
  destruct (shown_and_sent_balance (Example.form 10000 15000) Ht)
    as (_ & Hsome & _).
  destruct (Hsome 15000 eq_refl Hd) as (Hsent & _ & Hover).
  destruct (shown_and_sent_balance (Sample.noDeposit 10000) Ht)
    as (_ & _ & Hnone).
  destruct (Hnone eq_refl) as [Hnan Hshown].
  split; [exact Ht|]. split; [exact Hd|].
  split; [apply Hover; simpl; lia|]. split; [exact Hsent|].
  split; [exact Hnan|exact Hshown].
Defined.

(** X20. The status the sale form sends, for a total and a deposit that
    fit their columns: "completed" exactly when the deposit reaches the
    total, "partial" exactly when it lies strictly between 0 and the
    total, "pending" exactly when it is at most 0 and below the total,
    or undefined. It is always one of the three; a sale of 0.00 is
    "completed" with a deposit of 0.00 and "pending" with none. *)
Theorem status_by_deposit (data : InsertSale.t) :
  let total := InsertSale.totalAmount data in
  let status := SaleBody.paymentStatus (SaleModal.payload data) in
  decimal_fits total →
  from_option decimal_fits True (InsertSale.deposit data) →
  (status = Some "completed"%string
     ↔ ∃ deposit, InsertSale.deposit data = Some deposit ∧ total ≤ deposit) ∧
  (status = Some "partial"%string
     ↔ ∃ deposit, InsertSale.deposit data = Some deposit ∧ 0 < deposit < total) ∧
  (status = Some "pending"%string
     ↔ InsertSale.deposit data = None ∨
       ∃ deposit, InsertSale.deposit data = Some deposit ∧
                  deposit ≤ 0 ∧ deposit < total) ∧
  (status = Some "completed"%string ∨ status = Some "partial"%string ∨
   status = Some "pending"%string).
Proof.
  intros total status Ht Hd. subst status.
  rewrite payload_paymentStatus. fold total.
  destruct (InsertSale.deposit data) as [deposit|]; simpl.
  - split; [|split; [|split]].
    + split.
      * intros [= H%paymentStatusOf_completed]. exists deposit. split; [done|lia].
      * intros (d & [= <-] & H). f_equal. apply paymentStatusOf_completed. lia.
    + split.
      * intros [= H%paymentStatusOf_partial]. exists deposit. split; [done|lia].
      * intros (d & [= <-] & H). f_equal. apply paymentStatusOf_partial. lia.
    + split.
      * intros [= H%paymentStatusOf_pending]. right. exists deposit.
        split; [done|lia].
      * intros [?|(d & [= <-] & H)]; [done|].
        f_equal. apply paymentStatusOf_pending. lia.
    + unfold SaleModal.paymentStatusOf, SaleModal.leq, SaleModal.lt.
      repeat case_bool_decide; auto.
  - split; [|split; [|split]].
    + split; [done|]. by intros (d & ? & _).
    + split; [done|]. by intros (d & ? & _).
    + split; [by left|done].
    + by right; right.
Qed.

(** A sale of 0.00: "completed" with 0.00 paid, "pending" with the
    deposit left undefined. *)
Lemma status_by_deposit_example :
  decimal_fits 0 ∧
  SaleBody.paymentStatus (SaleModal.payload (Example.form 0 0))
    = Some "completed"%string ∧
  SaleBody.paymentStatus (SaleModal.payload (Sample.noDeposit 0))
    = Some "pending"%string.
Proof.
  assert (H0 : decimal_fits 0) by (unfold decimal_fits; lia).
  destruct (status_by_deposit (Example.form 0 0) H0 H0) as (Hdone & _).
  destruct (status_by_deposit (Sample.noDeposit 0) H0 I) as (_ & _ & Hpending & _).
  split; [exact H0|]. split.
  - apply Hdone. exists 0. split; [reflexivity|]. simpl. lia.
  - apply Hpending. by left.
Defined.

(** ** The specialties of the artist form *)

(** X21. The list of specialties of the artist form never gains a
    duplicate or an empty entry: [addSpecialty] keeps a duplicate-free
    list duplicate-free, adds nothing when the specialty is empty or
    already listed, and otherwise appends it at the end;
    [removeSpecialty] keeps the list duplicate-free too. *)
Theorem specialties_stay_distinct (specialties : list string) (specialty : string) :
  (NoDup specialties →
   NoDup (ArtistModal.addSpecialty specialties specialty) ∧
   NoDup (ArtistModal.removeSpecialty specialties specialty)) ∧
  (specialty = ""%string ∨ specialty ∈ specialties →
   ArtistModal.addSpecialty specialties specialty = specialties) ∧
  (specialty ≠ ""%string → specialty ∉ specialties →
   ArtistModal.addSpecialty specialties specialty = specialties ++ [specialty]) ∧
  (""%string ∉ specialties →
   ""%string ∉ ArtistModal.addSpecialty specialties specialty).
Proof.
  unfold ArtistModal.addSpecialty, ArtistModal.removeSpecialty.
  split; [|split; [|split]].
  - intros Hnd. split; [|by apply NoDup_filter].
    case_decide as Hadd; [|done].
    apply NoDup_app. split; [done|]. split; [|apply NoDup_singleton].
    intros x Hx ->%list_elem_of_singleton. by destruct Hadd.
  - intros Hskip. rewrite decide_False; [done|].
    intros [Hne Hnew]. by destruct Hskip.
  - intros Hne Hnew. by rewrite decide_True.
  - intros Hempty. case_decide as Hadd; [|done].
    rewrite elem_of_app, list_elem_of_singleton. intros [?|Heq]; [done|].
    by destruct Hadd.
Qed.

Lemma specialties_stay_distinct_example :
  NoDup ["blackwork"; "realism"]%string ∧
  ArtistModal.addSpecialty ["blackwork"; "realism"] "realism"
    = ["blackwork"; "realism"]%string ∧
  ArtistModal.addSpecialty ["blackwork"; "realism"] "dotwork"
    = ["blackwork"; "realism"; "dotwork"]%string ∧
  NoDup (ArtistModal.addSpecialty ["blackwork"; "realism"] "dotwork").
Proof.
  assert (Hnd : NoDup ["blackwork"; "realism"]%string).
  { apply (bool_decide_unpack _). vm_compute. exact I. }
  destruct (specialties_stay_distinct ["blackwork"; "realism"]%string "realism")
    as (_ & Hskip & _).
  destruct (specialties_stay_distinct ["blackwork"; "realism"]%string "dotwork")
    as (Hkeep & _ & Hadd & _).
  split; [exact Hnd|]. split; [|split].
  - apply Hskip. right. apply (bool_decide_unpack _). vm_compute. exact I.
  - apply Hadd; [discriminate|]. apply (bool_decide_unpack _). vm_compute. exact I.
  - exact (proj1 (Hkeep Hnd)).
Defined.

(** X22. [removeSpecialty] removes every occurrence of the specialty and
    nothing else, keeping the order; removing a specialty that was just
    added to a list that did not have it gives the list back, and adding
    a specialty twice is adding it once. *)
Theorem specialties_add_remove (specialties : list string) (specialty : string) :
  (specialty ∉ ArtistModal.removeSpecialty specialties specialty) ∧
  (∀ s, s ≠ specialty →
        (s ∈ ArtistModal.removeSpecialty specialties specialty ↔ s ∈ specialties)) ∧
  ArtistModal.removeSpecialty specialties specialty `sublist_of` specialties ∧
  (specialty ∉ specialties →
   ArtistModal.removeSpecialty
     (ArtistModal.addSpecialty specialties specialty) specialty = specialties) ∧
  ArtistModal.addSpecialty (ArtistModal.addSpecialty specialties specialty)
                          specialty
    = ArtistModal.addSpecialty specialties specialty.
Proof.
  unfold ArtistModal.removeSpecialty.
  assert (Hid : ∀ l : list string, specialty ∉ l →
                  filter (λ s, s ≠ specialty) l = l).
  { induction l as [|x l IH]; [done|]. intros Hnot.
    apply not_elem_of_cons in Hnot as [Hx Hl].
    rewrite filter_cons_True by done. by rewrite IH. }
  split; [|split; [|split; [|split]]].
  - rewrite list_elem_of_filter. by intros [? _].
  - intros s Hne. rewrite list_elem_of_filter.
    split; [by intros [_ ?]|by intros ?].
  - apply sublist_filter.
  - intros Hnew. unfold ArtistModal.addSpecialty. case_decide as Hadd.
    + rewrite filter_app, Hid by done.
      rewrite filter_cons_False, filter_nil by (by intros ?).
      apply app_nil_r.
    + by apply Hid.
  - destruct (decide (specialty ≠ ""%string ∧ specialty ∉ specialties))
      as [Hadd|Hadd].
    + assert (Heq : ArtistModal.addSpecialty specialties specialty
                    = specialties ++ [specialty])
        by (unfold ArtistModal.addSpecialty; by rewrite decide_True).
      rewrite Heq. unfold ArtistModal.addSpecialty.
      rewrite decide_False; [done|].
      intros [_ Hnot]. apply Hnot. apply elem_of_app. right.
      by apply list_elem_of_singleton.
    + assert (Heq : ArtistModal.addSpecialty specialties specialty = specialties)
        by (unfold ArtistModal.addSpecialty; by rewrite decide_False).
      by rewrite !Heq.
Qed.

Lemma specialties_add_remove_example :
  ("dotwork"%string ∉ ["blackwork"; "realism"]%string) ∧
  ArtistModal.removeSpecialty
    (ArtistModal.addSpecialty ["blackwork"; "realism"] "dotwork") "dotwork"
    = ["blackwork"; "realism"]%string.
Proof.
  assert (Hnew : "dotwork"%string ∉ ["blackwork"; "realism"]%string).
  { apply (bool_decide_unpack _). vm_compute. exact I. }
  destruct (specialties_add_remove ["blackwork"; "realism"]%string "dotwork")
    as (_ & _ & _ & Hback & _).
  split; [exact Hnew|]. exact (Hback Hnew).
Defined.

(** ** The reference-image picker *)

Section Upload.

Import FileUpload.

Lemma filter_nonempty_Exists {A} (P : A → Prop) `{!∀ x, Decision (P x)}
    (l : list A) :
  Z.of_nat (length (filter P l)) > 0 ↔ Exists P l.
Proof.
  induction l as [|x l IH].
  - rewrite filter_nil. simpl. split; [lia|by inversion 1].
  - destruct (decide (P x)) as [Hx|Hx].
    + rewrite filter_cons_True by done. simpl. split; [by left|lia].
    + rewrite filter_cons_False by done. rewrite IH. split; [by right|].
      by inversion 1.
Qed.

(** Filtering out one position of a list numbered from [start]. *)
Lemma filter_index_delete (l : list string) (start index : Z) :
  snd <$> filter (λ ix : Z * string, ix.1 ≠ index)
                 (zip (seqZ start (Z.of_nat (length l))) l)
  = if decide (start ≤ index) then delete (Z.to_nat (index - start)) l else l.
Proof.
  revert start. induction l as [|x l IH]; intros start.
  - by case_decide.
  - rewrite seqZ_cons by (simpl; lia).
    replace (Z.pred (Z.of_nat (length (x :: l)))) with (Z.of_nat (length l))
      by (simpl; lia).
    simpl zip. destruct (decide (start = index)) as [->|Hne].
    + rewrite filter_cons_False by (simpl; intros Hne; by apply Hne).
      rewrite IH, decide_False, decide_True by lia.
      by replace (index - index) with 0 by lia.
    + rewrite filter_cons_True by done. csimpl. rewrite IH.
      destruct (decide (start ≤ index)) as [Hle|Hgt].
      * rewrite decide_True by lia.
        replace (Z.to_nat (index - start))
          with (S (Z.to_nat (index - Z.succ start))) by lia. done.
      * by rewrite decide_False by lia.
Qed.

Lemma delete_beyond {A} (l : list A) (i : nat) :
  (length l ≤ i)%nat → delete i l = l.
Proof.
  revert i. induction l as [|x l IH]; intros i Hi; [done|].
  destruct i as [|i]; simpl in *; [lia|].
  f_equal. apply IH. lia.
Qed.

End Upload.

(** X23. What the picker does with a selection. If the urls already held
    and the files selected are more than [maxFiles] together, nothing is
    uploaded, whatever the files are. Otherwise nothing is uploaded if
    some file is not of an image type or is larger than [maxSizePerFile]
    MB; otherwise all the files are uploaded, and once the server has
    answered one url per file the picker holds at most [maxFiles] urls. *)
Theorem picker_selection (value : list string) (maxFiles maxSizePerFile : Z)
    (files : list FileUpload.File) :
  let tooMany := Z.of_nat (length value) + Z.of_nat (length files) > maxFiles in
  let valid (f : FileUpload.File) :=
    String.prefix "image/" (FileUpload.type f) = true ∧
    FileUpload.size f ≤ maxSizePerFile * 1024 * 1024 in
  (tooMany →
   FileUpload.handleFiles value maxFiles maxSizePerFile files
     = FileUpload.TooManyFiles) ∧
  (¬ tooMany → ¬ Forall valid files →
   FileUpload.handleFiles value maxFiles maxSizePerFile files
     = FileUpload.InvalidFiles) ∧
  (¬ tooMany → Forall valid files →
   FileUpload.handleFiles value maxFiles maxSizePerFile files
     = FileUpload.Uploading files ∧
   ∀ urls, length urls = length files →
           Z.of_nat (length (FileUpload.onSuccess value urls)) ≤ maxFiles).
Proof.
  intros tooMany valid.
  assert (Hinvalid : ∀ f, FileUpload.isInvalid maxSizePerFile f ↔ ¬ valid f).
  { intros f. unfold FileUpload.isInvalid, valid. cbv zeta.
    destruct (String.prefix "image/" (FileUpload.type f)); simpl.
    - rewrite negb_True, bool_decide_spec. split; [by intros ? [_ ?]|].
      intros Hnot Hle. by apply Hnot.
    - split; [by intros _ [? _]|done]. }
  unfold FileUpload.handleFiles. fold tooMany. cbv zeta.
  split; [|split].
  - intros Hmany. by rewrite decide_True.
  - intros Hfew Hbad. rewrite decide_False by done.
    rewrite decide_True; [done|].
    apply filter_nonempty_Exists.
    apply not_Forall_Exists in Hbad; [|apply _].
    eapply Exists_impl; [exact Hbad|]. intros f. apply Hinvalid.
  - intros Hfew Hgood. rewrite decide_False by done.
    rewrite decide_False.
    + split; [done|]. intros urls Hlen. unfold FileUpload.onSuccess.
      rewrite length_app, Hlen. subst tooMany. lia.
    + rewrite filter_nonempty_Exists. intros Hex.
      apply Exists_exists in Hex as (f & Hf & Hbad).
      rewrite Forall_forall in Hgood. apply Hinvalid in Hbad.
      by apply Hbad, Hgood.
Qed.

(** With the defaults of the picker (5 files of 10 MB): three urls held
    and three photos selected are too many; a PDF among two files is
    refused; two photos are uploaded. *)
Lemma picker_selection_example :
  let held := ["/uploads/a"; "/uploads/b"; "/uploads/c"]%string in
  let jpg := Sample.photo "image/jpeg" 204800 in
  let pdf := Sample.photo "application/pdf" 204800 in
  FileUpload.handleFiles held 5 10 [jpg; jpg; jpg] = FileUpload.TooManyFiles ∧
  FileUpload.handleFiles held 5 10 [jpg; pdf] = FileUpload.InvalidFiles ∧
  FileUpload.handleFiles held 5 10 [jpg; jpg] = FileUpload.Uploading [jpg; jpg] ∧
  Z.of_nat (length (FileUpload.onSuccess held ["/uploads/d"; "/uploads/e"]%string))
    ≤ 5.
Proof.
  intros held jpg pdf.
  destruct (picker_selection held 5 10 [jpg; jpg; jpg]) as (Hmany & _).
  destruct (picker_selection held 5 10 [jpg; pdf]) as (_ & Hbad & _).
  destruct (picker_selection held 5 10 [jpg; jpg]) as (_ & _ & Hgood).
  assert (Hjpg : String.prefix "image/" (FileUpload.type jpg) = true ∧
                 FileUpload.size jpg ≤ 10 * 1024 * 1024)
    by (split; [reflexivity|vm_compute; discriminate]).
  split; [|split].
  - apply Hmany. vm_compute. reflexivity.
  - apply Hbad.
    + vm_compute. discriminate.
    + intros Hall. apply Forall_cons in Hall as [_ Hall].
      apply Forall_cons in Hall as [[Hpdf _] _]. discriminate Hpdf.
  - assert (Hfew : ¬ Z.of_nat (length held) + Z.of_nat (length [jpg; jpg]) > 5)
      by (vm_compute; discriminate).
    assert (Hall : Forall (λ f, String.prefix "image/" (FileUpload.type f) = true ∧
                                FileUpload.size f ≤ 10 * 1024 * 1024) [jpg; jpg])
      by (repeat constructor; apply Hjpg).
    destruct (Hgood Hfew Hall) as [Hup Hheld].
    split; [exact Hup|]. by apply Hheld.
Defined.

(** X24. [removeFile] removes the url at the given position and keeps the
    others in order; a position outside the list leaves the list as it
    is. *)
Theorem removeFile_position (value : list string) (index : Z) :
  (0 ≤ index →
   FileUpload.removeFile value index = delete (Z.to_nat index) value) ∧
  (0 ≤ index < Z.of_nat (length value) →
   length (FileUpload.removeFile value index) = pred (length value)) ∧
  (index < 0 ∨ Z.of_nat (length value) ≤ index →
   FileUpload.removeFile value index = value).
Proof.
  unfold FileUpload.removeFile. rewrite filter_index_delete.
  split; [|split].
  - intros Hpos. rewrite decide_True by done. by rewrite Z.sub_0_r.
  - intros [Hpos Hin]. rewrite decide_True by done. rewrite Z.sub_0_r.
    rewrite length_delete; [lia|]. apply lookup_lt_is_Some. lia.
  - intros [Hneg|Hout].
    + by rewrite decide_False by lia.
    + case_decide; [|done]. rewrite Z.sub_0_r.
      apply delete_beyond. lia.
Qed.

Lemma removeFile_position_example :
  FileUpload.removeFile ["/uploads/a"; "/uploads/b"; "/uploads/c"] 1
    = ["/uploads/a"; "/uploads/c"]%string ∧
  FileUpload.removeFile ["/uploads/a"; "/uploads/b"; "/uploads/c"] 3
    = ["/uploads/a"; "/uploads/b"; "/uploads/c"]%string.
Proof.
  destruct (removeFile_position
              ["/uploads/a"; "/uploads/b"; "/uploads/c"]%string 1)
    as (Hin & _).
  destruct (removeFile_position
              ["/uploads/a"; "/uploads/b"; "/uploads/c"]%string 3)
    as (_ & _ & Hout).
  split.
  - rewrite Hin by lia. reflexivity.
  - apply Hout. right. simpl. lia.
Defined.

(** ** The stock filters of the inventory page *)

(** X25. For an item whose stock and minimum level are not negative, the
    stock filters of the inventory page agree with its labels: "out"
    selects the items labelled "Out of Stock", "in" those labelled
    "In Stock", "low" those labelled "Low Stock" or "Out of Stock", and
    the warning sign marks exactly the items labelled "Low Stock". Any
    other filter value selects every item. *)
Theorem stock_filters_and_labels (currentStock minLevel : Z) :
  0 ≤ currentStock → 0 ≤ minLevel →
  let l := InventoryPage.label
             (InventoryPage.getStockStatus currentStock minLevel) in
  (InventoryPage.matchesStock "out" currentStock minLevel = true
     ↔ l = "Out of Stock"%string) ∧
  (InventoryPage.matchesStock "in" currentStock minLevel = true
     ↔ l = "In Stock"%string) ∧
  (InventoryPage.matchesStock "low" currentStock minLevel = true
     ↔ l = "Low Stock"%string ∨ l = "Out of Stock"%string) ∧
  (InventoryPage.showsWarning currentStock minLevel = true
     ↔ l = "Low Stock"%string) ∧
  (∀ stockFilter,
     stockFilter ≠ "low"%string → stockFilter ≠ "out"%string →
     stockFilter ≠ "in"%string →
     InventoryPage.matchesStock stockFilter currentStock minLevel = true).
Proof.
  intros Hstock Hmin l. subst l.
  unfold InventoryPage.matchesStock, InventoryPage.showsWarning.
  rewrite !(decide_False (P := ("out" = "low")%string)) by done.
  rewrite !(decide_False (P := ("in" = "low")%string)) by done.
  rewrite !(decide_False (P := ("in" = "out")%string)) by done.
  rewrite !(decide_True (P := ("out" = "out")%string)) by done.
  rewrite !(decide_True (P := ("in" = "in")%string)) by done.
  rewrite !(decide_True (P := ("low" = "low")%string)) by done.
  rewrite andb_true_iff, !bool_decide_eq_true.
  assert (Hany : ∀ stockFilter : string,
            stockFilter ≠ "low"%string → stockFilter ≠ "out"%string →
            stockFilter ≠ "in"%string →
            (if decide (stockFilter = "low"%string)
             then bool_decide (currentStock ≤ minLevel)
             else if decide (stockFilter = "out"%string)
             then bool_decide (currentStock = 0)
             else if decide (stockFilter = "in"%string)
             then bool_decide (currentStock > minLevel) else true) = true).
  { intros stockFilter ???. by rewrite !decide_False. }
  destruct (getStockStatus_cases currentStock minLevel)
    as [[? ->] | [(? & ? & ->) | (? & ? & ->)]];
    (split; [|split; [|split; [|split; [|exact Hany]]]]);
    split; intros Hx; try done; try lia;
    try (destruct Hx; (done || lia)); try (by left); try (by right).
Qed.

Lemma stock_filters_and_labels_example :
  0 ≤ 3 ∧ 0 ≤ 5 ∧
  InventoryPage.matchesStock "low" 3 5 = true ∧
  InventoryPage.showsWarning 3 5 = true ∧
  InventoryPage.matchesStock "all" 3 5 = true.
Proof.
  assert (H3 : 0 ≤ 3) by lia. assert (H5 : 0 ≤ 5) by lia.
  destruct (stock_filters_and_labels 3 5 H3 H5)
    as (_ & _ & Hlow & Hwarn & Hany).
  split; [exact H3|]. split; [exact H5|]. split; [|split].
  - apply Hlow. left. reflexivity.
  - apply Hwarn. reflexivity.
  - apply Hany; discriminate.
Defined.

(** ** All sales, and what a new sale does to the month's revenue *)

(** X26. [getSales] lists every sale once, with the client, artist and
    appointment its row names: the sales without a date first, then the
    dated ones, latest first. *)
Theorem sales_listing (db : Database) :
  (∀ r, r ∈ Storage.getSales db ↔
        ∃ id s, sales db !! id = Some s ∧
                r = Storage.saleWithRelations db (id, s)) ∧
  length (Storage.getSales db) = size (sales db) ∧
  NoDup (SaleWithRelations.id <$> Storage.getSales db) ∧
  StronglySorted
    (λ r r', match Sale.saleDate (SaleWithRelations.row r),
                   Sale.saleDate (SaleWithRelations.row r') with
             | None, _ => True
             | Some _, None => False
             | Some d, Some d' => d' ≤ d
             end)
    (Storage.getSales db).
Proof.
  unfold Storage.getSales. split; [|split; [|split]].
  - intros r. rewrite list_elem_of_fmap. split.
    + intros ([id s] & -> & Hin). apply elem_of_sorted_rows in Hin.
      by exists id, s.
    + intros (id & s & Hrow & ->). exists (id, s). split; [done|].
      by apply elem_of_sorted_rows.
  - by rewrite length_fmap, length_sorted_rows.
  - rewrite <-list_fmap_compose.
    replace (SaleWithRelations.id ∘ Storage.saleWithRelations db)
      with (fst : Id * Sale.t → Id) by done.
    apply NoDup_sorted_keys.
  - apply (StronglySorted_fmap _ Storage.descSaleDate); [done|].
    apply StronglySorted_merge_sort; apply _.
Qed.

Section Revenue.

Import Storage.

Lemma monthlyRevenue_insert now db id row :
  sales db !! id = None →
  monthlyRevenue (getDashboardStats now (withSale db id row))
    = monthlyRevenue (getDashboardStats now db)
      + (if decide (from_option
                      (λ d, newDate (getFullYear now) (getMonth now) 1 ≤ d ∧
                            d ≤ newDate (getFullYear now) (getMonth now + 1) 1
                                  - msPerDay)
                      False (Sale.saleDate row))
         then Sale.totalAmount row else 0).
Proof.
  intros Hfresh. rewrite !monthlyRevenue_window.
  unfold withSale. cbn [sales].
  case_decide as Hin.
  - rewrite map_filter_insert_True by done.
    rewrite map_fold_insert_L; [lia| |].
    + intros. lia.
    + apply map_lookup_filter_None. by left.
  - rewrite map_filter_insert_False, delete_id by done. lia.
Qed.

End Revenue.

(** X27. A sale stored by POST /api/sales without a [saleDate] is dated
    [now]. The dashboard evaluated at that same moment then shows a
    [monthlyRevenue] raised by the sale's total, unless [now] lies after
    00:00 of the month's last day, in which case the figure does not
    change. *)
Theorem new_sale_and_monthly_revenue (body : SaleBody.t) (now : Timestamp)
    (newId : Id) (db db' : Database) (row : Sale.t) :
  Routes.postSales body now newId db = (Json 201 row, db') →
  SaleBody.saleDate body = None →
  let lastMidnight :=
    newDate (getFullYear now) (getMonth now + 1) 1 - msPerDay in
  Sale.saleDate row = Some now ∧
  (now ≤ lastMidnight →
   Storage.monthlyRevenue (Storage.getDashboardStats now db')
     = Storage.monthlyRevenue (Storage.getDashboardStats now db)
       + Sale.totalAmount row) ∧
  (lastMidnight < now →
   Storage.monthlyRevenue (Storage.getDashboardStats now db')
     = Storage.monthlyRevenue (Storage.getDashboardStats now db)).
Proof.
  intros Hpost Hdate lastMidnight. unfold Routes.postSales in Hpost.
  destruct (Routes.parseInsertSale body) as [sale|] eqn:Hparse; [|done].
  assert (Hsale : InsertSale.saleDate sale = None).
  { by destruct (parseInsertSale_Some _ _ Hparse) as (_ & _ & _ & _ & _ & ?). }
  unfold Storage.createSale in Hpost.
  case_decide as Hfits; [|done].
  case_decide as Hkey; [done|]. case_decide as Hrefs; [|done].
  simplify_eq.
  assert (Hfresh : sales db !! newId = None).
  { destruct (sales db !! newId) eqn:E; [|done]. destruct Hkey. by eexists. }
  assert (Hrow : Sale.saleDate (Storage.insertedSale sale now) = Some now).
  { simpl. by rewrite Hsale. }
  split; [exact Hrow|].
  pose proof (monthlyRevenue_insert now db newId
                (Storage.insertedSale sale now) Hfresh) as Hins.
  rewrite Hrow in Hins. cbn [from_option] in Hins.
  pose proof (first_of_month_le now) as Hfirst.
  unfold withSale in Hins. rewrite Hins. fold lastMidnight.
  split.
  - intros Hle. by rewrite decide_True by (split; [exact Hfirst|exact Hle]).
  - intros Hgt. rewrite decide_False; [lia|]. intros [_ Hle]. lia.
Qed.

(** On 2024-02-15 a sale of 100.00 raises the month's revenue from
    100.00 to 200.00; on 2024-02-29 at 09:00 it leaves it at 100.00. *)
Lemma new_sale_and_monthly_revenue_example :
  let feb29 := at_ 2024 1 29 9 0 0 0 in
  Storage.monthlyRevenue (Storage.getDashboardStats Example.feb15 Example.studio)
    = 10000 ∧
  Storage.monthlyRevenue
    (Storage.getDashboardStats Example.feb15
       (withSale Example.studio "s3"
          (Storage.insertedSale
             (InsertSale.mk None "c1" "a1" 10000 None None None None None None)
             Example.feb15))) = 20000 ∧
  Storage.monthlyRevenue
    (Storage.getDashboardStats feb29
       (withSale Example.studio "s3"
          (Storage.insertedSale
             (InsertSale.mk None "c1" "a1" 10000 None None None None None None)
             feb29))) = 10000.
Proof.
  intros feb29.
  set (body := SaleBody.mk None (Some "c1"%string) (Some "a1"%string)
                 (Some 10000) None None None None None None).
  set (sale := InsertSale.mk None "c1" "a1" 10000 None None None None None None).
  assert (Hpost : ∀ t, Routes.postSales body t "s3" Example.studio
            = (Json 201 (Storage.insertedSale sale t),
               withSale Example.studio "s3" (Storage.insertedSale sale t))).
  { intros t. apply postSales_created; [reflexivity| |vm_compute; reflexivity|].
    - apply (bool_decide_unpack _). vm_compute. exact I.
    - apply (bool_decide_unpack _). vm_compute. exact I. }
  destruct (new_sale_and_monthly_revenue _ _ _ _ _ _ (Hpost Example.feb15)
              eq_refl) as (_ & Hraise & _).
  destruct (new_sale_and_monthly_revenue _ _ _ _ _ _ (Hpost feb29) eq_refl)
    as (_ & _ & Hsame).
  assert (Hbase : ∀ t, Day t = Day Example.feb15 ∨ Day t = Day feb29 →
            Storage.monthlyRevenue (Storage.getDashboardStats t Example.studio)
              = 10000).
  { intros t [Ht|Ht];
      cbv beta iota zeta delta [Storage.getDashboardStats Storage.monthlyRevenue];
      rewrite setHours_midnight, Ht; vm_compute; reflexivity. }
  split; [apply Hbase; by left|]. split.
  - rewrite Hraise by (vm_compute; discriminate).
    rewrite Hbase by (by left). reflexivity.
  - rewrite Hsame by (vm_compute; reflexivity). apply Hbase. by right.
Defined.
